(** * ClanBot: clan membership and channel-permission synchronisation

    A shallow embedding of [src/ClanBot.py].  The bot keeps three
    representations of a clan in step: rows of a SQLite database, a
    Discord role, and the permission overwrites of a text and a voice
    channel.  Every coroutine of the source becomes a computation in a
    state-and-exception monad over a [World] made of the database, the
    guild as Discord holds it, and a trace of the effects performed.

    Calls that leave the process (create a role, delete a channel, ...)
    can fail independently of one another; their result is drawn from an
    [oracle] indexed by the number of calls made so far, so that the
    theorems hold for every failure schedule. *)

From Stdlib Require Import ZArith List String Ascii Bool Lia DecimalString Sorted.
Import ListNotations.

Local Open Scope Z_scope.
Local Open Scope list_scope.

(** ** Discord objects *)

Inductive ChannelKind := TextChannel | VoiceChannel | CategoryChannel.

(** [discord.PermissionOverwrite]: each permission is allowed
    ([Some true]), denied ([Some false]) or inherited ([None]). *)
Record PermissionOverwrite := {
  view_channel : option bool;
  send_messages : option bool;
  connect : option bool;
  speak : option bool;
  manage_channels : option bool
}.

(** The keys of an overwrite mapping.  discord.py compares and hashes
    roles and members by class and id, so a key is the class together
    with the id. *)
Inductive Principal :=
| PRole (id : Z)
| PMember (id : Z).

Definition principal_eqb (p q : Principal) : bool :=
  match p, q with
  | PRole a, PRole b => a =? b
  | PMember a, PMember b => a =? b
  | _, _ => false
  end.

(** A Python [dict]: insertion ordered, an assignment to an existing key
    replaces the value in place. *)
Definition Overwrites := list (Principal * PermissionOverwrite).

Fixpoint dict_set (d : Overwrites) (k : Principal) (v : PermissionOverwrite)
  : Overwrites :=
  match d with
  | [] => [(k, v)]
  | (k', v') :: rest =>
      if principal_eqb k' k then (k', v) :: rest
      else (k', v') :: dict_set rest k v
  end.

Fixpoint dict_get (d : Overwrites) (k : Principal) : option PermissionOverwrite :=
  match d with
  | [] => None
  | (k', v') :: rest => if principal_eqb k' k then Some v' else dict_get rest k
  end.

Record Role := { role_id : Z; role_name : string }.

Record Member := { member_id : Z; member_roles : list Z }.

Record Channel := {
  channel_id : Z;
  channel_name : string;
  channel_kind : ChannelKind;
  category_id : option Z;
  channel_overwrites : Overwrites
}.

(** The guild as the platform holds it.  [next_snowflake] is the id the
    platform gives to the next object it creates. *)
Record Guild := {
  guild_id : Z;
  roles : list Role;
  members : list Member;
  channels : list Channel;
  next_snowflake : Z
}.

(** ** The database: tables [clans] and [clan_members] *)

Record ClanRow := {
  clan_id : Z;
  clan_name : string;
  leader_id : Z;
  text_channel_id : Z;
  voice_channel_id : Z
}.

(** Rows are kept in insertion order; [clans_seq] is the AUTOINCREMENT
    counter of [clans] (table [sqlite_sequence]).  A [clan_members] row
    is the pair (clan_id, member_id). *)
Record DB := {
  clans : list ClanRow;
  clan_members : list (Z * Z);
  clans_seq : Z
}.

(** ** Effects *)

Inductive Embed := MkEmbed (title : string) (fields : list (string * string * bool)).

Inductive Reply :=
| RText (content : string)
| REmbed (embed : Embed).

(** The requests sent to the platform. *)
Inductive ExtCall :=
| CreateRole (name : string)
| CreateCategory (name : string)
| CreateTextChannel (name : string) (category : Z)
| CreateVoiceChannel (name : string) (category : Z)
| DeleteRole (role : Z)
| DeleteChannel (channel : Z)
| EditChannel (channel : Z)
| AddRoles (member : Z) (role : Z)
| RemoveRoles (member : Z) (role : Z)
| SendMessage (reply : Reply).

(** What the platform answers: the request is carried out, refused for
    lack of privilege ([discord.Forbidden]), or fails otherwise
    ([discord.HTTPException]); [text] is what [str] makes of that
    exception, which discord.py composes from the answer. *)
Inductive Outcome := Success | Denied | Failed (text : string).

Inductive StoreOp :=
| InsertClan (id : Z)
| InsertMember (clan member : Z)
| DeleteMember (clan member : Z)
| DeleteClan (id : Z).

(** One entry of the trace; the trace is kept newest first. *)
Inductive Event :=
| ECall (c : ExtCall) (o : Outcome)
| EStore (op : StoreOp)
| ELog (line : string).

Inductive Exn :=
| Forbidden
| HTTPException (text : string)
| IntegrityError
| AttributeError
| UnboundLocalError.

Inductive Res (A : Type) :=
| Ok (a : A)
| Raise (e : Exn).
Arguments Ok {A} a.
Arguments Raise {A} e.

(** [tasks] holds the clan ids of the reconciliations scheduled with
    [bot.loop.create_task] and not yet run, oldest first. *)
Record World := {
  db : DB;
  guild : Guild;
  clock : nat;
  trace : list Event;
  tasks : list Z
}.

Definition set_db (d : DB) (w : World) : World :=
  {| db := d; guild := guild w; clock := clock w; trace := trace w; tasks := tasks w |}.

Definition set_guild (g : Guild) (w : World) : World :=
  {| db := db w; guild := g; clock := clock w; trace := trace w; tasks := tasks w |}.

Definition log_event (e : Event) (w : World) : World :=
  {| db := db w; guild := guild w; clock := clock w; trace := e :: trace w; tasks := tasks w |}.

Definition tick (w : World) : World :=
  {| db := db w; guild := guild w; clock := S (clock w); trace := trace w; tasks := tasks w |}.

Definition set_tasks (l : list Z) (w : World) : World :=
  {| db := db w; guild := guild w; clock := clock w; trace := trace w; tasks := l |}.

(** ** The monad of coroutines *)

Definition M (A : Type) : Type := World -> Res A * World.

Definition ret {A} (a : A) : M A := fun w => (Ok a, w).

Definition raise {A} (e : Exn) : M A := fun w => (Raise e, w).

Definition bind {A B} (m : M A) (f : A -> M B) : M B :=
  fun w =>
    match m w with
    | (Ok a, w') => f a w'
    | (Raise e, w') => (Raise e, w')
    end.

(** [attempt m] runs the body of a [try]: the result or the exception
    raised comes back as a value for the [except] clauses to inspect. *)
Definition attempt {A} (m : M A) : M (Res A) :=
  fun w => let (r, w') := m w in (Ok r, w').

Definition gets {A} (f : World -> A) : M A := fun w => (Ok (f w), w).

Definition modify (f : World -> World) : M unit := fun w => (Ok tt, f w).

Declare Scope coro_scope.
Delimit Scope coro_scope with coro.
Notation "x <- m ;; k" := (bind m (fun x => k))
  (at level 100, m at next level, right associativity) : coro_scope.
Notation "m ;; k" := (bind m (fun _ => k))
  (at level 100, right associativity) : coro_scope.
Local Open Scope coro_scope.

Fixpoint for_each {A} (l : list A) (body : A -> M unit) : M unit :=
  match l with
  | [] => ret tt
  | x :: rest => body x ;; for_each rest body
  end.

(** [print]: a line on the console. *)
Definition print (line : string) : M unit := modify (log_event (ELog line)).

(** ** Strings *)

Definition lower_ascii (c : ascii) : ascii :=
  let n := nat_of_ascii c in
  if (Nat.leb 65 n && Nat.leb n 90)%bool then ascii_of_nat (n + 32) else c.

(** [str.lower] of a name made of ASCII characters: the letters A-Z
    become a-z, nothing else changes.  On a name with other cased
    letters [str.lower] changes these as well; what is stated below of the
    names of channels is stated of ASCII names ([ascii_name]). *)
Fixpoint lower (s : string) : string :=
  match s with
  | EmptyString => EmptyString
  | String c rest => String (lower_ascii c) (lower rest)
  end.

Definition str_of_Z (z : Z) : string := NilZero.string_of_int (Z.to_int z).

Definition member_mention (id : Z) : string := ("<@" ++ str_of_Z id ++ ">")%string.
Definition channel_mention (id : Z) : string := ("<#" ++ str_of_Z id ++ ">")%string.

(** [', '.join(l)] *)
Fixpoint join (sep : string) (l : list string) : string :=
  match l with
  | [] => EmptyString
  | [s] => s
  | s :: rest => (s ++ sep ++ join sep rest)%string
  end.

(** [str(e)] in the log line of line 108.  The requests the [try] of
    lines 102-104 makes raise [Forbidden], caught by the clause before,
    or [HTTPException]: its text is printed; no other exception gets
    there (lemma [channel_edit_raises]). *)
Definition exn_str (e : Exn) : string :=
  match e with
  | HTTPException text => text
  | _ => EmptyString
  end.

(** ** Reading the database *)

(** [SELECT * FROM clans WHERE name = ?] then [fetchone]. *)
Definition get_clan_by_name (name : string) (d : DB) : option ClanRow :=
  find (fun r => String.eqb (clan_name r) name) (clans d).

(** [SELECT ... FROM clans WHERE id = ?] then [fetchone]. *)
Definition get_clan_by_id (id : Z) (d : DB) : option ClanRow :=
  find (fun r => clan_id r =? id) (clans d).

(** The place of an id among ids in increasing order. *)
Fixpoint insert_id (x : Z) (l : list Z) : list Z :=
  match l with
  | [] => [x]
  | y :: rest => if x <=? y then x :: l else y :: insert_id x rest
  end.

(** Rows as an index on an integer column gives them: smallest first. *)
Definition by_id (l : list Z) : list Z := fold_right insert_id [] l.

(** [SELECT member_id FROM clan_members WHERE clan_id = ?].  SQLite
    answers this query from the index of the primary key
    (clan_id, member_id), so the ids come in increasing order and not in
    the order of insertion. *)
Definition get_members (cid : Z) (d : DB) : list Z :=
  by_id (map snd (filter (fun p => fst p =? cid) (clan_members d))).

(** [SELECT clan_id FROM clan_members WHERE member_id = ?]: no index
    starts with member_id, the table is scanned in the order of
    insertion. *)
Definition clans_of_member (uid : Z) (d : DB) : list Z :=
  map fst (filter (fun p => snd p =? uid) (clan_members d)).

(** Clan id of the first membership row of the user, if any. *)
Definition get_user_clan (uid : Z) (d : DB) : option Z :=
  match clans_of_member uid d with
  | [] => None
  | cid :: _ => Some cid
  end.

(** Python truthiness of [None] or an [int]. *)
Definition truthy_int (o : option Z) : bool :=
  match o with
  | None => false
  | Some z => negb (z =? 0)
  end.

Definition is_some {A} (o : option A) : bool :=
  match o with
  | Some _ => true
  | None => false
  end.

(** ** Writing the database *)

(** The rowid AUTOINCREMENT gives to the next clan: one more than the
    largest id the table ever held. *)
Definition next_rowid (d : DB) : Z :=
  1 + Z.max (clans_seq d) (fold_right Z.max 0 (map clan_id (clans d))).

Definition pair_eqb (p q : Z * Z) : bool :=
  (fst p =? fst q) && (snd p =? snd q).

Definition has_member (cid mid : Z) (d : DB) : bool :=
  existsb (pair_eqb (cid, mid)) (clan_members d).

Definition store (op : StoreOp) (f : DB -> DB) : M unit :=
  modify (fun w => log_event (EStore op) (set_db (f (db w)) w)).

(** [INSERT INTO clans (name, leader_id, text_channel_id,
    voice_channel_id)]: refused when the name is taken (UNIQUE). *)
Definition insert_clan (name : string) (leader text voice : Z) : M Z :=
  d <- gets db ;;
  if existsb (fun r => String.eqb (clan_name r) name) (clans d)
  then raise IntegrityError
  else
    let cid := next_rowid d in
    store (InsertClan cid)
      (fun d => {| clans := clans d ++ [ {| clan_id := cid; clan_name := name;
                                            leader_id := leader;
                                            text_channel_id := text;
                                            voice_channel_id := voice |} ];
                   clan_members := clan_members d;
                   clans_seq := cid |}) ;;
    ret cid.

(** [INSERT INTO clan_members]: refused when the pair is there
    (PRIMARY KEY). *)
Definition insert_member (cid mid : Z) : M unit :=
  d <- gets db ;;
  if has_member cid mid d then raise IntegrityError
  else store (InsertMember cid mid)
         (fun d => {| clans := clans d;
                      clan_members := clan_members d ++ [(cid, mid)];
                      clans_seq := clans_seq d |}).

(** [INSERT OR IGNORE INTO clan_members]. *)
Definition insert_or_ignore_member (cid mid : Z) : M unit :=
  d <- gets db ;;
  if has_member cid mid d then ret tt
  else store (InsertMember cid mid)
         (fun d => {| clans := clans d;
                      clan_members := clan_members d ++ [(cid, mid)];
                      clans_seq := clans_seq d |}).

Definition delete_member_rows (cid mid : Z) (d : DB) : DB :=
  {| clans := clans d;
     clan_members := filter (fun p => negb (pair_eqb (cid, mid) p)) (clan_members d);
     clans_seq := clans_seq d |}.

(** [DELETE FROM clan_members WHERE clan_id = ? AND member_id = ?]. *)
Definition delete_member (cid mid : Z) : M unit :=
  store (DeleteMember cid mid) (delete_member_rows cid mid).

Definition delete_clan_rows (cid : Z) (d : DB) : DB :=
  {| clans := filter (fun r => negb (clan_id r =? cid)) (clans d);
     clan_members := filter (fun p => negb (fst p =? cid)) (clan_members d);
     clans_seq := clans_seq d |}.

(** The lock [db_lock] serialises the writers; in this sequential model
    taking it is no step.  When the second INSERT raises, the first stays
    in the connection's view of the database. *)
Definition add_clan_to_db (name : string) (leader text voice : Z) : M Z :=
  cid <- insert_clan name leader text voice ;;
  insert_member cid leader ;;
  ret cid.

Definition remove_clan_from_db (cid : Z) : M unit :=
  store (DeleteClan cid) (delete_clan_rows cid).

(** ** Reading the guild *)

(** [discord.utils.get(guild.roles, name=...)]. *)
Definition get_role (name : string) (g : Guild) : option Role :=
  find (fun r => String.eqb (role_name r) name) (roles g).

Definition get_channel (id : Z) (g : Guild) : option Channel :=
  find (fun c => channel_id c =? id) (channels g).

Definition get_member (id : Z) (g : Guild) : option Member :=
  find (fun m => member_id m =? id) (members g).

Definition is_category (c : Channel) : bool :=
  match channel_kind c with
  | CategoryChannel => true
  | _ => false
  end.

(** [discord.utils.get(guild.categories, name=...)]. *)
Definition get_category (name : string) (g : Guild) : option Channel :=
  find (fun c => is_category c && String.eqb (channel_name c) name)%bool (channels g).

Definition in_category (cat : Z) (c : Channel) : bool :=
  match category_id c with
  | Some k => k =? cat
  | None => false
  end.

(** [category.channels]. *)
Definition category_channels (cat : Channel) (g : Guild) : list Channel :=
  filter (in_category (channel_id cat)) (channels g).

Definition has_role (rid : Z) (m : Member) : bool :=
  existsb (Z.eqb rid) (member_roles m).

(** [role.members]: everyone for the default role, else the members
    carrying the role. *)
Definition role_members (r : Role) (g : Guild) : list Member :=
  if role_id r =? guild_id g then members g
  else filter (has_role (role_id r)) (members g).

(** [guild.default_role] as a key: the role whose id is the guild's. *)
Definition default_role (g : Guild) : Principal := PRole (guild_id g).

(** ** What a request does to the guild once the platform accepts it *)

Definition guild_add_role (name : string) (g : Guild) : Role * Guild :=
  let r := {| role_id := next_snowflake g; role_name := name |} in
  (r, {| guild_id := guild_id g; roles := roles g ++ [r]; members := members g;
         channels := channels g; next_snowflake := next_snowflake g + 1 |}).

Definition guild_add_channel (name : string) (kind : ChannelKind)
    (cat : option Z) (ow : Overwrites) (g : Guild) : Channel * Guild :=
  let c := {| channel_id := next_snowflake g; channel_name := name;
              channel_kind := kind; category_id := cat;
              channel_overwrites := ow |} in
  (c, {| guild_id := guild_id g; roles := roles g; members := members g;
         channels := channels g ++ [c]; next_snowflake := next_snowflake g + 1 |}).

Definition drop_role (rid : Z) (m : Member) : Member :=
  {| member_id := member_id m;
     member_roles := filter (fun r => negb (r =? rid)) (member_roles m) |}.

Definition take_role (rid : Z) (m : Member) : Member :=
  {| member_id := member_id m;
     member_roles := if has_role rid m then member_roles m
                     else member_roles m ++ [rid] |}.

Definition guild_delete_role (rid : Z) (g : Guild) : Guild :=
  {| guild_id := guild_id g;
     roles := filter (fun r => negb (role_id r =? rid)) (roles g);
     members := map (drop_role rid) (members g);
     channels := channels g; next_snowflake := next_snowflake g |}.

Definition orphan (cid : Z) (c : Channel) : Channel :=
  {| channel_id := channel_id c; channel_name := channel_name c;
     channel_kind := channel_kind c;
     category_id := if in_category cid c then None else category_id c;
     channel_overwrites := channel_overwrites c |}.

(** Deleting a category leaves its channels without a category. *)
Definition guild_delete_channel (cid : Z) (g : Guild) : Guild :=
  {| guild_id := guild_id g; roles := roles g; members := members g;
     channels := map (orphan cid)
                   (filter (fun c => negb (channel_id c =? cid)) (channels g));
     next_snowflake := next_snowflake g |}.

Definition with_overwrites (cid : Z) (ow : Overwrites) (c : Channel) : Channel :=
  if channel_id c =? cid
  then {| channel_id := channel_id c; channel_name := channel_name c;
          channel_kind := channel_kind c; category_id := category_id c;
          channel_overwrites := ow |}
  else c.

Definition guild_edit_overwrites (cid : Z) (ow : Overwrites) (g : Guild) : Guild :=
  {| guild_id := guild_id g; roles := roles g; members := members g;
     channels := map (with_overwrites cid ow) (channels g);
     next_snowflake := next_snowflake g |}.

Definition on_member (mid : Z) (f : Member -> Member) (g : Guild) : Guild :=
  {| guild_id := guild_id g; roles := roles g;
     members := map (fun m => if member_id m =? mid then f m else m) (members g);
     channels := channels g; next_snowflake := next_snowflake g |}.

(** ** The overwrites the bot writes *)

(** [PermissionOverwrite(view_channel=False)] *)
Definition deny_view : PermissionOverwrite :=
  {| view_channel := Some false; send_messages := None; connect := None;
     speak := None; manage_channels := None |}.

(** [PermissionOverwrite(view_channel=True, send_messages=True,
    connect=True, speak=True)] *)
Definition allow_use : PermissionOverwrite :=
  {| view_channel := Some true; send_messages := Some true; connect := Some true;
     speak := Some true; manage_channels := None |}.

(** The same with [manage_channels=True]. *)
Definition allow_manage : PermissionOverwrite :=
  {| view_channel := Some true; send_messages := Some true; connect := Some true;
     speak := Some true; manage_channels := Some true |}.

(** The dict literal of lines 88-92 and 213-217. *)
Definition base_overwrites (g : Guild) (role : Role) (leader : Z) : Overwrites :=
  dict_set (dict_set (dict_set [] (default_role g) deny_view)
                     (PRole (role_id role)) allow_use)
           (PMember leader) allow_manage.

(** The loop of lines 96-99. *)
Fixpoint grant_members (g : Guild) (members_ids : list Z) (overwrites : Overwrites)
  : Overwrites :=
  match members_ids with
  | [] => overwrites
  | mid :: rest =>
      match get_member mid g with
      | Some member =>
          grant_members g rest (dict_set overwrites (PMember (member_id member)) allow_use)
      | None => grant_members g rest overwrites
      end
  end.

(** Lines 87-99: the overwrites wanted for a clan. *)
Definition desired_overwrites (g : Guild) (role : Role) (leader : Z)
    (members_ids : list Z) : Overwrites :=
  grant_members g members_ids (base_overwrites g role leader).

(** How a coroutine sees the answer of the platform. *)
Definition answer (o : Outcome) : Res unit :=
  match o with
  | Success => Ok tt
  | Denied => Raise Forbidden
  | Failed text => Raise (HTTPException text)
  end.

Section Bot.

(** The answer of the platform to the [n]-th request of the run. *)
Variable oracle : nat -> ExtCall -> Outcome.

Definition request (c : ExtCall) : M unit :=
  fun w =>
    let o := oracle (clock w) c in
    (answer o, tick (log_event (ECall c o) w)).

Definition update_guild {A} (f : Guild -> A * Guild) : M A :=
  fun w => let (a, g) := f (guild w) in (Ok a, set_guild g w).

Definition create_role (name : string) : M Role :=
  request (CreateRole name) ;;
  update_guild (guild_add_role name).

Definition create_category (name : string) : M Channel :=
  request (CreateCategory name) ;;
  update_guild (guild_add_channel name CategoryChannel None []).

Definition create_text_channel (name : string) (category : Channel)
    (overwrites : Overwrites) : M Channel :=
  request (CreateTextChannel name (channel_id category)) ;;
  update_guild (guild_add_channel name TextChannel (Some (channel_id category)) overwrites).

Definition create_voice_channel (name : string) (category : Channel)
    (overwrites : Overwrites) : M Channel :=
  request (CreateVoiceChannel name (channel_id category)) ;;
  update_guild (guild_add_channel name VoiceChannel (Some (channel_id category)) overwrites).

Definition role_delete (role : Role) : M unit :=
  request (DeleteRole (role_id role)) ;;
  modify (fun w => set_guild (guild_delete_role (role_id role) (guild w)) w).

Definition channel_delete (channel : Channel) : M unit :=
  request (DeleteChannel (channel_id channel)) ;;
  modify (fun w => set_guild (guild_delete_channel (channel_id channel) (guild w)) w).

Definition channel_edit (channel : Channel) (overwrites : Overwrites) : M unit :=
  request (EditChannel (channel_id channel)) ;;
  modify (fun w => set_guild
                     (guild_edit_overwrites (channel_id channel) overwrites (guild w)) w).

(** [member.add_roles(role)].  discord.py reads [role.id] of what it is
    given before it sends anything, so [None] is an [AttributeError]. *)
Definition add_roles (member : Z) (role : option Role) : M unit :=
  match role with
  | None => raise AttributeError
  | Some r =>
      request (AddRoles member (role_id r)) ;;
      modify (fun w => set_guild (on_member member (take_role (role_id r)) (guild w)) w)
  end.

(** [member.remove_roles(role)], likewise. *)
Definition remove_roles (member : Z) (role : option Role) : M unit :=
  match role with
  | None => raise AttributeError
  | Some r =>
      request (RemoveRoles member (role_id r)) ;;
      modify (fun w => set_guild (on_member member (drop_role (role_id r)) (guild w)) w)
  end.

(** [interaction.response.send_message(...)]. *)
Definition send_message (r : Reply) : M unit := request (SendMessage r).

(** [bot.loop.create_task(update_clan_permissions(guild, clan_id))]. *)
Definition create_task (cid : Z) : M unit :=
  modify (fun w => set_tasks (tasks w ++ [cid]) w).

(** [try: body except discord.Forbidden: print(line)]. *)
Definition warn_if_forbidden (body : M unit) (line : string) : M unit :=
  r <- attempt body ;;
  match r with
  | Ok _ => ret tt
  | Raise Forbidden => print line
  | Raise e => raise e
  end.

(** ** [update_clan_permissions] (lines 70-108) *)

Definition update_clan_permissions (cid : Z) : M unit :=
  d <- gets db ;;
  match get_clan_by_id cid d with
  | None => ret tt
  | Some clan =>
      g <- gets guild ;;
      match get_role (clan_name clan) g,
            get_channel (text_channel_id clan) g,
            get_channel (voice_channel_id clan) g,
            get_member (leader_id clan) g with
      | Some role, Some text_channel, Some voice_channel, Some leader =>
          members_ids <- gets (fun w => get_members cid (db w)) ;;
          let overwrites := desired_overwrites g role (member_id leader) members_ids in
          r <- attempt (channel_edit text_channel overwrites ;;
                        channel_edit voice_channel overwrites) ;;
          match r with
          | Ok _ => ret tt
          | Raise Forbidden =>
              print ("[WARN] Bot missing access to edit channels for clan "
                       ++ clan_name clan)%string
          | Raise e =>
              print ("[ERROR] Failed updating permissions for clan "
                       ++ clan_name clan ++ ": " ++ exn_str e)%string
          end
      | _, _, _, _ => ret tt
      end
  end.

(** ** [get_or_create_category_for_clan] (lines 110-121) *)

Definition category_name_of (name : string) : string := ("CLAN - " ++ name)%string.

Definition get_or_create_category_for_clan (name : string) : M (option Channel) :=
  let category_name := category_name_of name in
  g <- gets guild ;;
  match get_category category_name g with
  | Some category => ret (Some category)
  | None =>
      r <- attempt (create_category category_name) ;;
      match r with
      | Ok category => ret (Some category)
      | Raise Forbidden =>
          print ("[ERROR] Bot missing permission to create category "
                   ++ category_name)%string ;;
          ret None
      | Raise e => raise e
      end
  end.

(** ** [on_member_update] and [on_member_remove] (lines 144-168) *)

Definition role_in (r : Role) (l : list Role) : bool :=
  existsb (fun r' => role_id r' =? role_id r) l.

Definition on_member_update (before after : list Role) : M unit :=
  let added_roles := filter (fun r => negb (role_in r before)) after in
  let removed_roles := filter (fun r => negb (role_in r after)) before in
  for_each (added_roles ++ removed_roles)
    (fun role =>
       d <- gets db ;;
       match get_clan_by_name (role_name role) d with
       | Some clan => create_task (clan_id clan)
       | None => ret tt
       end).

Definition on_member_remove (member : Z) : M unit :=
  d <- gets db ;;
  for_each (clans_of_member member d)
    (fun cid =>
       delete_member cid member ;;
       create_task cid).

(** ** [create_clan] (lines 179-245) *)

(** The [except discord.Forbidden] clause of lines 223-230.  A local of
    the [try] body that was not assigned when the exception came is
    [None] here, and reading it is an [UnboundLocalError]. *)
Definition create_clan_rollback (role : Role)
    (text_channel voice_channel : option Channel) : M unit :=
  send_message (RText "Bot cannot create channels. Check permissions.") ;;
  role_delete role ;;
  match text_channel with
  | None => raise UnboundLocalError
  | Some c => channel_delete c
  end ;;
  match voice_channel with
  | None => raise UnboundLocalError
  | Some c => channel_delete c
  end.

(** Lines 232-245: the role goes to the creator and the clan to the
    database. *)
Definition create_clan_record (user : Z) (name : string) (role : Role)
    (text_channel voice_channel : Channel) : M unit :=
  add_roles user (Some role) ;;
  r <- attempt (add_clan_to_db name user (channel_id text_channel)
                  (channel_id voice_channel)) ;;
  match r with
  | Ok _ =>
      send_message (RText ("Clan **" ++ name
                             ++ "** created! You are now the leader.")%string)
  | Raise IntegrityError =>
      send_message (RText "Clan already exists in database!") ;;
      role_delete role ;;
      channel_delete text_channel ;;
      channel_delete voice_channel
  | Raise e => raise e
  end.

(** Lines 206-230: category and channels. *)
Definition create_clan_channels (user : Z) (name : string) (role : Role) : M unit :=
  category <- get_or_create_category_for_clan name ;;
  match category with
  | None =>
      send_message (RText "Bot cannot access or create the clan category.") ;;
      role_delete role
  | Some category =>
      g <- gets guild ;;
      let overwrites := base_overwrites g role user in
      r1 <- attempt (create_text_channel (lower name ++ "-text")%string
                       category overwrites) ;;
      match r1 with
      | Raise Forbidden => create_clan_rollback role None None
      | Raise e => raise e
      | Ok text_channel =>
          r2 <- attempt (create_voice_channel (lower name ++ "-voice")%string
                           category overwrites) ;;
          match r2 with
          | Raise Forbidden => create_clan_rollback role (Some text_channel) None
          | Raise e => raise e
          | Ok voice_channel =>
              create_clan_record user name role text_channel voice_channel
          end
      end
  end.

Definition create_clan (user : Z) (name : string) : M unit :=
  d <- gets db ;;
  if truthy_int (get_user_clan user d) then
    send_message (RText "You are already in a clan! Leave it before creating a new one.")
  else if is_some (get_clan_by_name name d) then
    send_message (RText ("A clan called **" ++ name ++ "** already exists!")%string)
  else
    g <- gets guild ;;
    if is_some (get_role name g) then
      send_message (RText ("A role called **" ++ name ++ "** already exists!")%string)
    else
      r <- attempt (create_role name) ;;
      match r with
      | Raise Forbidden =>
          send_message (RText "Bot cannot create role. Check permissions.")
      | Raise e => raise e
      | Ok role => create_clan_channels user name role
      end.

(** ** [invite_clan] and [kick_clan] (lines 251-296) *)

Definition invite_clan (user member : Z) (name : string) : M unit :=
  d <- gets db ;;
  match get_clan_by_name name d with
  | None => send_message (RText "Clan not found!")
  | Some clan =>
      if negb (user =? leader_id clan) then
        send_message (RText "Only the clan leader can invite members!")
      else
        g <- gets guild ;;
        add_roles member (get_role name g) ;;
        insert_or_ignore_member (clan_id clan) member ;;
        update_clan_permissions (clan_id clan) ;;
        send_message (RText (member_mention member ++ " has been added to **"
                               ++ name ++ "**!")%string)
  end.

Definition kick_clan (user member : Z) (name : string) : M unit :=
  d <- gets db ;;
  match get_clan_by_name name d with
  | None => send_message (RText "Clan not found!")
  | Some clan =>
      if negb (user =? leader_id clan) then
        send_message (RText "Only the clan leader can kick members!")
      else
        g <- gets guild ;;
        remove_roles member (get_role name g) ;;
        delete_member (clan_id clan) member ;;
        update_clan_permissions (clan_id clan) ;;
        send_message (RText (member_mention member ++ " has been removed from **"
                               ++ name ++ "**.")%string)
  end.

(** ** [disband_clan] (lines 301-345) *)

(** Lines 315-322. *)
Definition disband_role (name : string) : M unit :=
  g <- gets guild ;;
  match get_role name g with
  | Some role =>
      for_each (role_members role g)
        (fun member => remove_roles (member_id member) (Some role)) ;;
      warn_if_forbidden (role_delete role)
        ("[WARN] Missing permission to delete role " ++ role_name role)%string
  | None => ret tt
  end.

(** Lines 325-331. *)
Definition disband_channels (ids : list Z) : M unit :=
  for_each ids
    (fun ch_id =>
       g <- gets guild ;;
       match get_channel ch_id g with
       | Some channel =>
           warn_if_forbidden (channel_delete channel)
             ("[WARN] Missing permission to delete channel "
                ++ channel_name channel)%string
       | None => ret tt
       end).

(** Lines 334-340. *)
Definition disband_category (name : string) : M unit :=
  let category_name := category_name_of name in
  g <- gets guild ;;
  match get_category category_name g with
  | Some category =>
      if (List.length (category_channels category g) =? 0)%nat then
        warn_if_forbidden (channel_delete category)
          ("[WARN] Missing permission to delete category " ++ category_name)%string
      else ret tt
  | None => ret tt
  end.

Definition disband_clan (user : Z) (name : string) : M unit :=
  d <- gets db ;;
  match get_clan_by_name name d with
  | None => send_message (RText "Clan not found!")
  | Some clan =>
      if negb (user =? leader_id clan) then
        send_message (RText "Only the clan leader can disband the clan!")
      else
        disband_role name ;;
        disband_channels [text_channel_id clan; voice_channel_id clan] ;;
        disband_category name ;;
        remove_clan_from_db (clan_id clan) ;;
        send_message (RText ("Clan **" ++ name ++ "** has been disbanded.")%string)
  end.

(** ** [clan_info] (lines 351-374) *)

Definition or_else (s default : string) : string :=
  match s with
  | EmptyString => default
  | _ => s
  end.

Definition clan_info_embed (clan : ClanRow) (d : DB) (g : Guild) : Embed :=
  let leader := get_member (leader_id clan) g in
  let members_ids := get_members (clan_id clan) d in
  let members := map (fun mid => get_member mid g) members_ids in
  let text_channel := get_channel (text_channel_id clan) g in
  let voice_channel := get_channel (voice_channel_id clan) g in
  let member_mentions :=
    join ", " (flat_map (fun m => match m with
                                  | Some m => [member_mention (member_id m)]
                                  | None => []
                                  end) members) in
  MkEmbed ("Clan Info: " ++ clan_name clan)%string
    [ ("Leader"%string,
       match leader with Some l => member_mention (member_id l) | None => "Unknown"%string end,
       false);
      ("Members"%string, or_else member_mentions "None", false);
      ("Text Channel"%string,
       match text_channel with Some c => channel_mention (channel_id c) | None => "Deleted"%string end,
       true);
      ("Voice Channel"%string,
       match voice_channel with Some c => channel_mention (channel_id c) | None => "Deleted"%string end,
       true) ].

Definition clan_info (name : string) : M unit :=
  d <- gets db ;;
  match get_clan_by_name name d with
  | None => send_message (RText "Clan not found!")
  | Some clan =>
      g <- gets guild ;;
      send_message (REmbed (clan_info_embed clan d g))
  end.

(** ** Sequences of commands and events *)

(** The scheduled reconciliations run once the handler that scheduled
    them has returned. *)
Definition run_tasks : M unit :=
  pending <- gets tasks ;;
  modify (set_tasks []) ;;
  for_each pending update_clan_permissions.

Inductive Op :=
| Create (user : Z) (name : string)
| Invite (user member : Z) (name : string)
| Kick (user member : Z) (name : string)
| Depart (member : Z).

Definition handle (op : Op) : M unit :=
  match op with
  | Create user name => create_clan user name
  | Invite user member name => invite_clan user member name
  | Kick user member name => kick_clan user member name
  | Depart member => on_member_remove member
  end.

(** An exception that leaves a handler is logged by the library and the
    bot goes on from the state the handler left. *)
Definition step (w : World) (op : Op) : World :=
  snd (run_tasks (snd (handle op w))).

Definition run (ops : list Op) (w : World) : World := fold_left step ops w.

End Bot.

(** * Specification *)

(** I1: the leader of every clan of the store has a membership row. *)
Definition leader_recorded (d : DB) : Prop :=
  forall c, In c (clans d) -> has_member (clan_id c) (leader_id c) d = true.

(** The PRIMARY KEY of [clans]. *)
Definition clans_pk (d : DB) : Prop := NoDup (map clan_id (clans d)).

Definition store_ok (d : DB) : Prop := clans_pk d /\ leader_recorded d.

(** The operation does not delete the membership row of a clan's leader:
    a kick does not name the leader of the clan it is about, a departing
    member leads no clan. *)
Definition spares_leader (op : Op) (d : DB) : bool :=
  match op with
  | Kick _ member name =>
      match get_clan_by_name name d with
      | Some clan => negb (member =? leader_id clan)
      | None => true
      end
  | Depart member => forallb (fun c => negb (leader_id c =? member)) (clans d)
  | _ => true
  end.

Fixpoint spare_leaders (oracle : nat -> ExtCall -> Outcome) (ops : list Op)
    (w : World) : bool :=
  match ops with
  | [] => true
  | op :: rest =>
      spares_leader op (db w) && spare_leaders oracle rest (step oracle w op)
  end.


(** What [update_clan_permissions] needs to go on: the row, the role,
    both channels and the leader. *)
Definition resolve (cid : Z) (w : World)
  : option (ClanRow * Role * Channel * Channel * Member) :=
  match get_clan_by_id cid (db w) with
  | None => None
  | Some clan =>
      match get_role (clan_name clan) (guild w),
            get_channel (text_channel_id clan) (guild w),
            get_channel (voice_channel_id clan) (guild w),
            get_member (leader_id clan) (guild w) with
      | Some role, Some text_channel, Some voice_channel, Some leader =>
          Some (clan, role, text_channel, voice_channel, leader)
      | _, _, _, _ => None
      end
  end.

(** The platform answers a request the same way whenever it is made. *)
Definition steady (oracle : nat -> ExtCall -> Outcome) : Prop :=
  forall t t' c, oracle t c = oracle t' c.

Definition is_delete (e : Event) : bool :=
  match e with
  | ECall (DeleteRole _) _ | ECall (DeleteChannel _) _ => true
  | EStore _ => true
  | _ => false
  end.

Definition is_remove_roles (e : Event) : bool :=
  match e with
  | ECall (RemoveRoles _ _) _ => true
  | _ => false
  end.

(** Whatever the result of [m], the part [proj] of the world moves along
    [R]. *)
Definition keeps {S} (proj : World -> S) (R : S -> S -> Prop) {A} (m : M A) : Prop :=
  forall w, R (proj w) (proj (snd (m w))).

(** Along this relation the invariant of the store is never lost. *)
Definition ok_to_ok (d d' : DB) : Prop := store_ok d -> store_ok d'.

(** No clan with this id is led by this member. *)
Definition not_leader_of (cid mid : Z) (d : DB) : Prop :=
  forall c, In c (clans d) -> clan_id c = cid -> leader_id c <> mid.

(** The world is as before but for one reply in the trace. *)
Definition only_replied (oracle : nat -> ExtCall -> Outcome) (w w' : World) : Prop :=
  exists msg,
    w' = tick (log_event (ECall (SendMessage (RText msg))
                            (oracle (clock w) (SendMessage (RText msg)))) w).

(** ** A community to run the bot on *)

(** Every request is carried out. *)
Definition accept : nat -> ExtCall -> Outcome := fun _ _ => Success.

Definition everyone : Role := {| role_id := 1; role_name := "@everyone"%string |}.

(** A guild with three members and no clan yet. *)
Definition lobby : Guild :=
  {| guild_id := 1;
     roles := [everyone];
     members := [ {| member_id := 101; member_roles := [] |};
                  {| member_id := 102; member_roles := [] |};
                  {| member_id := 103; member_roles := [] |} ];
     channels := [];
     next_snowflake := 1000 |}.

Definition empty_db : DB := {| clans := []; clan_members := []; clans_seq := 0 |}.

Definition start : World :=
  {| db := empty_db; guild := lobby; clock := 0; trace := []; tasks := [] |}.

(** Member 101 has created the clan Alpha. *)
Definition alpha_created : World := run accept [Create 101 "Alpha"%string] start.

(** Alpha's role has been deleted by hand in the client. *)
Definition alpha_without_role : World :=
  set_guild (guild_delete_role 1000 (guild alpha_created)) alpha_created.

(** What [update_clan_permissions] makes of the guild, when the platform
    answers the first request by [a1] and the second by [a2]. *)
Definition reconciled (a1 a2 : ExtCall -> Outcome) (cid : Z) (d : DB) (g : Guild)
  : Guild :=
  match get_clan_by_id cid d with
  | None => g
  | Some clan =>
      match get_role (clan_name clan) g,
            get_channel (text_channel_id clan) g,
            get_channel (voice_channel_id clan) g,
            get_member (leader_id clan) g with
      | Some role, Some text_channel, Some voice_channel, Some leader =>
          let overwrites :=
            desired_overwrites g role (member_id leader) (get_members cid d) in
          match a1 (EditChannel (channel_id text_channel)) with
          | Success =>
              let g1 := guild_edit_overwrites (channel_id text_channel) overwrites g in
              match a2 (EditChannel (channel_id voice_channel)) with
              | Success =>
                  guild_edit_overwrites (channel_id voice_channel) overwrites g1
              | _ => g1
              end
          | _ => g
          end
      | _, _, _, _ => g
      end
  end.

(** A request to take a role from a member that the platform did not
    carry out. *)
Definition failed_removal (e : Event) : bool :=
  match e with
  | ECall (RemoveRoles _ _) Success => false
  | ECall (RemoveRoles _ _) _ => true
  | _ => false
  end.

(** The trace grows by events none of which is a failed removal. *)
Definition quietly (t t' : list Event) : Prop :=
  exists new, t' = new ++ t /\ existsb failed_removal new = false.

Definition is_reply (e : Event) : bool :=
  match e with
  | ECall (SendMessage _) _ => true
  | _ => false
  end.

(** The deletion of a role or of a channel. *)
Definition is_rollback (e : Event) : bool :=
  match e with
  | ECall (DeleteRole _) _ | ECall (DeleteChannel _) _ => true
  | _ => false
  end.

(** In a trace (newest first): every deletion comes after a reply. *)
Fixpoint reported_first (l : list Event) : bool :=
  match l with
  | [] => true
  | e :: older =>
      (negb (is_rollback e) || existsb is_reply older) && reported_first older
  end.

(** Every text or voice channel of [g'] has the id of a channel of [g]. *)
Definition no_new_channel (g g' : Guild) : Prop :=
  forall c, In c (channels g') ->
            is_category c = true \/
            exists c0, In c0 (channels g) /\ channel_id c0 = channel_id c.

(** What is left when [create_clan] gave up: the store as it was, no
    role and no text or voice channel that was not there before, and no
    deletion before the requester was told. *)
Definition rolled_back (w w' : World) : Prop :=
  db w' = db w /\
  incl (roles (guild w')) (roles (guild w)) /\
  no_new_channel (guild w) (guild w') /\
  exists new, trace w' = new ++ trace w /\ reported_first new = true.

(** The trace grows by events none of which is a deletion. *)
Definition calmly (t t' : list Event) : Prop :=
  exists new, t' = new ++ t /\ forallb (fun e => negb (is_rollback e)) new = true.

(** From the world [w1] in which the role was created to the world [w']
    in which [create_clan] gave up. *)
Definition gave_up (role : Role) (w1 w' : World) : Prop :=
  db w' = db w1 /\
  roles (guild w')
  = filter (fun r => negb (role_id r =? role_id role)) (roles (guild w1)) /\
  (forall g, no_new_channel g (guild w1) -> no_new_channel g (guild w')) /\
  exists new, trace w' = new ++ trace w1 /\ reported_first new = true.

(** The platform refuses to create text channels. *)
Definition deny_text_channel : nat -> ExtCall -> Outcome :=
  fun _ c => match c with CreateTextChannel _ _ => Denied | _ => Success end.

(** The platform refuses to create voice channels. *)
Definition deny_voice_channel : nat -> ExtCall -> Outcome :=
  fun _ c => match c with CreateVoiceChannel _ _ => Denied | _ => Success end.

(** The platform refuses to delete channel 1003, Alpha's voice channel. *)
Definition deny_voice_delete : nat -> ExtCall -> Outcome :=
  fun _ c =>
    match c with
    | DeleteChannel id => if (id =? 1003)%Z then Denied else Success
    | _ => Success
    end.

(** The platform refuses to take a role from member 102. *)
Definition deny_removal_102 : nat -> ExtCall -> Outcome :=
  fun _ c =>
    match c with
    | RemoveRoles m _ => if (m =? 102)%Z then Denied else Success
    | _ => Success
    end.

(** Alpha with its leader 101 and the member 102. *)
Definition alpha_of_two : World :=
  run accept [Create 101 "Alpha"%string; Invite 101 102 "Alpha"%string] start.

Definition alpha_row : ClanRow :=
  {| clan_id := 1; clan_name := "Alpha"%string; leader_id := 101;
     text_channel_id := 1002; voice_channel_id := 1003 |}.

Definition alpha_role : Role := {| role_id := 1000; role_name := "Alpha"%string |}.

(** The member is recorded in the list and is in the guild. *)
Definition granted (g : Guild) (members_ids : list Z) (m : Z) : bool :=
  existsb (Z.eqb m) members_ids && is_some (get_member m g).

(** The entry the overwrites of a clan hold for a principal. *)
Definition wanted_overwrite (g : Guild) (role : Role) (leader : Z)
    (members_ids : list Z) (p : Principal) : option PermissionOverwrite :=
  match p with
  | PMember m =>
      if granted g members_ids m then Some allow_use
      else if m =? leader then Some allow_manage
      else None
  | PRole r =>
      if r =? role_id role then Some allow_use
      else if r =? guild_id g then Some deny_view
      else None
  end.

(** A channel without its overwrites. *)
Definition channel_frame (c : Channel) : Z * string * ChannelKind * option Z :=
  (channel_id c, channel_name c, channel_kind c, category_id c).

(** Everything the bot reacts to: the five commands and the two events. *)
Inductive Input :=
| CreateClan (user : Z) (name : string)
| InviteClan (user member : Z) (name : string)
| KickClan (user member : Z) (name : string)
| DisbandClan (user : Z) (name : string)
| ClanInfo (name : string)
| MemberRemove (member : Z)
| MemberUpdate (before after : list Role).

Definition dispatch (oracle : nat -> ExtCall -> Outcome) (i : Input) : M unit :=
  match i with
  | CreateClan user name => create_clan oracle user name
  | InviteClan user member name => invite_clan oracle user member name
  | KickClan user member name => kick_clan oracle user member name
  | DisbandClan user name => disband_clan oracle user name
  | ClanInfo name => clan_info oracle name
  | MemberRemove member => on_member_remove member
  | MemberUpdate before after => on_member_update before after
  end.

(** The handler runs, then the reconciliations it scheduled. *)
Definition serve (oracle : nat -> ExtCall -> Outcome) (w : World) (i : Input)
  : World :=
  snd (run_tasks oracle (snd (dispatch oracle i w))).

Definition serve_all (oracle : nat -> ExtCall -> Outcome) (inputs : list Input)
    (w : World) : World :=
  fold_left (serve oracle) inputs w.

(** The constraints of the schema, and what the handlers add to them:
    clan ids and names are unique, so are the membership rows, every
    membership row is about a clan of the store, and no clan id is
    beyond the AUTOINCREMENT counter. *)
Definition store_sound (d : DB) : Prop :=
  NoDup (map clan_id (clans d)) /\
  NoDup (map clan_name (clans d)) /\
  NoDup (clan_members d) /\
  (forall p, In p (clan_members d) -> In (fst p) (map clan_id (clans d))) /\
  (forall c, In c (clans d) -> 1 <= clan_id c <= clans_seq d).

Definition sound_to_sound (d d' : DB) : Prop := store_sound d -> store_sound d'.

(** The roles of the guild and its channels, overwrites apart, are the
    same. *)
Definition same_resources (g g' : Guild) : Prop :=
  guild_id g' = guild_id g /\
  roles g' = roles g /\
  map channel_frame (channels g') = map channel_frame (channels g) /\
  next_snowflake g' = next_snowflake g.

(** The store with one more membership row, unless it is there. *)
Definition with_member (cid mid : Z) (d : DB) : DB :=
  if has_member cid mid d then d
  else {| clans := clans d;
          clan_members := clan_members d ++ [(cid, mid)];
          clans_seq := clans_seq d |}.

(** The store without the membership rows of a member. *)
Definition without_member (mid : Z) (d : DB) : DB :=
  {| clans := clans d;
     clan_members := filter (fun p => negb (snd p =? mid)) (clan_members d);
     clans_seq := clans_seq d |}.

(** The clans named by the roles a member gained or lost. *)
Definition clans_of_changed_roles (before after : list Role) (d : DB) : list Z :=
  flat_map (fun role =>
              match get_clan_by_name (role_name role) d with
              | Some clan => [clan_id clan]
              | None => []
              end)
    (filter (fun r => negb (role_in r before)) after
       ++ filter (fun r => negb (role_in r after)) before).

(** [create_clan] refuses before it creates anything: the requester has
    a membership, the store has a clan of that name, or the guild a role
    of that name. *)
Definition create_refused (user : Z) (name : string) (w : World) : bool :=
  truthy_int (get_user_clan user (db w))
  || is_some (get_clan_by_name name (db w))
  || is_some (get_role name (guild w)).

(** The channels of category [cat] all have one of the two ids. *)
Definition holds_only (cat tid vid : Z) (g : Guild) : Prop :=
  forall c, In c (channels g) -> in_category cat c = true ->
            channel_id c = tid \/ channel_id c = vid.

(** What the deletion of a channel other than the category keeps. *)
Definition category_kept (name : string) (cat tid vid : Z) (g : Guild) : Prop :=
  (exists cat', get_category (category_name_of name) g = Some cat' /\
                channel_id cat' = cat) /\
  holds_only cat tid vid g.

(** Every row of [d] is a row of [d']. *)
Definition rows_kept (d d' : DB) : Prop :=
  incl (clans d) (clans d') /\ incl (clan_members d) (clan_members d').

(** The recorded members that the guild still has. *)
Definition present_members (ids : list Z) (g : Guild) : list Z :=
  filter (fun mid => is_some (get_member mid g)) ids.

(** Every character of the name is an ASCII character. *)
Fixpoint ascii_name (s : string) : bool :=
  match s with
  | EmptyString => true
  | String c rest => Nat.ltb (nat_of_ascii c) 128 && ascii_name rest
  end.

(** The platform refuses to create roles. *)
Definition deny_role : nat -> ExtCall -> Outcome :=
  fun _ c => match c with CreateRole _ => Denied | _ => Success end.

(** * Properties *)

(** ** What a coroutine leaves alone *)

Section Keeps.

Context {S : Type} (proj : World -> S) (R : S -> S -> Prop).
Hypothesis R_refl : forall s, R s s.
Hypothesis R_trans : forall a b c, R a b -> R b c -> R a c.

Lemma keeps_ret {A} (a : A) : keeps proj R (ret a).
Proof. intro w. apply R_refl. Qed.

Lemma keeps_raise {A} (e : Exn) : keeps proj R (@raise A e).
Proof. intro w. apply R_refl. Qed.

Lemma keeps_gets {A} (f : World -> A) : keeps proj R (gets f).
Proof. intro w. apply R_refl. Qed.

Lemma keeps_modify (f : World -> World) :
  (forall w, R (proj w) (proj (f w))) -> keeps proj R (modify f).
Proof. intros H w. apply H. Qed.

Lemma keeps_bind {A B} (m : M A) (f : A -> M B) :
  keeps proj R m -> (forall a, keeps proj R (f a)) -> keeps proj R (bind m f).
Proof.
  intros Hm Hf w. unfold bind.
  specialize (Hm w). destruct (m w) as [[a | e] w1]; simpl in *.
  - eapply R_trans; [exact Hm | apply Hf].
  - exact Hm.
Qed.

Lemma keeps_attempt {A} (m : M A) : keeps proj R m -> keeps proj R (attempt m).
Proof.
  intros Hm w. unfold attempt. specialize (Hm w).
  destruct (m w) as [r w1]. exact Hm.
Qed.

Lemma keeps_for_each {A} (l : list A) (body : A -> M unit) :
  (forall a, keeps proj R (body a)) -> keeps proj R (for_each l body).
Proof.
  intro Hb. induction l as [| x rest IH]; simpl.
  - apply keeps_ret.
  - apply keeps_bind; [apply Hb | intros _; exact IH].
Qed.

End Keeps.

(** Decomposes a goal [keeps proj R m] along the shape of [m]; [R] is
    reflexive and transitive by hypotheses of the context. *)
Ltac keeps_shape :=
  lazymatch goal with
  | |- keeps _ _ (bind _ _) => apply keeps_bind; [assumption .. | | intro]
  | |- keeps _ _ (ret _) => apply keeps_ret; assumption
  | |- keeps _ _ (raise _) => apply keeps_raise; assumption
  | |- keeps _ _ (gets _) => apply keeps_gets; assumption
  | |- keeps _ _ (attempt _) => apply keeps_attempt
  | |- keeps _ _ (for_each _ _) => apply keeps_for_each; [assumption .. | intro]
  | |- keeps _ _ (match ?x with _ => _ end) => destruct x
  end.

Section BotFacts.

Variable oracle : nat -> ExtCall -> Outcome.

(** *** The database is written by the store statements only *)

Section KeepsDb.

Variable R : DB -> DB -> Prop.
Hypothesis R_refl : forall s, R s s.
Hypothesis R_trans : forall a b c, R a b -> R b c -> R a c.

Lemma db_request c : keeps db R (request oracle c).
Proof. intro w. apply R_refl. Qed.

Lemma db_print line : keeps db R (print line).
Proof. intro w. apply R_refl. Qed.

Lemma db_create_task cid : keeps db R (create_task cid).
Proof. intro w. apply R_refl. Qed.

Lemma db_set_tasks l : keeps db R (modify (set_tasks l)).
Proof. intro w. apply R_refl. Qed.

Lemma db_set_guild (f : World -> Guild) :
  keeps db R (modify (fun w => set_guild (f w) w)).
Proof. intro w. apply R_refl. Qed.

Lemma db_update_guild {A} (f : Guild -> A * Guild) : keeps db R (update_guild f).
Proof.
  intro w. unfold update_guild. destruct (f (guild w)). apply R_refl.
Qed.

Lemma db_store op f : (forall d, R d (f d)) -> keeps db R (store op f).
Proof. intros H w. apply H. Qed.

Ltac keeps_db :=
  repeat first
    [ apply db_request | apply db_print | apply db_create_task
    | apply db_set_guild | apply db_update_guild | apply db_set_tasks
    | assumption | keeps_shape ].

Lemma db_create_role name : keeps db R (create_role oracle name).
Proof. unfold create_role. keeps_db. Qed.

Lemma db_create_category name : keeps db R (create_category oracle name).
Proof. unfold create_category. keeps_db. Qed.

Lemma db_create_text_channel name cat ow :
  keeps db R (create_text_channel oracle name cat ow).
Proof. unfold create_text_channel. keeps_db. Qed.

Lemma db_create_voice_channel name cat ow :
  keeps db R (create_voice_channel oracle name cat ow).
Proof. unfold create_voice_channel. keeps_db. Qed.

Lemma db_role_delete role : keeps db R (role_delete oracle role).
Proof. unfold role_delete. keeps_db. Qed.

Lemma db_channel_delete c : keeps db R (channel_delete oracle c).
Proof. unfold channel_delete. keeps_db. Qed.

Lemma db_channel_edit c ow : keeps db R (channel_edit oracle c ow).
Proof. unfold channel_edit. keeps_db. Qed.

Lemma db_add_roles m r : keeps db R (add_roles oracle m r).
Proof. unfold add_roles. keeps_db. Qed.

Lemma db_remove_roles m r : keeps db R (remove_roles oracle m r).
Proof. unfold remove_roles. keeps_db. Qed.

Lemma db_send_message r : keeps db R (send_message oracle r).
Proof. apply db_request. Qed.

Lemma db_warn_if_forbidden body line :
  keeps db R body -> keeps db R (warn_if_forbidden body line).
Proof. intro H. unfold warn_if_forbidden. keeps_db. Qed.

Lemma db_update_clan_permissions cid :
  keeps db R (update_clan_permissions oracle cid).
Proof.
  unfold update_clan_permissions.
  keeps_db; first [apply db_channel_edit | idtac].
Qed.

Lemma db_run_tasks : keeps db R (run_tasks oracle).
Proof.
  unfold run_tasks. keeps_db. apply db_update_clan_permissions.
Qed.

Lemma db_get_or_create_category name :
  keeps db R (get_or_create_category_for_clan oracle name).
Proof.
  unfold get_or_create_category_for_clan. keeps_db. apply db_create_category.
Qed.

Lemma db_create_clan_rollback role tc vc :
  keeps db R (create_clan_rollback oracle role tc vc).
Proof.
  unfold create_clan_rollback.
  keeps_db; first [apply db_send_message | apply db_role_delete
                  | apply db_channel_delete].
Qed.

End KeepsDb.

(** *** Running a coroutine step by step *)

Lemma bind_gets {A B} (f : World -> A) (k : A -> M B) w :
  bind (gets f) k w = k (f w) w.
Proof. reflexivity. Qed.

Lemma bind_modify {B} (f : World -> World) (k : unit -> M B) w :
  bind (modify f) k w = k tt (f w).
Proof. reflexivity. Qed.

Lemma bind_ok {A B} (m : M A) (k : A -> M B) w a w1 :
  m w = (Ok a, w1) -> bind m k w = k a w1.
Proof. intro H. unfold bind. rewrite H. reflexivity. Qed.

Lemma bind_raise {A B} (m : M A) (k : A -> M B) w e w1 :
  m w = (Raise e, w1) -> bind m k w = (Raise e, w1).
Proof. intro H. unfold bind. rewrite H. reflexivity. Qed.

Lemma bind_attempt {A B} (m : M A) (k : Res A -> M B) w :
  bind (attempt m) k w = k (fst (m w)) (snd (m w)).
Proof. unfold bind, attempt. destruct (m w). reflexivity. Qed.

(** *** The leader invariant *)

Lemma pair_eqb_eq p q : pair_eqb p q = true <-> p = q.
Proof.
  unfold pair_eqb. destruct p as [a b], q as [c d]; simpl.
  rewrite andb_true_iff, !Z.eqb_eq. split.
  - intros [-> ->]. reflexivity.
  - intro H. injection H as -> ->. split; reflexivity.
Qed.

Lemma has_member_In cid mid d :
  has_member cid mid d = true <-> In (cid, mid) (clan_members d).
Proof.
  unfold has_member. rewrite existsb_exists. split.
  - intros [p [Hin Heq]]. apply pair_eqb_eq in Heq. subst p. exact Hin.
  - intro Hin. exists (cid, mid). split; [exact Hin | apply pair_eqb_eq; reflexivity].
Qed.

Lemma max_id_bound (l : list Z) x : In x l -> x <= fold_right Z.max 0 l.
Proof.
  induction l as [| y rest IH]; simpl; [tauto |].
  intros [-> | Hin]; [lia | specialize (IH Hin); lia].
Qed.

Lemma next_rowid_fresh d : ~ In (next_rowid d) (map clan_id (clans d)).
Proof.
  intro Hin. apply max_id_bound in Hin. unfold next_rowid in Hin. lia.
Qed.

Lemma ok_to_ok_refl d : ok_to_ok d d.
Proof. intro H. exact H. Qed.

Lemma ok_to_ok_trans a b c : ok_to_ok a b -> ok_to_ok b c -> ok_to_ok a c.
Proof. unfold ok_to_ok. auto. Qed.

Lemma add_member_ok cid mid d :
  ok_to_ok d {| clans := clans d;
                clan_members := clan_members d ++ [(cid, mid)];
                clans_seq := clans_seq d |}.
Proof.
  intros [Hpk Hl]. split; [exact Hpk |].
  intros c Hc. apply has_member_In; simpl. apply in_or_app. left.
  apply has_member_In. apply Hl. exact Hc.
Qed.

End BotFacts.

(** Outside the section the relation and its two laws are read from the
    context. *)
Ltac keeps_db :=
  repeat first
    [ assumption
    | apply db_request; assumption
    | apply db_print; assumption
    | apply db_create_task; assumption
    | apply db_set_guild; assumption
    | apply db_set_tasks; assumption
    | apply db_send_message; assumption
    | apply db_create_role; assumption
    | apply db_add_roles; assumption
    | apply db_remove_roles; assumption
    | apply db_role_delete; assumption
    | apply db_channel_delete; assumption
    | apply db_create_text_channel; assumption
    | apply db_create_voice_channel; assumption
    | apply db_update_clan_permissions; assumption
    | apply db_get_or_create_category; assumption
    | apply db_create_clan_rollback; assumption
    | apply db_warn_if_forbidden; [assumption .. | ]
    | apply db_store
    | keeps_shape ].

Lemma clans_pk_snoc d row :
  clans_pk d -> clan_id row = next_rowid d ->
  NoDup (map clan_id (clans d ++ [row])).
Proof.
  intros Hpk Hid. rewrite map_app. simpl. apply NoDup_app.
  - exact Hpk.
  - constructor; [intros [] | constructor].
  - intros a Ha [<- | []]. rewrite Hid in Ha. exact (next_rowid_fresh d Ha).
Qed.

Lemma add_clan_to_db_ok name leader text voice :
  keeps db ok_to_ok (add_clan_to_db name leader text voice).
Proof.
  intros w [Hpk Hl]. unfold add_clan_to_db, insert_clan, insert_member, store, bind, gets, modify, ret, raise.
  destruct (existsb _ (clans (db w))); [split; assumption |].
  cbn [db set_db log_event clans clan_members clans_seq fst snd].
  set (cid := next_rowid (db w)).
  set (row := {| clan_id := cid; clan_name := name; leader_id := leader;
                 text_channel_id := text; voice_channel_id := voice |}).
  assert (Hpk1 : NoDup (map clan_id (clans (db w) ++ [row])))
    by (apply clans_pk_snoc; [exact Hpk | reflexivity]).
  destruct (has_member cid leader _) eqn:Hm; simpl.
  - split; [exact Hpk1 |].
    intros c Hc. simpl in Hc. apply in_app_or in Hc. destruct Hc as [Hc | [<- | []]].
    + apply has_member_In. simpl. apply has_member_In. apply Hl. exact Hc.
    + exact Hm.
  - split; [exact Hpk1 |].
    intros c Hc. simpl in Hc. apply has_member_In. simpl. apply in_or_app.
    apply in_app_or in Hc. destruct Hc as [Hc | [<- | []]].
    + left. apply has_member_In. apply Hl. exact Hc.
    + right. left. reflexivity.
Qed.

Lemma insert_or_ignore_member_ok cid mid :
  keeps db ok_to_ok (insert_or_ignore_member cid mid).
Proof.
  intro w. unfold insert_or_ignore_member. rewrite bind_gets.
  destruct (has_member cid mid (db w)).
  - apply ok_to_ok_refl.
  - apply add_member_ok.
Qed.

Section Leader.
Variable oracle : nat -> ExtCall -> Outcome.

Lemma create_clan_ok user name : keeps db ok_to_ok (create_clan oracle user name).
Proof.
  pose proof ok_to_ok_refl as Hr. pose proof ok_to_ok_trans as Ht.
  unfold create_clan, create_clan_channels, create_clan_record.
  keeps_db; apply add_clan_to_db_ok.
Qed.

Lemma invite_clan_ok user member name :
  keeps db ok_to_ok (invite_clan oracle user member name).
Proof.
  pose proof ok_to_ok_refl as Hr. pose proof ok_to_ok_trans as Ht.
  unfold invite_clan.
  keeps_db; apply insert_or_ignore_member_ok.
Qed.

Lemma delete_member_rows_ok cid mid d :
  not_leader_of cid mid d -> store_ok d -> store_ok (delete_member_rows cid mid d).
Proof.
  intros Hn [Hpk Hl]. split; [exact Hpk |].
  intros c Hc. simpl in Hc. apply has_member_In. simpl.
  apply filter_In. split.
  - apply has_member_In. apply Hl. exact Hc.
  - apply negb_true_iff. apply not_true_iff_false. intro He.
    apply pair_eqb_eq in He. injection He as He1 He2.
    apply (Hn c Hc); congruence.
Qed.

Lemma find_some_In {A} (f : A -> bool) l x : find f l = Some x -> In x l.
Proof. intro H. apply find_some in H. tauto. Qed.

Lemma pk_same_row d c c' :
  clans_pk d -> In c (clans d) -> In c' (clans d) -> clan_id c = clan_id c' -> c = c'.
Proof.
  unfold clans_pk. induction (clans d) as [| x rest IH]; simpl; [tauto |].
  intros Hnd Hc Hc' Hid. inversion Hnd as [| ? ? Hx Hrest]; subst.
  destruct Hc as [-> | Hc], Hc' as [-> | Hc'].
  - reflexivity.
  - exfalso. apply Hx. rewrite Hid. apply in_map. exact Hc'.
  - exfalso. apply Hx. rewrite <- Hid. apply in_map. exact Hc.
  - apply IH; assumption.
Qed.

Lemma kick_clan_ok user member name w :
  spares_leader (Kick user member name) (db w) = true ->
  store_ok (db w) ->
  store_ok (db (snd (kick_clan oracle user member name w))).
Proof.
  intros Hs Hok. unfold kick_clan. rewrite bind_gets. simpl in Hs.
  destruct (get_clan_by_name name (db w)) as [clan |] eqn:Hfind.
  2: { exact Hok. }
  destruct (negb (user =? leader_id clan)).
  { exact Hok. }
  set (P := fun d => store_ok d /\ not_leader_of (clan_id clan) member d).
  set (R := fun d d' : DB => P d -> P d').
  assert (Hr : forall d, R d d) by (intros d H; exact H).
  assert (Ht : forall a b c, R a b -> R b c -> R a c) by (unfold R; auto).
  match goal with |- store_ok (db (snd (?k w))) => assert (Hk : keeps db R k) end.
  { keeps_db.
    intros d [Hd Hn]. split; [apply delete_member_rows_ok; assumption | exact Hn]. }
  apply Hk. split; [exact Hok |].
  intros c Hc Hid. apply find_some_In in Hfind.
  assert (c = clan) by (apply (pk_same_row (db w)); [apply Hok | assumption ..]).
  subst c. apply negb_true_iff in Hs. apply Z.eqb_neq in Hs. congruence.
Qed.

Lemma on_member_remove_ok member w :
  spares_leader (Depart member) (db w) = true ->
  store_ok (db w) ->
  store_ok (db (snd (on_member_remove member w))).
Proof.
  intros Hs Hok. unfold on_member_remove. rewrite bind_gets. simpl in Hs.
  set (P := fun d => store_ok d /\ forall cid, not_leader_of cid member d).
  set (R := fun d d' : DB => P d -> P d').
  assert (Hr : forall d, R d d) by (intros d H; exact H).
  assert (Ht : forall a b c, R a b -> R b c -> R a c) by (unfold R; auto).
  match goal with |- store_ok (db (snd (?k w))) => assert (Hk : keeps db R k) end.
  { keeps_db.
    intros d [Hd Hn]. split; [apply delete_member_rows_ok; [apply Hn | exact Hd] | exact Hn]. }
  apply Hk. split; [exact Hok |].
  intros cid c Hc _. rewrite forallb_forall in Hs. specialize (Hs c Hc).
  apply negb_true_iff in Hs. apply Z.eqb_neq in Hs. exact Hs.
Qed.

Lemma step_ok op w :
  spares_leader op (db w) = true -> store_ok (db w) -> store_ok (db (step oracle w op)).
Proof.
  intros Hs Hok. unfold step.
  assert (Hrun : forall w', db (snd (run_tasks oracle w')) = db w').
  { intro w'. symmetry. apply (db_run_tasks oracle eq); [reflexivity | intros; congruence]. }
  rewrite Hrun. destruct op as [user name | user member name | user member name | member]; simpl.
  - apply create_clan_ok. exact Hok.
  - apply invite_clan_ok. exact Hok.
  - apply kick_clan_ok; assumption.
  - apply on_member_remove_ok; assumption.
Qed.

(** C1 (as amended): the leader of every clan has a membership row, and
    clan ids are unique, after every sequence of create, invite, kick and
    departure in which no kick names the leader of its clan and no
    departing member leads a clan. *)
Theorem leader_invariant_spared ops : forall w,
  store_ok (db w) -> spare_leaders oracle ops w = true ->
  store_ok (db (run oracle ops w)).
Proof.
  induction ops as [| op rest IH]; intros w Hok Hs; simpl in *.
  - exact Hok.
  - apply andb_true_iff in Hs. destruct Hs as [Hop Hrest].
    apply IH; [apply step_ok; assumption | exact Hrest].
Qed.

End Leader.

Section Reconcile.
Variable oracle : nat -> ExtCall -> Outcome.

(** The requests of the [try] of lines 102-104 raise [Forbidden] or
    [HTTPException], nothing else. *)
Lemma channel_edit_raises c ow w e :
  fst (channel_edit oracle c ow w) = Raise e ->
  e = Forbidden \/ exists text, e = HTTPException text.
Proof.
  unfold channel_edit, bind, request, modify.
  destruct (oracle (clock w) (EditChannel (channel_id c))); simpl; intro H;
    inversion H; eauto.
Qed.

Lemma update_clan_permissions_returns cid w :
  let w' := snd (update_clan_permissions oracle cid w) in
  fst (update_clan_permissions oracle cid w) = Ok tt /\
  (resolve cid w = None -> w' = w) /\
  db w' = db w /\
  exists new, trace w' = new ++ trace w /\
    forall c o, In (ECall c o) new -> o <> Success ->
                exists line rest, new = ELog line :: rest.
Proof.
  unfold update_clan_permissions, resolve. rewrite bind_gets.
  destruct (get_clan_by_id cid (db w)) as [clan |].
  2: { simpl. repeat split. exists []. split; [reflexivity | intros c o []]. }
  rewrite bind_gets.
  destruct (get_role (clan_name clan) (guild w)) as [role |],
           (get_channel (text_channel_id clan) (guild w)) as [text |],
           (get_channel (voice_channel_id clan) (guild w)) as [voice |],
           (get_member (leader_id clan) (guild w)) as [leader |];
    try (simpl; repeat split; exists []; split; [reflexivity | intros c o []]).
  rewrite bind_gets, bind_attempt.
  unfold channel_edit, request, bind, modify, print, ret.
  destruct (oracle (clock w) (EditChannel (channel_id text))) eqn:H1; simpl.
  - destruct (oracle (S (clock w)) (EditChannel (channel_id voice))) eqn:H2; simpl.
    + repeat split; try discriminate.
      eexists [_; _]. split; [reflexivity |].
      intros c o [He | [He | []]] Ho; inversion He; subst; congruence.
    + repeat split; try discriminate.
      eexists [_; _; _]. split; [reflexivity |]. intros; eauto.
    + repeat split; try discriminate.
      eexists [_; _; _]. split; [reflexivity |]. intros; eauto.
  - repeat split; try discriminate.
    eexists [_; _]. split; [reflexivity |]. intros; eauto.
  - repeat split; try discriminate.
    eexists [_; _]. split; [reflexivity |]. intros; eauto.
Qed.

(** C6: [update_clan_permissions] returns normally whatever the platform
    answers; when the row, the role, a channel or the leader does not
    resolve the world is untouched; the store is never written; and when
    an edit is not carried out the newest line of the trace is the log
    line of the [except] clause. *)
Theorem reconcile_never_raises cid w :
  let w' := snd (update_clan_permissions oracle cid w) in
  fst (update_clan_permissions oracle cid w) = Ok tt /\
  (resolve cid w = None -> w' = w) /\
  db w' = db w /\
  exists new, trace w' = new ++ trace w /\
    forall c o, In (ECall c o) new -> o <> Success ->
                exists line rest, new = ELog line :: rest.
Proof. exact (update_clan_permissions_returns cid w). Qed.

End Reconcile.

Section Rejected.
Variable oracle : nat -> ExtCall -> Outcome.

Lemma only_replied_unchanged w w' :
  only_replied oracle w w' ->
  db w' = db w /\ guild w' = guild w /\ tasks w' = tasks w /\
  exists e, trace w' = e :: trace w.
Proof.
  intros [msg ->]. repeat split. eexists. reflexivity.
Qed.


End Rejected.

Lemma find_map {A B} (f : B -> bool) (h : A -> B) l :
  find f (map h l) = option_map h (find (fun x => f (h x)) l).
Proof.
  induction l as [| x rest IH]; simpl; [reflexivity |].
  destruct (f (h x)); [reflexivity | exact IH].
Qed.

Lemma with_overwrites_id c ow x : channel_id (with_overwrites c ow x) = channel_id x.
Proof. unfold with_overwrites. destruct (channel_id x =? c); reflexivity. Qed.

Lemma get_channel_edit id c ow g :
  get_channel id (guild_edit_overwrites c ow g)
  = option_map (with_overwrites c ow) (get_channel id g).
Proof.
  unfold get_channel. simpl. rewrite find_map. f_equal.
  induction (channels g) as [| x rest IH]; simpl; [reflexivity |].
  rewrite with_overwrites_id, IH. reflexivity.
Qed.

Lemma get_channel_id id g c : get_channel id g = Some c -> channel_id c = id.
Proof.
  intro H. apply find_some in H. destruct H as [_ H]. apply Z.eqb_eq. exact H.
Qed.

Lemma grant_members_edit c ow g ids o :
  grant_members (guild_edit_overwrites c ow g) ids o = grant_members g ids o.
Proof.
  revert o. induction ids as [| mid rest IH]; intro o; simpl; [reflexivity |].
  change (get_member mid (guild_edit_overwrites c ow g)) with (get_member mid g).
  destruct (get_member mid g); apply IH.
Qed.

Lemma desired_overwrites_edit c ow g role leader ids :
  desired_overwrites (guild_edit_overwrites c ow g) role leader ids
  = desired_overwrites g role leader ids.
Proof. unfold desired_overwrites. rewrite grant_members_edit. reflexivity. Qed.

Lemma with_overwrites_absorb a b ow x :
  with_overwrites a ow (with_overwrites b ow (with_overwrites a ow x))
  = with_overwrites b ow (with_overwrites a ow x).
Proof.
  unfold with_overwrites.
  destruct (channel_id x =? a) eqn:Ha; simpl;
    destruct (channel_id x =? b) eqn:Hb; simpl; rewrite ?Ha, ?Hb; simpl;
    rewrite ?Ha; reflexivity.
Qed.

Lemma with_overwrites_idem a ow x :
  with_overwrites a ow (with_overwrites a ow x) = with_overwrites a ow x.
Proof.
  unfold with_overwrites.
  destruct (channel_id x =? a) eqn:Ha; simpl; rewrite ?Ha; reflexivity.
Qed.

Lemma edit_idem a ow g :
  guild_edit_overwrites a ow (guild_edit_overwrites a ow g)
  = guild_edit_overwrites a ow g.
Proof.
  unfold guild_edit_overwrites; simpl. f_equal. rewrite map_map.
  apply map_ext. intro x. apply with_overwrites_idem.
Qed.

Lemma edit_absorb a b ow g :
  guild_edit_overwrites a ow (guild_edit_overwrites b ow (guild_edit_overwrites a ow g))
  = guild_edit_overwrites b ow (guild_edit_overwrites a ow g).
Proof.
  unfold guild_edit_overwrites; simpl. f_equal. rewrite !map_map.
  apply map_ext. intro x. apply with_overwrites_absorb.
Qed.

Lemma reconciled_ext a1 a2 b1 b2 cid d g :
  (forall c, a1 c = b1 c) -> (forall c, a2 c = b2 c) ->
  reconciled a1 a2 cid d g = reconciled b1 b2 cid d g.
Proof.
  intros H1 H2. unfold reconciled.
  destruct (get_clan_by_id cid d) as [clan |]; [| reflexivity].
  destruct (get_role (clan_name clan) g), (get_channel (text_channel_id clan) g),
           (get_channel (voice_channel_id clan) g), (get_member (leader_id clan) g);
    try reflexivity.
  rewrite H1, H2. reflexivity.
Qed.

Lemma reconciled_idem a cid d g :
  reconciled a a cid d (reconciled a a cid d g) = reconciled a a cid d g.
Proof.
  unfold reconciled at 2.
  destruct (get_clan_by_id cid d) as [clan |] eqn:Hclan.
  2: { unfold reconciled. rewrite Hclan. reflexivity. }
  destruct (get_role (clan_name clan) g) as [role |] eqn:Hrole.
  2: { unfold reconciled. rewrite Hclan, Hrole. reflexivity. }
  destruct (get_channel (text_channel_id clan) g) as [text |] eqn:Htext.
  2: { unfold reconciled. rewrite Hclan, Hrole, Htext. reflexivity. }
  destruct (get_channel (voice_channel_id clan) g) as [voice |] eqn:Hvoice.
  2: { unfold reconciled. rewrite Hclan, Hrole, Htext, Hvoice. reflexivity. }
  destruct (get_member (leader_id clan) g) as [leader |] eqn:Hleader.
  2: { unfold reconciled. rewrite Hclan, Hrole, Htext, Hvoice, Hleader. reflexivity. }
  pose proof (get_channel_id _ _ _ Htext) as Ht.
  pose proof (get_channel_id _ _ _ Hvoice) as Hv.
  rewrite Ht, Hv. cbv zeta.
  set (ow := desired_overwrites g role (member_id leader) (get_members cid d)).
  assert (Hstep : forall g', 
            get_role (clan_name clan) g' = Some role ->
            get_member (leader_id clan) g' = Some leader ->
            (exists t', get_channel (text_channel_id clan) g' = Some t') ->
            (exists v', get_channel (voice_channel_id clan) g' = Some v') ->
            desired_overwrites g' role (member_id leader) (get_members cid d) = ow ->
            reconciled a a cid d g'
            = match a (EditChannel (text_channel_id clan)) with
              | Success =>
                  match a (EditChannel (voice_channel_id clan)) with
                  | Success => guild_edit_overwrites (voice_channel_id clan) ow
                                 (guild_edit_overwrites (text_channel_id clan) ow g')
                  | _ => guild_edit_overwrites (text_channel_id clan) ow g'
                  end
              | _ => g'
              end).
  { intros g' Hr Hm [t' Ht'] [v' Hv'] Ho. unfold reconciled.
    rewrite Hclan, Hr, Ht', Hv', Hm. cbv zeta.
    rewrite (get_channel_id _ _ _ Ht'), (get_channel_id _ _ _ Hv'), Ho.
    reflexivity. }
  assert (Hkeep : forall g',
            g' = g
            \/ g' = guild_edit_overwrites (text_channel_id clan) ow g
            \/ g' = guild_edit_overwrites (voice_channel_id clan) ow
                      (guild_edit_overwrites (text_channel_id clan) ow g) ->
            get_role (clan_name clan) g' = Some role /\
            get_member (leader_id clan) g' = Some leader /\
            (exists t', get_channel (text_channel_id clan) g' = Some t') /\
            (exists v', get_channel (voice_channel_id clan) g' = Some v') /\
            desired_overwrites g' role (member_id leader) (get_members cid d) = ow).
  { intros g' [-> | [-> | ->]]; (split; [exact Hrole |]); (split; [exact Hleader |]);
      rewrite ?get_channel_edit, ?desired_overwrites_edit, Htext, Hvoice; simpl; eauto. }
  rewrite (Hstep g) by (apply Hkeep; tauto).
  destruct (a (EditChannel (text_channel_id clan))) eqn:Ha1;
    [destruct (a (EditChannel (voice_channel_id clan))) eqn:Ha2 | |];
    (rewrite Hstep; [| apply Hkeep; tauto ..]);
    rewrite ?Ha1, ?Ha2, ?edit_absorb, ?edit_idem; reflexivity.
Qed.

Section Idem.
Variable oracle : nat -> ExtCall -> Outcome.

Lemma update_clan_permissions_guild cid w :
  guild (snd (update_clan_permissions oracle cid w))
  = reconciled (oracle (clock w)) (oracle (S (clock w))) cid (db w) (guild w).
Proof.
  unfold update_clan_permissions, reconciled. rewrite bind_gets.
  destruct (get_clan_by_id cid (db w)) as [clan |]; [| reflexivity].
  rewrite bind_gets.
  destruct (get_role (clan_name clan) (guild w)) as [role |],
           (get_channel (text_channel_id clan) (guild w)) as [text |],
           (get_channel (voice_channel_id clan) (guild w)) as [voice |],
           (get_member (leader_id clan) (guild w)) as [leader |];
    try reflexivity.
  rewrite bind_gets, bind_attempt.
  unfold channel_edit, request, bind, modify, print, ret. cbv zeta.
  destruct (oracle (clock w) (EditChannel (channel_id text))); simpl; try reflexivity.
  destruct (oracle (S (clock w)) (EditChannel (channel_id voice))); reflexivity.
Qed.

(** C5: when the platform answers a request the same way whenever it is
    made, a second reconciliation right after the first leaves the guild,
    hence the overwrites of both channels, and the store as the first
    left them. *)
Theorem reconcile_idempotent cid w :
  steady oracle ->
  let once := snd (update_clan_permissions oracle cid w) in
  let twice := snd (update_clan_permissions oracle cid once) in
  guild twice = guild once /\ db twice = db once.
Proof.
  intros Hs once twice. split.
  - unfold twice. rewrite update_clan_permissions_guild.
    assert (Hdb : db once = db w) by apply update_clan_permissions_returns.
    rewrite Hdb. unfold once. rewrite update_clan_permissions_guild.
    rewrite (reconciled_ext _ _ (oracle O) (oracle O)) by (intro; apply Hs).
    rewrite (reconciled_ext (oracle (clock w)) _ (oracle O) (oracle O)) by (intro; apply Hs).
    apply reconciled_idem.
  - apply update_clan_permissions_returns.
Qed.

End Idem.

Lemma quietly_refl t : quietly t t.
Proof. exists []. split; reflexivity. Qed.

Lemma quietly_trans a b c : quietly a b -> quietly b c -> quietly a c.
Proof.
  intros [n1 [-> H1]] [n2 [-> H2]]. exists (n2 ++ n1). split.
  - apply app_assoc.
  - rewrite existsb_app, H1, H2. reflexivity.
Qed.

Lemma quietly_one e t : failed_removal e = false -> quietly t (e :: t).
Proof. intro H. exists [e]. split; [reflexivity | simpl; rewrite H; reflexivity]. Qed.

Section Disband.
Variable oracle : nat -> ExtCall -> Outcome.

Lemma quiet_request c :
  (forall m r, c <> RemoveRoles m r) -> keeps trace quietly (request oracle c).
Proof.
  intros Hc w. simpl. apply quietly_one.
  destruct c; try reflexivity. exfalso. eapply Hc. reflexivity.
Qed.

Lemma quiet_print line : keeps trace quietly (print line).
Proof. intro w. simpl. apply quietly_one. reflexivity. Qed.

Lemma quiet_store op f : keeps trace quietly (store op f).
Proof. intro w. simpl. apply quietly_one. reflexivity. Qed.

Lemma quiet_set_guild (f : World -> Guild) :
  keeps trace quietly (modify (fun w => set_guild (f w) w)).
Proof. intro w. apply quietly_refl. Qed.

Ltac quiet :=
  try pose proof quietly_refl as Hrefl; try pose proof quietly_trans as Htrans;
  repeat first
    [ assumption
    | apply quiet_request; discriminate
    | apply quiet_print
    | apply quiet_store
    | apply quiet_set_guild
    | keeps_shape ].

Lemma quiet_role_delete role : keeps trace quietly (role_delete oracle role).
Proof. unfold role_delete. quiet. Qed.

Lemma quiet_channel_delete c : keeps trace quietly (channel_delete oracle c).
Proof. unfold channel_delete. quiet. Qed.

Lemma quiet_warn_if_forbidden body line :
  keeps trace quietly body -> keeps trace quietly (warn_if_forbidden body line).
Proof. intro H. unfold warn_if_forbidden. quiet. Qed.

Lemma quiet_disband_channels ids : keeps trace quietly (disband_channels oracle ids).
Proof.
  unfold disband_channels. quiet.
  apply quiet_warn_if_forbidden, quiet_channel_delete.
Qed.

Lemma quiet_disband_category name : keeps trace quietly (disband_category oracle name).
Proof.
  unfold disband_category. quiet.
  apply quiet_warn_if_forbidden, quiet_channel_delete.
Qed.

Lemma remove_roles_run m role w :
  let c := RemoveRoles m (role_id role) in
  let w0 := tick (log_event (ECall c (oracle (clock w) c)) w) in
  remove_roles oracle m (Some role) w
  = match oracle (clock w) c with
    | Success => (Ok tt, set_guild (on_member m (drop_role (role_id role)) (guild w)) w0)
    | Denied => (Raise Forbidden, w0)
    | Failed text => (Raise (HTTPException text), w0)
    end.
Proof.
  unfold remove_roles, bind, request, modify. simpl.
  destruct (oracle (clock w) (RemoveRoles m (role_id role))); reflexivity.
Qed.

(** The loop of lines 317-318. *)
Lemma strip_role_loop role l : forall w,
  let r := for_each l (fun m => remove_roles oracle (member_id m) (Some role)) w in
  db (snd r) = db w /\
  roles (guild (snd r)) = roles (guild w) /\
  channels (guild (snd r)) = channels (guild w) /\
  exists new, trace (snd r) = new ++ trace w /\
    forallb is_remove_roles new = true /\
    match fst r with
    | Ok _ => existsb failed_removal new = false
    | Raise _ => True
    end.
Proof.
  induction l as [| m rest IH]; intro w.
  - simpl. repeat split. exists []. repeat split.
  - cbn [for_each]. unfold bind. rewrite remove_roles_run. cbv zeta.
    destruct (oracle (clock w) (RemoveRoles (member_id m) (role_id role))) eqn:Ho.
    + match goal with |- context [for_each rest ?b ?w1] =>
        specialize (IH w1); cbv zeta in IH;
        destruct IH as [Hd [Hr [Hc [new [Ht [Hall Hres]]]]]] end.
      rewrite Hd, Hr, Hc. repeat split.
      exists (new ++ [ECall (RemoveRoles (member_id m) (role_id role)) Success]).
      rewrite Ht. simpl. rewrite <- app_assoc. split; [reflexivity |].
      rewrite forallb_app, Hall. split; [reflexivity |].
      destruct (fst _); [| exact I].
      rewrite existsb_app, Hres. reflexivity.
    + simpl. repeat split. eexists [_]. repeat split.
    + simpl. repeat split. eexists [_]. repeat split.
Qed.

(** Either no removal failed during [disband_clan], or it stopped in the
    loop that takes the role from its holders. *)
Lemma disband_clan_cases user name w :
  let r := disband_clan oracle user name w in
  quietly (trace w) (trace (snd r)) \/
  ((exists e, fst r = Raise e) /\
   db (snd r) = db w /\
   roles (guild (snd r)) = roles (guild w) /\
   channels (guild (snd r)) = channels (guild w) /\
   exists new, trace (snd r) = new ++ trace w /\ forallb is_remove_roles new = true).
Proof.
  pose proof quietly_refl as Hrefl. pose proof quietly_trans as Htrans.
  intro r. remember r as r' eqn:Er. unfold r, disband_clan in Er. clear r.
  rewrite bind_gets in Er.
  destruct (get_clan_by_name name (db w)) as [clan |].
  2: { left. subst r'. apply quiet_request. discriminate. }
  destruct (negb (user =? leader_id clan)).
  { left. subst r'. apply quiet_request. discriminate. }
  set (K := fun _ : unit => bind (disband_channels oracle _) _) in Er.
  assert (HK : forall u, keeps trace quietly (K u)).
  { intro u. unfold K. quiet.
    - apply quiet_disband_channels.
    - apply quiet_disband_category. }
  unfold disband_role in Er. unfold bind at 1 in Er. rewrite bind_gets in Er.
  destruct (get_role name (guild w)) as [role |].
  2: { left. subst r'. apply HK. }
  pose proof (strip_role_loop role (role_members role (guild w)) w) as Hloop.
  cbv zeta in Hloop. unfold bind at 1 in Er.
  destruct (for_each _ _ w) as [[[] | e] w1]; simpl in Hloop.
  - left. destruct Hloop as [_ [_ [_ [new1 [Ht1 [_ Hq1]]]]]].
    apply quietly_trans with (trace w1); [exists new1; split; assumption |].
    match type of Er with _ = (let (_, _) := ?m w1 in _) =>
      change (r' = bind m K w1) in Er end.
    subst r'. apply keeps_bind; [exact Htrans | | exact HK].
    apply quiet_warn_if_forbidden, quiet_role_delete.
  - right. subst r'. simpl.
    destruct Hloop as [Hd [Hr [Hc [new1 [Ht1 [Hall _]]]]]].
    repeat split; try assumption; eauto.
Qed.

(** C10: if one of the requests that take the role from its holders is
    not carried out, disband ends with the exception, having made nothing
    but such requests: store, roles and channels are as before. *)
Theorem disband_stops_at_failed_removal user name w new :
  let r := disband_clan oracle user name w in
  trace (snd r) = new ++ trace w ->
  existsb failed_removal new = true ->
  (exists e, fst r = Raise e) /\
  db (snd r) = db w /\
  roles (guild (snd r)) = roles (guild w) /\
  channels (guild (snd r)) = channels (guild w) /\
  forallb is_remove_roles new = true.
Proof.
  intros r Htrace Hfail.
  destruct (disband_clan_cases user name w) as [Hq | H]; fold r in Hq || fold r in H.
  - exfalso. destruct Hq as [new' [Hn Hq]]. rewrite Htrace in Hn.
    apply app_inv_tail in Hn. subst new'. congruence.
  - destruct H as [He [Hd [Hr [Hc [new' [Hn Hall]]]]]].
    rewrite Htrace in Hn. apply app_inv_tail in Hn. subst new'.
    repeat split; assumption.
Qed.

End Disband.

Lemma quietly_In e t t' : quietly t t' -> In e t -> In e t'.
Proof. intros [new [-> _]] H. apply in_or_app. right. exact H. Qed.

Lemma find_none_iff {A} (f : A -> bool) l :
  find f l = None <-> forall x, In x l -> f x = false.
Proof.
  split.
  - intros H x Hx. exact (find_none f l H x Hx).
  - induction l as [| y rest IH]; simpl; [reflexivity |].
    intro H. rewrite (H y (or_introl eq_refl)). apply IH.
    intros x Hx. apply H. right. exact Hx.
Qed.

Lemma orphan_id c x : channel_id (orphan c x) = channel_id x.
Proof. reflexivity. Qed.

(** A channel that is not in the guild is not there after a deletion
    either. *)
Lemma get_channel_delete_none id c g :
  get_channel id g = None -> get_channel id (guild_delete_channel c g) = None.
Proof.
  unfold get_channel. rewrite !find_none_iff. simpl.
  intros H x Hx. apply in_map_iff in Hx. destruct Hx as [y [<- Hy]].
  apply filter_In in Hy. rewrite orphan_id. apply H. tauto.
Qed.

Lemma get_channel_deleted c g : get_channel c (guild_delete_channel c g) = None.
Proof.
  unfold get_channel. rewrite find_none_iff. simpl.
  intros x Hx. apply in_map_iff in Hx. destruct Hx as [y [<- Hy]].
  apply filter_In in Hy. rewrite orphan_id. apply negb_true_iff. tauto.
Qed.

Lemma get_channel_delete_other id c g :
  id <> c ->
  get_channel id (guild_delete_channel c g)
  = option_map (orphan c) (get_channel id g).
Proof.
  intro Hne. unfold get_channel. simpl.
  induction (channels g) as [| x rest IH]; simpl; [reflexivity |].
  destruct (channel_id x =? c) eqn:Hx; simpl.
  - destruct (channel_id x =? id) eqn:Hi; [| exact IH].
    apply Z.eqb_eq in Hx, Hi. congruence.
  - destruct (channel_id x =? id); [reflexivity | exact IH].
Qed.

Lemma role_deleted rid g :
  ~ In rid (map role_id (roles (guild_delete_role rid g))).
Proof.
  simpl. intro H. apply in_map_iff in H. destruct H as [r [Hr Hin]].
  apply filter_In in Hin. destruct Hin as [_ Hin].
  apply negb_true_iff, Z.eqb_neq in Hin. contradiction.
Qed.

Lemma delete_clan_rows_gone cid d :
  get_clan_by_id cid (delete_clan_rows cid d) = None /\
  get_members cid (delete_clan_rows cid d) = [].
Proof.
  split.
  - unfold get_clan_by_id. apply find_none_iff. simpl. intros x Hx.
    apply filter_In in Hx. apply negb_true_iff. tauto.
  - unfold get_members. simpl.
    induction (clan_members d) as [| p rest IH]; simpl; [reflexivity |].
    destruct (fst p =? cid) eqn:Hp; simpl; [exact IH |].
    rewrite Hp. exact IH.
Qed.

Section Teardown.
Variable oracle : nat -> ExtCall -> Outcome.

(** The one request the platform refuses is the deletion of channel
    [vid]. *)
Variable vid : Z.
Hypothesis refuses : forall t, oracle t (DeleteChannel vid) = Denied.
Hypothesis accepts : forall t c, c <> DeleteChannel vid -> oracle t c = Success.

Lemma strip_role_loop_accepted role l : forall w,
  exists w1,
    for_each l (fun m => remove_roles oracle (member_id m) (Some role)) w = (Ok tt, w1) /\
    db w1 = db w /\ roles (guild w1) = roles (guild w) /\
    channels (guild w1) = channels (guild w) /\ quietly (trace w) (trace w1).
Proof.
  induction l as [| m rest IH]; intro w.
  - exists w. repeat split. apply quietly_refl.
  - cbn [for_each]. unfold bind. rewrite remove_roles_run. cbv zeta.
    rewrite accepts by discriminate.
    match goal with |- context [for_each rest ?b ?w1] =>
      destruct (IH w1) as [w2 [E [Hd [Hr [Hc Hq]]]]] end.
    exists w2. rewrite E. repeat split; try assumption.
    eapply quietly_trans; [| exact Hq]. apply quietly_one. reflexivity.
Qed.

Lemma role_delete_accepted role line w :
  warn_if_forbidden (role_delete oracle role) line w
  = (Ok tt, set_guild (guild_delete_role (role_id role) (guild w))
              (tick (log_event (ECall (DeleteRole (role_id role)) Success) w))).
Proof.
  unfold warn_if_forbidden. rewrite bind_attempt.
  unfold role_delete, bind, request, modify. rewrite accepts by discriminate.
  reflexivity.
Qed.

Lemma channel_delete_run c line w :
  warn_if_forbidden (channel_delete oracle c) line w
  = if channel_id c =? vid
    then (Ok tt, log_event (ELog line)
                   (tick (log_event (ECall (DeleteChannel vid) Denied) w)))
    else (Ok tt, set_guild (guild_delete_channel (channel_id c) (guild w))
                   (tick (log_event (ECall (DeleteChannel (channel_id c)) Success) w))).
Proof.
  unfold warn_if_forbidden. rewrite bind_attempt.
  unfold channel_delete, bind, request, modify.
  destruct (channel_id c =? vid) eqn:Hc.
  - apply Z.eqb_eq in Hc. rewrite Hc, refuses. reflexivity.
  - apply Z.eqb_neq in Hc. rewrite accepts by congruence. reflexivity.
Qed.

Lemma disband_channels_run tid w :
  tid <> vid ->
  get_channel vid (guild w) <> None ->
  exists w1,
    disband_channels oracle [tid; vid] w = (Ok tt, w1) /\
    db w1 = db w /\ roles (guild w1) = roles (guild w) /\
    get_channel tid (guild w1) = None /\
    In (ECall (DeleteChannel vid) Denied) (trace w1).
Proof.
  intros Hne Hv. unfold disband_channels. cbn [for_each].
  unfold bind at 1. rewrite bind_gets.
  assert (Hstep : exists w0,
            match get_channel tid (guild w) with
            | Some channel =>
                warn_if_forbidden (channel_delete oracle channel)
                  ("[WARN] Missing permission to delete channel "
                     ++ channel_name channel)%string
            | None => ret tt
            end w = (Ok tt, w0) /\
            db w0 = db w /\ roles (guild w0) = roles (guild w) /\
            get_channel tid (guild w0) = None /\
            get_channel vid (guild w0) <> None).
  { destruct (get_channel tid (guild w)) as [c |] eqn:Hc.
    - rewrite channel_delete_run. pose proof (get_channel_id _ _ _ Hc) as Hid.
      rewrite Hid. destruct (tid =? vid) eqn:E; [apply Z.eqb_eq in E; contradiction |].
      eexists. split; [reflexivity |]. repeat split.
      + apply get_channel_deleted.
      + simpl. rewrite get_channel_delete_other by congruence.
        destruct (get_channel vid (guild w)); [discriminate | congruence].
    - exists w. repeat split; assumption. }
  destruct Hstep as [w0 [E0 [Hd0 [Hr0 [Ht0 Hv0]]]]]. rewrite E0.
  unfold bind at 1. rewrite bind_gets.
  destruct (get_channel vid (guild w0)) as [c |] eqn:Hc; [| congruence].
  rewrite channel_delete_run. rewrite (get_channel_id _ _ _ Hc), Z.eqb_refl.
  eexists. split; [reflexivity |]. simpl. repeat split; try assumption.
  right. left. reflexivity.
Qed.

Lemma disband_category_run name w :
  exists w1,
    disband_category oracle name w = (Ok tt, w1) /\
    db w1 = db w /\ roles (guild w1) = roles (guild w) /\
    (forall id, get_channel id (guild w) = None -> get_channel id (guild w1) = None) /\
    quietly (trace w) (trace w1).
Proof.
  unfold disband_category. rewrite bind_gets.
  destruct (get_category (category_name_of name) (guild w)) as [category |].
  2: { exists w. repeat split; try tauto. apply quietly_refl. }
  destruct (_ =? _)%nat.
  2: { exists w. repeat split; try tauto. apply quietly_refl. }
  rewrite channel_delete_run. destruct (channel_id category =? vid).
  - eexists. split; [reflexivity |]. repeat split; try tauto.
    eapply quietly_trans; apply quietly_one; reflexivity.
  - eexists. split; [reflexivity |]. repeat split.
    + intros id H. apply get_channel_delete_none. exact H.
    + apply quietly_one. reflexivity.
Qed.

(** C4: the deletion of the voice channel is refused, every other request
    is carried out: disband returns, the role and the text channel are
    gone, the clan row and its membership rows are deleted, and the
    deletion from the store is the last effect before the reply. *)
Theorem disband_survives_voice_denial user name w clan role :
  get_clan_by_name name (db w) = Some clan ->
  user = leader_id clan ->
  voice_channel_id clan = vid ->
  text_channel_id clan <> vid ->
  get_role name (guild w) = Some role ->
  get_channel vid (guild w) <> None ->
  let r := disband_clan oracle user name w in
  fst r = Ok tt /\
  ~ In (role_id role) (map role_id (roles (guild (snd r)))) /\
  get_channel (text_channel_id clan) (guild (snd r)) = None /\
  In (ECall (DeleteChannel vid) Denied) (trace (snd r)) /\
  get_clan_by_id (clan_id clan) (db (snd r)) = None /\
  get_members (clan_id clan) (db (snd r)) = [] /\
  exists reply older,
    trace (snd r)
    = ECall (SendMessage reply) Success :: EStore (DeleteClan (clan_id clan)) :: older.
Proof.
  intros Hclan Huser Hvid Htid Hrole Hvoice r.
  remember r as r' eqn:Er. unfold r, disband_clan in Er. clear r.
  rewrite bind_gets, Hclan, Huser, Z.eqb_refl in Er. cbn [negb] in Er.
  (* the role *)
  unfold disband_role in Er. unfold bind at 1 in Er.
  rewrite bind_gets, Hrole in Er. unfold bind at 1 in Er.
  destruct (strip_role_loop_accepted role (role_members role (guild w)) w)
    as [w1 [E1 [Hd1 [Hr1 [Hc1 Hq1]]]]].
  rewrite E1, role_delete_accepted in Er.
  match type of Er with context [set_guild ?g ?w0] => set (w2 := set_guild g w0) in Er end.
  (* the channels *)
  unfold bind at 1 in Er. rewrite Hvid in Er.
  destruct (disband_channels_run (text_channel_id clan) w2 Htid)
    as [w3 [E3 [Hd3 [Hr3 [Ht3 Hin3]]]]].
  { change (get_channel vid (guild w1) <> None).
    unfold get_channel in *. rewrite Hc1. exact Hvoice. }
  rewrite E3 in Er.
  (* the category *)
  unfold bind at 1 in Er.
  destruct (disband_category_run name w3) as [w4 [E4 [Hd4 [Hr4 [Ht4 Hq4]]]]].
  rewrite E4 in Er.
  (* the store and the reply *)
  unfold bind, remove_clan_from_db, store, modify, send_message, request in Er.
  rewrite accepts in Er by discriminate. simpl in Er. subst r'. simpl.
  repeat split.
  - rewrite Hr4, Hr3. unfold w2. simpl. apply role_deleted.
  - apply Ht4. exact Ht3.
  - right. right. eapply quietly_In; [exact Hq4 | exact Hin3].
  - rewrite Hd4. apply delete_clan_rows_gone.
  - rewrite Hd4. apply delete_clan_rows_gone.
  - eauto.
Qed.

End Teardown.

Lemma reported_first_app l1 l2 :
  reported_first l1 = true ->
  forallb (fun e => negb (is_rollback e)) l2 = true ->
  reported_first (l1 ++ l2) = true.
Proof.
  intros H1 H2. induction l1 as [| e rest IH]; simpl in *.
  - induction l2 as [| e rest IH]; simpl in *; [reflexivity |].
    apply andb_true_iff in H2. destruct H2 as [He Hrest].
    rewrite He, IH by assumption. reflexivity.
  - apply andb_true_iff in H1. destruct H1 as [He Hrest].
    rewrite IH by assumption. rewrite existsb_app.
    apply orb_true_iff in He. destruct He as [-> | ->]; simpl;
      rewrite ?orb_true_r; reflexivity.
Qed.

Lemma no_new_channel_refl g : no_new_channel g g.
Proof. intros c Hc. right. exists c. split; [exact Hc | reflexivity]. Qed.

Lemma no_new_channel_category g g1 cat :
  no_new_channel g g1 -> is_category cat = true ->
  forall c, In c (channels g1 ++ [cat]) ->
            is_category c = true \/
            exists c0, In c0 (channels g) /\ channel_id c0 = channel_id c.
Proof.
  intros H Hcat c Hc. apply in_app_or in Hc. destruct Hc as [Hc | [<- | []]].
  - apply H. exact Hc.
  - left. exact Hcat.
Qed.

Lemma no_new_channel_delete g chs text c :
  (forall c, In c chs ->
             is_category c = true \/
             exists c0, In c0 (channels g) /\ channel_id c0 = channel_id c) ->
  In c (map (orphan (channel_id text))
          (filter (fun c => negb (channel_id c =? channel_id text)) (chs ++ [text]))) ->
  is_category c = true \/
  exists c0, In c0 (channels g) /\ channel_id c0 = channel_id c.
Proof.
  intros H Hc. apply in_map_iff in Hc. destruct Hc as [y [<- Hy]].
  apply filter_In in Hy. destruct Hy as [Hy Hne].
  apply in_app_or in Hy. destruct Hy as [Hy | [<- | []]].
  - destruct (H y Hy) as [Hcat | Hold]; [left; exact Hcat | right; exact Hold].
  - rewrite Z.eqb_refl in Hne. discriminate.
Qed.

Lemma roles_after_rollback rs role :
  incl (filter (fun r => negb (role_id r =? role_id role)) (rs ++ [role])) rs.
Proof.
  intros r Hr. apply filter_In in Hr. destruct Hr as [Hr Hne].
  apply in_app_or in Hr. destruct Hr as [Hr | [<- | []]]; [exact Hr |].
  rewrite Z.eqb_refl in Hne. discriminate.
Qed.

Section Rollback.
Variable oracle : nat -> ExtCall -> Outcome.

(** The platform refuses for lack of privilege only, and carries out the
    replies, the deletions and the assignment of the role. *)
Hypothesis no_failure : forall t c text, oracle t c <> Failed text.
Hypothesis replies : forall t r, oracle t (SendMessage r) = Success.
Hypothesis role_deletes : forall t id, oracle t (DeleteRole id) = Success.
Hypothesis channel_deletes : forall t id, oracle t (DeleteChannel id) = Success.
Hypothesis grants : forall t m r, oracle t (AddRoles m r) = Success.

Lemma send_message_run r w :
  send_message oracle r w
  = (Ok tt, tick (log_event (ECall (SendMessage r) Success) w)).
Proof. unfold send_message, request. rewrite replies. reflexivity. Qed.

Lemma role_delete_run role w :
  role_delete oracle role w
  = (Ok tt, set_guild (guild_delete_role (role_id role) (guild w))
              (tick (log_event (ECall (DeleteRole (role_id role)) Success) w))).
Proof. unfold role_delete, bind, request, modify. rewrite role_deletes. reflexivity. Qed.

Lemma channel_delete_ok c w :
  channel_delete oracle c w
  = (Ok tt, set_guild (guild_delete_channel (channel_id c) (guild w))
              (tick (log_event (ECall (DeleteChannel (channel_id c)) Success) w))).
Proof.
  unfold channel_delete, bind, request, modify. rewrite channel_deletes. reflexivity.
Qed.

(** The [except] clause of lines 223-230 when no channel was created. *)
Lemma rollback_without_channel role w :
  gave_up role w (snd (create_clan_rollback oracle role None None w)).
Proof.
  unfold create_clan_rollback.
  rewrite (bind_ok _ _ _ _ _ (send_message_run _ w)).
  rewrite (bind_ok _ _ _ _ _ (role_delete_run role _)).
  unfold bind, raise. simpl. repeat split.
  - intros g H. exact H.
  - eexists [_; _]. split; reflexivity.
Qed.

(** The same when the text channel was created and the voice channel
    refused. *)
Lemma rollback_with_text role text w0 w :
  db w = db w0 ->
  roles (guild w) = roles (guild w0) ->
  channels (guild w) = channels (guild w0) ++ [text] ->
  calmly (trace w0) (trace w) ->
  gave_up role w0 (snd (create_clan_rollback oracle role (Some text) None w)).
Proof.
  intros Hd Hr Hc [new [Ht Hnew]]. unfold create_clan_rollback.
  rewrite (bind_ok _ _ _ _ _ (send_message_run _ w)).
  rewrite (bind_ok _ _ _ _ _ (role_delete_run role _)).
  rewrite (bind_ok _ _ _ _ _ (channel_delete_ok text _)).
  unfold raise, gave_up.
  cbn [snd db guild roles channels trace set_guild tick log_event
       guild_delete_role guild_delete_channel].
  repeat split.
  - exact Hd.
  - rewrite Hr. reflexivity.
  - intros g H c Hin.
    cbn [snd guild channels set_guild guild_delete_role guild_delete_channel] in Hin.
    rewrite Hc in Hin.
    eapply no_new_channel_delete; [exact H | exact Hin].
  - rewrite Ht. eexists ([_; _; _] ++ new). split; [reflexivity |].
    apply reported_first_app; [reflexivity | exact Hnew].
Qed.

Lemma gave_up_later role w1 w2 w' :
  db w2 = db w1 ->
  roles (guild w2) = roles (guild w1) ->
  (forall g, no_new_channel g (guild w1) -> no_new_channel g (guild w2)) ->
  calmly (trace w1) (trace w2) ->
  gave_up role w2 w' -> gave_up role w1 w'.
Proof.
  intros Hd Hr Hn [new [Ht Hnew]] [Hd' [Hr' [Hn' [new' [Ht' Hnew']]]]].
  repeat split.
  - congruence.
  - congruence.
  - intros g H. apply Hn', Hn, H.
  - exists (new' ++ new). rewrite Ht', Ht, app_assoc. split; [reflexivity |].
    apply reported_first_app; assumption.
Qed.

Lemma existsb_find {A} (f : A -> bool) l : existsb f l = true -> find f l <> None.
Proof.
  induction l as [| x rest IH]; simpl; [discriminate |].
  destruct (f x); [discriminate | exact IH].
Qed.

Lemma find_last {A} (f : A -> bool) l x : f x = true -> find f (l ++ [x]) <> None.
Proof.
  intro Hx. induction l as [| y rest IH]; simpl.
  - rewrite Hx. discriminate.
  - destruct (f y); [discriminate | exact IH].
Qed.

(** Whether the insert goes through or not, a clan of that name is in
    the store afterwards. *)
Lemma add_clan_to_db_named name leader text voice w :
  let r := add_clan_to_db name leader text voice w in
  get_clan_by_name name (db (snd r)) <> None /\
  (fst r = Raise IntegrityError \/ exists cid, fst r = Ok cid).
Proof.
  unfold add_clan_to_db, insert_clan, insert_member, store, bind, gets, modify,
    ret, raise, get_clan_by_name.
  destruct (existsb _ (clans (db w))) eqn:He.
  - split; [apply existsb_find; exact He | left; reflexivity].
  - cbn [db set_db log_event clans clan_members clans_seq fst snd].
    destruct (has_member _ _ _); cbn [db set_db log_event clans fst snd];
      (split; [apply find_last; apply String.eqb_refl | eauto]).
Qed.

Lemma add_roles_run m role w :
  add_roles oracle m (Some role) w
  = (Ok tt, set_guild (on_member m (take_role (role_id role)) (guild w))
              (tick (log_event (ECall (AddRoles m (role_id role)) Success) w))).
Proof. unfold add_roles, bind, request, modify. rewrite grants. reflexivity. Qed.

Lemma record_named user name role text voice w :
  get_clan_by_name name
    (db (snd (create_clan_record oracle user name role text voice w))) <> None.
Proof.
  unfold create_clan_record.
  rewrite (bind_ok _ _ _ _ _ (add_roles_run _ _ _)), bind_attempt.
  match goal with |- context [add_clan_to_db ?n ?l ?t ?v ?w1] =>
    destruct (add_clan_to_db_named n l t v w1) as [Hn Hres];
    destruct (add_clan_to_db n l t v w1) as [res w2] end.
  cbn [fst snd] in *.
  destruct Hres as [-> | [cid ->]].
  - rewrite (bind_ok _ _ _ _ _ (send_message_run _ _)).
    rewrite (bind_ok _ _ _ _ _ (role_delete_run role _)).
    rewrite (bind_ok _ _ _ _ _ (channel_delete_ok text _)).
    rewrite channel_delete_ok. exact Hn.
  - rewrite send_message_run. exact Hn.
Qed.

Lemma category_step name w :
  exists oc w2,
    get_or_create_category_for_clan oracle name w = (Ok oc, w2) /\
    db w2 = db w /\ roles (guild w2) = roles (guild w) /\
    (forall g, no_new_channel g (guild w) -> no_new_channel g (guild w2)) /\
    calmly (trace w) (trace w2).
Proof.
  unfold get_or_create_category_for_clan. cbv zeta. rewrite bind_gets.
  destruct (get_category (category_name_of name) (guild w)) as [category |].
  - do 2 eexists. split; [reflexivity |]. repeat split; try tauto.
    exists []. split; reflexivity.
  - rewrite bind_attempt.
    unfold create_category, bind, request, update_guild, print, modify, ret.
    destruct (oracle (clock w) (CreateCategory (category_name_of name))) eqn:Ho.
    + do 2 eexists. split; [reflexivity |]. repeat split.
      * intros g H c Hc. eapply no_new_channel_category; [exact H | | exact Hc].
        reflexivity.
      * eexists [_]. split; reflexivity.
    + do 2 eexists. split; [reflexivity |]. repeat split; try tauto.
      eexists [_; _]. split; reflexivity.
    + exfalso. exact (no_failure _ _ _ Ho).
Qed.

Lemma create_text_channel_run name category ow w :
  let c := CreateTextChannel name (channel_id category) in
  let w0 := tick (log_event (ECall c (oracle (clock w) c)) w) in
  create_text_channel oracle name category ow w
  = match oracle (clock w) c with
    | Success =>
        let (ch, g) := guild_add_channel name TextChannel
                         (Some (channel_id category)) ow (guild w) in
        (Ok ch, set_guild g w0)
    | Denied => (Raise Forbidden, w0)
    | Failed text => (Raise (HTTPException text), w0)
    end.
Proof.
  unfold create_text_channel, bind, request, update_guild. cbv zeta.
  destruct (oracle (clock w) _); reflexivity.
Qed.

Lemma create_voice_channel_run name category ow w :
  let c := CreateVoiceChannel name (channel_id category) in
  let w0 := tick (log_event (ECall c (oracle (clock w) c)) w) in
  create_voice_channel oracle name category ow w
  = match oracle (clock w) c with
    | Success =>
        let (ch, g) := guild_add_channel name VoiceChannel
                         (Some (channel_id category)) ow (guild w) in
        (Ok ch, set_guild g w0)
    | Denied => (Raise Forbidden, w0)
    | Failed text => (Raise (HTTPException text), w0)
    end.
Proof.
  unfold create_voice_channel, bind, request, update_guild. cbv zeta.
  destruct (oracle (clock w) _); reflexivity.
Qed.

Lemma create_clan_channels_cases user name role w1 :
  let r := create_clan_channels oracle user name role w1 in
  get_clan_by_name name (db (snd r)) <> None \/ gave_up role w1 (snd r).
Proof.
  unfold create_clan_channels.
  destruct (category_step name w1) as [oc [w2 [E2 [Hd2 [Hr2 [Hn2 Hq2]]]]]].
  rewrite (bind_ok _ _ _ _ _ E2).
  destruct oc as [category |].
  2: { right. apply (gave_up_later role w1 w2); try assumption.
       rewrite (bind_ok _ _ _ _ _ (send_message_run _ _)), role_delete_run.
       repeat split. - tauto. - eexists [_; _]. split; reflexivity. }
  rewrite bind_gets, bind_attempt, create_text_channel_run. cbv zeta.
  destruct (oracle (clock w2) _) eqn:Ho1; cbn [fst snd guild_add_channel].
  3: { exfalso. exact (no_failure _ _ _ Ho1). }
  2: { right. apply (gave_up_later role w1 w2); try assumption.
       eapply gave_up_later; [| | | | apply rollback_without_channel];
         try reflexivity; [tauto |].
       eexists [_]. split; reflexivity. }
  rewrite bind_attempt, create_voice_channel_run. cbv zeta.
  match goal with |- context [oracle (clock ?w) (CreateVoiceChannel ?n ?c)] =>
    destruct (oracle (clock w) (CreateVoiceChannel n c)) eqn:Ho2 end;
    cbn [fst snd guild_add_channel].
  3: { exfalso. exact (no_failure _ _ _ Ho2). }
  2: { right. apply (gave_up_later role w1 w2); try assumption.
       apply rollback_with_text.
       - reflexivity.
       - reflexivity.
       - reflexivity.
       - eexists [_; _]. split; reflexivity. }
  left. apply record_named.
Qed.

Lemma create_role_run name w :
  let c := CreateRole name in
  let w0 := tick (log_event (ECall c (oracle (clock w) c)) w) in
  create_role oracle name w
  = match oracle (clock w) c with
    | Success =>
        let (r, g) := guild_add_role name (guild w) in (Ok r, set_guild g w0)
    | Denied => (Raise Forbidden, w0)
    | Failed text => (Raise (HTTPException text), w0)
    end.
Proof.
  unfold create_role, bind, request, update_guild. cbv zeta.
  destruct (oracle (clock w) _); reflexivity.
Qed.

Lemma create_clan_cases user name w :
  let r := create_clan oracle user name w in
  get_clan_by_name name (db (snd r)) <> None \/ rolled_back w (snd r).
Proof.
  assert (Hreply : forall msg w0,
            db w0 = db w -> guild w0 = guild w -> calmly (trace w) (trace w0) ->
            rolled_back w (snd (send_message oracle msg w0))).
  { intros msg w0 Hd Hg [new [Ht Hnew]]. rewrite send_message_run.
    unfold rolled_back. cbn [snd db guild trace tick log_event].
    rewrite Hd, Hg, Ht. repeat split.
    - apply incl_refl.
    - apply no_new_channel_refl.
    - exists ([ECall (SendMessage msg) Success] ++ new). split; [reflexivity |].
      apply reported_first_app; [reflexivity | exact Hnew]. }
  assert (Hhere : calmly (trace w) (trace w)) by (exists []; split; reflexivity).
  unfold create_clan. rewrite bind_gets.
  destruct (truthy_int _); [right; apply Hreply; auto |].
  destruct (is_some (get_clan_by_name name (db w))); [right; apply Hreply; auto |].
  rewrite bind_gets.
  destruct (is_some (get_role name (guild w))); [right; apply Hreply; auto |].
  rewrite bind_attempt, create_role_run. cbv zeta.
  destruct (oracle (clock w) (CreateRole name)) eqn:Ho;
    cbn [guild_add_role fst snd].
  - set (role := {| role_id := next_snowflake (guild w); role_name := name |}).
    match goal with |- context [create_clan_channels oracle user name role ?w0] =>
      assert (Hfacts : db w0 = db w /\
                       roles (guild w0) = roles (guild w) ++ [role] /\
                       channels (guild w0) = channels (guild w) /\
                       trace w0 = [ECall (CreateRole name) Success] ++ trace w)
        by (repeat split);
      generalize dependent w0; intros w1 [Hd1 [Hr1 [Hc1 Ht1]]] end.
    destruct (create_clan_channels_cases user name role w1)
      as [Hn | [Hd [Hr [Hc [new [Ht Hnew]]]]]].
    + left. exact Hn.
    + right. repeat split.
      * congruence.
      * rewrite Hr, Hr1. apply roles_after_rollback.
      * apply Hc. intros c Hin. rewrite Hc1 in Hin.
        apply no_new_channel_refl. exact Hin.
      * rewrite Ht, Ht1. exists (new ++ [ECall (CreateRole name) Success]).
        rewrite <- app_assoc. split; [reflexivity |].
        apply reported_first_app; [exact Hnew | reflexivity].
  - right. apply Hreply; try reflexivity. eexists [_]. split; reflexivity.
  - exfalso. exact (no_failure _ _ _ Ho).
Qed.

(** X22: when the platform refuses for lack of privilege only and carries
    out the replies, the deletions and the assignment of the role, create
    either leaves a clan of that name in the store, or gives up with the
    store as it was, no role and no text or voice channel that was not
    there before, and every deletion made after a reply to the
    requester. *)
Theorem create_records_or_rolls_back user name w :
  let r := create_clan oracle user name w in
  get_clan_by_name name (db (snd r)) <> None \/ rolled_back w (snd r).
Proof. exact (create_clan_cases user name w). Qed.

End Rollback.

Local Open Scope string_scope.

(** C1 as stated fails: after the leader kicks himself, or leaves the
    server, the clan is in the store without its leader's row. *)
Lemma leader_invariant_broken :
  store_ok (db start) /\
  ~ leader_recorded (db (run accept [Create 101 "Alpha"; Kick 101 101 "Alpha"] start)) /\
  ~ leader_recorded (db (run accept [Create 101 "Alpha"; Depart 101] start)).
Proof.
  split; [| split].
  - split; [constructor | intros c []].
  - intro H.
    specialize (H {| clan_id := 1; clan_name := "Alpha"; leader_id := 101;
                     text_channel_id := 1002; voice_channel_id := 1003 |}).
    assert (Hin : In {| clan_id := 1; clan_name := "Alpha"; leader_id := 101;
                     text_channel_id := 1002; voice_channel_id := 1003 |}
                    (clans (db (run accept [Create 101 "Alpha"; Kick 101 101 "Alpha"] start))))
      by (vm_compute; left; reflexivity).
    specialize (H Hin). vm_compute in H. discriminate H.
  - intro H.
    specialize (H {| clan_id := 1; clan_name := "Alpha"; leader_id := 101;
                     text_channel_id := 1002; voice_channel_id := 1003 |}).
    assert (Hin : In {| clan_id := 1; clan_name := "Alpha"; leader_id := 101;
                     text_channel_id := 1002; voice_channel_id := 1003 |}
                    (clans (db (run accept [Create 101 "Alpha"; Depart 101] start))))
      by (vm_compute; left; reflexivity).
    specialize (H Hin). vm_compute in H. discriminate H.
Qed.

Lemma leader_invariant_spared_witness :
  store_ok (db start) /\
  spare_leaders accept
    [Create 101 "Alpha"; Invite 101 102 "Alpha"; Kick 101 102 "Alpha";
     Invite 101 103 "Alpha"; Depart 103] start = true /\
  store_ok (db (run accept
    [Create 101 "Alpha"; Invite 101 102 "Alpha"; Kick 101 102 "Alpha";
     Invite 101 103 "Alpha"; Depart 103] start)).
Proof.
  assert (H0 : store_ok (db start)) by (split; [constructor | intros c []]).
  split; [exact H0 |]. split; [vm_compute; reflexivity |].
  apply (leader_invariant_spared accept _ start); [exact H0 | vm_compute; reflexivity].
Defined.

(** C2: right after create, a reconciliation writes on both channels the
    leader's entry without [manage_channels]: the loop over the recorded
    members, the leader among them, replaced the entry of the dict
    literal. *)
Theorem reconcile_drops_leader_management :
  let w := snd (update_clan_permissions accept 1 alpha_created) in
  resolve 1 alpha_created <> None /\
  get_members 1 (db alpha_created) = [101] /\
  option_map channel_overwrites (get_channel 1002 (guild w))
    = Some [(PRole 1, deny_view); (PRole 1000, allow_use); (PMember 101, allow_use)] /\
  option_map channel_overwrites (get_channel 1003 (guild w))
    = Some [(PRole 1, deny_view); (PRole 1000, allow_use); (PMember 101, allow_use)].
Proof.
  vm_compute. repeat split; try reflexivity. discriminate.
Qed.

(** C7: the role of the clan was deleted in the client: invite and kick
    pass [None] to [add_roles] / [remove_roles] and end with
    [AttributeError], the world unchanged. *)
Theorem invite_and_kick_raise_without_role :
  get_role "Alpha" (guild alpha_without_role) = None /\
  invite_clan accept 101 102 "Alpha" alpha_without_role
    = (Raise AttributeError, alpha_without_role) /\
  kick_clan accept 101 102 "Alpha" alpha_without_role
    = (Raise AttributeError, alpha_without_role).
Proof. vm_compute. repeat split; reflexivity. Qed.

(** C8: the leader of Beta is invited to Alpha: invite makes no check, and
    the member has two membership rows. *)
Theorem invite_adds_second_membership :
  let w := run accept [Create 101 "Alpha"; Create 102 "Beta"] start in
  clans_of_member 102 (db w) = [2] /\
  clans_of_member 102 (db (step accept w (Invite 101 102 "Alpha"))) = [2; 1].
Proof. vm_compute. split; reflexivity. Qed.

(** C3: create does not delete all it made when it gives up.  The
    platform refuses the text channel: the handler replies, deletes the
    role, then reads the local [text_channel] that was never bound and
    ends with [UnboundLocalError]; the category created for the clan
    stays in the guild, and the reply came before the deletion. *)
Theorem create_leaves_category_behind :
  let r := create_clan deny_text_channel 101 "Alpha" start in
  get_category "CLAN - Alpha" (guild start) = None /\
  fst r = Raise UnboundLocalError /\
  get_clan_by_name "Alpha" (db (snd r)) = None /\
  get_category "CLAN - Alpha" (guild (snd r))
  = Some {| channel_id := 1001; channel_name := "CLAN - Alpha";
            channel_kind := CategoryChannel; category_id := None;
            channel_overwrites := [] |} /\
  trace (snd r)
  = [ ECall (DeleteRole 1000) Success;
      ECall (SendMessage (RText "Bot cannot create channels. Check permissions."))
        Success;
      ECall (CreateTextChannel "alpha-text" 1001) Denied;
      ECall (CreateCategory "CLAN - Alpha") Success;
      ECall (CreateRole "Alpha") Success ].
Proof. vm_compute. repeat split; reflexivity. Qed.

Lemma disband_survives_voice_denial_witness :
  let r := disband_clan deny_voice_delete 101 "Alpha" alpha_created in
  get_clan_by_name "Alpha" (db alpha_created) = Some alpha_row /\
  get_role "Alpha" (guild alpha_created) = Some alpha_role /\
  get_channel 1003 (guild alpha_created) <> None /\
  fst r = Ok tt /\
  ~ In 1000 (map role_id (roles (guild (snd r)))) /\
  get_channel 1002 (guild (snd r)) = None /\
  get_clan_by_id 1 (db (snd r)) = None /\
  get_members 1 (db (snd r)) = [].
Proof.
  assert (Hacc : forall t c, c <> DeleteChannel 1003 -> deny_voice_delete t c = Success).
  { intros t c Hc. destruct c; try reflexivity. simpl.
    destruct (channel =? 1003)%Z eqn:E; [| reflexivity].
    apply Z.eqb_eq in E. subst. contradiction. }
  assert (Hclan : get_clan_by_name "Alpha" (db alpha_created) = Some alpha_row)
    by (vm_compute; reflexivity).
  assert (Hrole : get_role "Alpha" (guild alpha_created) = Some alpha_role)
    by (vm_compute; reflexivity).
  assert (Hvoice : get_channel 1003 (guild alpha_created) <> None)
    by (vm_compute; discriminate).
  assert (Htext : text_channel_id alpha_row <> 1003) by (vm_compute; discriminate).
  pose proof (disband_survives_voice_denial deny_voice_delete 1003
                (fun _ => eq_refl) Hacc 101 "Alpha" alpha_created alpha_row alpha_role
                Hclan eq_refl eq_refl Htext Hrole Hvoice) as H.
  cbv zeta in H |- *.
  destruct H as [H1 [H2 [H3 [_ [H5 [H6 _]]]]]].
  repeat split; assumption.
Defined.

Lemma reconcile_idempotent_witness :
  let once := snd (update_clan_permissions accept 1 alpha_of_two) in
  let twice := snd (update_clan_permissions accept 1 once) in
  steady accept /\ guild twice = guild once /\ db twice = db once.
Proof.
  assert (Hs : steady accept) by (intros t t' c; reflexivity).
  split; [exact Hs |].
  exact (reconcile_idempotent accept 1 alpha_of_two Hs).
Defined.

Lemma reconcile_never_raises_witness :
  resolve 1 start = None /\
  fst (update_clan_permissions accept 1 start) = Ok tt /\
  snd (update_clan_permissions accept 1 start) = start.
Proof.
  assert (Hres : resolve 1 start = None) by (vm_compute; reflexivity).
  pose proof (reconcile_never_raises accept 1 start) as H. cbv zeta in H.
  destruct H as [H1 [H2 _]].
  split; [exact Hres |]. split; [exact H1 | exact (H2 Hres)].
Defined.


Lemma disband_stops_at_failed_removal_witness :
  let r := disband_clan deny_removal_102 101 "Alpha" alpha_of_two in
  trace (snd r)
  = ([ECall (RemoveRoles 102 1000) Denied; ECall (RemoveRoles 101 1000) Success]
       ++ trace alpha_of_two)%list /\
  (exists e, fst r = Raise e) /\
  db (snd r) = db alpha_of_two.
Proof.
  cbv zeta.
  assert (Ht : trace (snd (disband_clan deny_removal_102 101 "Alpha" alpha_of_two))
               = ([ECall (RemoveRoles 102 1000) Denied;
                   ECall (RemoveRoles 101 1000) Success] ++ trace alpha_of_two)%list)
    by (vm_compute; reflexivity).
  split; [exact Ht |].
  destruct (disband_stops_at_failed_removal deny_removal_102 101 "Alpha"
              alpha_of_two _ Ht eq_refl) as [He [Hd _]].
  split; assumption.
Defined.

(** ** The rest of the handlers *)

Local Close Scope string_scope.

Lemma principal_eqb_eq p q : principal_eqb p q = true <-> p = q.
Proof.
  destruct p, q; simpl; rewrite ?Z.eqb_eq; split; intro H;
    try discriminate; try (injection H as ->); try subst; reflexivity.
Qed.

Lemma principal_eqb_sym p q : principal_eqb p q = principal_eqb q p.
Proof. destruct p, q; simpl; try reflexivity; apply Z.eqb_sym. Qed.

(** Reading a dict after an assignment. *)
Lemma dict_get_set d k v k' :
  dict_get (dict_set d k v) k'
  = if principal_eqb k k' then Some v else dict_get d k'.
Proof.
  induction d as [| [k0 v0] rest IH]; simpl.
  - reflexivity.
  - destruct (principal_eqb k0 k) eqn:E0; simpl.
    + apply principal_eqb_eq in E0. subst k0.
      destruct (principal_eqb k k'); reflexivity.
    + destruct (principal_eqb k0 k') eqn:E1.
      * apply principal_eqb_eq in E1. subst k0. rewrite principal_eqb_sym, E0.
        reflexivity.
      * exact IH.
Qed.

Lemma get_member_id mid g m : get_member mid g = Some m -> member_id m = mid.
Proof.
  intro H. apply find_some in H. destruct H as [_ H]. apply Z.eqb_eq. exact H.
Qed.

Lemma grant_members_get g ids : forall ow m,
  dict_get (grant_members g ids ow) (PMember m)
  = if granted g ids m then Some allow_use else dict_get ow (PMember m).
Proof.
  unfold granted. induction ids as [| mid rest IH]; intros ow m; simpl.
  - reflexivity.
  - destruct (get_member mid g) as [x |] eqn:Hx.
    + rewrite IH, dict_get_set. simpl. rewrite (get_member_id _ _ _ Hx).
      destruct (m =? mid) eqn:E.
      * apply Z.eqb_eq in E. subst m. rewrite Hx, Z.eqb_refl. simpl.
        destruct (existsb _ rest); reflexivity.
      * rewrite (Z.eqb_sym mid m), E. reflexivity.
    + rewrite IH. destruct (m =? mid) eqn:E; [| reflexivity].
      apply Z.eqb_eq in E. subst m. rewrite Hx. simpl. rewrite andb_false_r.
      reflexivity.
Qed.

Lemma grant_members_get_role g ids : forall ow r,
  dict_get (grant_members g ids ow) (PRole r) = dict_get ow (PRole r).
Proof.
  induction ids as [| mid rest IH]; intros ow r; simpl; [reflexivity |].
  destruct (get_member mid g); rewrite IH; [| reflexivity].
  rewrite dict_get_set. reflexivity.
Qed.

(** X1: the entries of the overwrites built by
    [update_clan_permissions], principal by principal. *)
Theorem desired_overwrites_entries g role leader ids p :
  dict_get (desired_overwrites g role leader ids) p
  = wanted_overwrite g role leader ids p.
Proof.
  unfold desired_overwrites, base_overwrites, wanted_overwrite, default_role.
  destruct p as [r | m].
  - rewrite grant_members_get_role, !dict_get_set. simpl.
    rewrite (Z.eqb_sym (role_id role) r), (Z.eqb_sym (guild_id g) r). reflexivity.
  - rewrite grant_members_get, !dict_get_set. simpl.
    rewrite (Z.eqb_sym leader m). reflexivity.
Qed.

Lemma get_channel_edit_other id c ow g :
  id <> c -> get_channel id (guild_edit_overwrites c ow g) = get_channel id g.
Proof.
  intro Hne. rewrite get_channel_edit.
  destruct (get_channel id g) as [x |] eqn:Hx; [| reflexivity].
  simpl. unfold with_overwrites. rewrite (get_channel_id _ _ _ Hx).
  destruct (id =? c) eqn:E; [| reflexivity].
  apply Z.eqb_eq in E. contradiction.
Qed.

Lemma get_channel_edit_same c ow g x :
  get_channel c g = Some x ->
  option_map channel_overwrites (get_channel c (guild_edit_overwrites c ow g)) = Some ow.
Proof.
  intro Hx. rewrite get_channel_edit, Hx. simpl. unfold with_overwrites.
  rewrite (get_channel_id _ _ _ Hx), Z.eqb_refl. reflexivity.
Qed.

Lemma with_overwrites_frame c ow x :
  channel_frame (with_overwrites c ow x) = channel_frame x.
Proof. unfold with_overwrites. destruct (channel_id x =? c); reflexivity. Qed.

Lemma edit_frames c ow g :
  map channel_frame (channels (guild_edit_overwrites c ow g))
  = map channel_frame (channels g).
Proof.
  simpl. rewrite map_map. apply map_ext. intro x. apply with_overwrites_frame.
Qed.

Section Applies.
Variable oracle : nat -> ExtCall -> Outcome.

Lemma reconcile_keeps_tasks cid :
  keeps tasks eq (update_clan_permissions oracle cid).
Proof.
  pose proof (@eq_refl (list Z)) as Hr.
  pose proof (@eq_trans (list Z)) as Htr.
  unfold update_clan_permissions, channel_edit, request, print.
  repeat first [ keeps_shape | apply keeps_modify; reflexivity
               | intro w0; reflexivity ].
Qed.

(** X2: when everything resolves and both edits are carried out, the text
    and the voice channel hold the overwrites computed, and every other
    channel is as before. *)
Theorem reconcile_applies_to_both_channels cid w clan role text voice leader :
  resolve cid w = Some (clan, role, text, voice, leader) ->
  oracle (clock w) (EditChannel (text_channel_id clan)) = Success ->
  oracle (S (clock w)) (EditChannel (voice_channel_id clan)) = Success ->
  let ow := desired_overwrites (guild w) role (leader_id clan)
              (get_members cid (db w)) in
  let w' := snd (update_clan_permissions oracle cid w) in
  option_map channel_overwrites (get_channel (text_channel_id clan) (guild w'))
  = Some ow /\
  option_map channel_overwrites (get_channel (voice_channel_id clan) (guild w'))
  = Some ow /\
  forall id, id <> text_channel_id clan -> id <> voice_channel_id clan ->
             get_channel id (guild w') = get_channel id (guild w).
Proof.
  intros Hres H1 H2 ow w'. unfold w'. rewrite update_clan_permissions_guild.
  unfold resolve in Hres. unfold reconciled.
  destruct (get_clan_by_id cid (db w)) as [clan' |] eqn:Hclan; [| discriminate].
  destruct (get_role (clan_name clan') (guild w)) as [role' |]; [| discriminate].
  destruct (get_channel (text_channel_id clan') (guild w)) as [text' |] eqn:Ht;
    [| discriminate].
  destruct (get_channel (voice_channel_id clan') (guild w)) as [voice' |] eqn:Hv;
    [| discriminate].
  destruct (get_member (leader_id clan') (guild w)) as [leader' |] eqn:Hl;
    [| discriminate].
  injection Hres as -> -> -> -> ->.
  rewrite (get_channel_id _ _ _ Ht), (get_channel_id _ _ _ Hv),
    (get_member_id _ _ _ Hl), H1, H2.
  fold ow. repeat split.
  - destruct (Z.eq_dec (text_channel_id clan) (voice_channel_id clan)) as [E | E].
    + rewrite <- E. eapply get_channel_edit_same.
      rewrite get_channel_edit, Ht. reflexivity.
    + rewrite get_channel_edit_other by exact E.
      eapply get_channel_edit_same. exact Ht.
  - eapply get_channel_edit_same. rewrite get_channel_edit, Hv. reflexivity.
  - intros id Hi1 Hi2. rewrite !get_channel_edit_other by assumption. reflexivity.
Qed.

(** Whatever the platform answers, reconciliation changes overwrites
    and nothing else. *)
Lemma update_clan_permissions_frame cid w :
  let w' := snd (update_clan_permissions oracle cid w) in
  db w' = db w /\
  tasks w' = tasks w /\
  guild_id (guild w') = guild_id (guild w) /\
  roles (guild w') = roles (guild w) /\
  members (guild w') = members (guild w) /\
  next_snowflake (guild w') = next_snowflake (guild w) /\
  map channel_frame (channels (guild w')) = map channel_frame (channels (guild w)).
Proof.
  intro w'.
  assert (Hd : db w' = db w) by apply update_clan_permissions_returns.
  assert (Ht : tasks w' = tasks w)
    by (symmetry; apply reconcile_keeps_tasks).
  split; [exact Hd |]. split; [exact Ht |].
  unfold w'. rewrite update_clan_permissions_guild. unfold reconciled.
  destruct (get_clan_by_id cid (db w)) as [clan |]; [| repeat split].
  destruct (get_role (clan_name clan) (guild w)) as [role |]; [| repeat split].
  destruct (get_channel (text_channel_id clan) (guild w)) as [text |];
    [| repeat split].
  destruct (get_channel (voice_channel_id clan) (guild w)) as [voice |];
    [| repeat split].
  destruct (get_member (leader_id clan) (guild w)) as [leader |]; [| repeat split].
  destruct (oracle (clock w) (EditChannel (channel_id text))); [| repeat split ..].
  destruct (oracle (S (clock w)) (EditChannel (channel_id voice)));
    repeat split; rewrite ?edit_frames; reflexivity.
Qed.

(** X3: whatever the platform answers, a reconciliation changes
    overwrites and nothing else: not the store, the scheduled tasks, the
    roles, the members, nor which channels there are. *)
Theorem reconcile_edits_overwrites_only cid w :
  let w' := snd (update_clan_permissions oracle cid w) in
  db w' = db w /\
  tasks w' = tasks w /\
  guild_id (guild w') = guild_id (guild w) /\
  roles (guild w') = roles (guild w) /\
  members (guild w') = members (guild w) /\
  next_snowflake (guild w') = next_snowflake (guild w) /\
  map channel_frame (channels (guild w')) = map channel_frame (channels (guild w)).
Proof. exact (update_clan_permissions_frame cid w). Qed.

End Applies.

Lemma sound_to_sound_refl d : sound_to_sound d d.
Proof. intro H. exact H. Qed.

Lemma sound_to_sound_trans a b c :
  sound_to_sound a b -> sound_to_sound b c -> sound_to_sound a c.
Proof. unfold sound_to_sound. auto. Qed.

Lemma NoDup_snoc {A} (l : list A) x : NoDup l -> ~ In x l -> NoDup (l ++ [x]).
Proof.
  intros Hl Hx. apply NoDup_app.
  - exact Hl.
  - constructor; [intros [] | constructor].
  - intros a Ha [<- | []]. exact (Hx Ha).
Qed.

Lemma NoDup_map_filter {A B} (f : A -> B) (p : A -> bool) l :
  NoDup (map f l) -> NoDup (map f (filter p l)).
Proof.
  induction l as [| x rest IH]; simpl; intro H; [constructor |].
  inversion H as [| ? ? Hx Hrest]; subst.
  destruct (p x); simpl; [| apply IH; exact Hrest].
  constructor; [| apply IH; exact Hrest].
  intro Hin. apply Hx. apply in_map_iff in Hin. destruct Hin as [y [Hy Hin]].
  apply filter_In in Hin. apply in_map_iff. exists y. tauto.
Qed.

Lemma next_rowid_positive d : 1 <= next_rowid d.
Proof.
  unfold next_rowid.
  assert (0 <= fold_right Z.max 0 (map clan_id (clans d))).
  { induction (map clan_id (clans d)); simpl; lia. }
  lia.
Qed.

Lemma next_rowid_above d c : In c (clans d) -> clan_id c < next_rowid d.
Proof.
  intro Hc. unfold next_rowid.
  pose proof (max_id_bound (map clan_id (clans d)) (clan_id c) (in_map _ _ _ Hc)).
  lia.
Qed.

Lemma name_not_taken name l :
  existsb (fun r => String.eqb (clan_name r) name) l = false ->
  ~ In name (map clan_name l).
Proof.
  intros He Hin. apply in_map_iff in Hin. destruct Hin as [r [Hr Hin]].
  assert (existsb (fun r => String.eqb (clan_name r) name) l = true).
  { apply existsb_exists. exists r. split; [exact Hin |].
    rewrite Hr. apply String.eqb_refl. }
  congruence.
Qed.

Lemma add_clan_to_db_sound name leader text voice :
  keeps db sound_to_sound (add_clan_to_db name leader text voice).
Proof.
  intros w [Hid [Hname [Hmem [Hri Hseq]]]].
  unfold add_clan_to_db, insert_clan, insert_member, store, bind, gets, modify,
    ret, raise.
  destruct (existsb _ (clans (db w))) eqn:He;
    [exact (conj Hid (conj Hname (conj Hmem (conj Hri Hseq)))) |].
  cbn [db set_db log_event clans clan_members clans_seq fst snd].
  set (cid := next_rowid (db w)).
  set (row := {| clan_id := cid; clan_name := name; leader_id := leader;
                 text_channel_id := text; voice_channel_id := voice |}).
  assert (Hid1 : NoDup (map clan_id (clans (db w) ++ [row])))
    by (apply clans_pk_snoc; [exact Hid | reflexivity]).
  assert (Hname1 : NoDup (map clan_name (clans (db w) ++ [row]))).
  { rewrite map_app. apply NoDup_snoc; [exact Hname |].
    apply name_not_taken. exact He. }
  assert (Hri1 : forall p, In p (clan_members (db w)) ->
                           In (fst p) (map clan_id (clans (db w) ++ [row]))).
  { intros p Hp. rewrite map_app. apply in_or_app. left. apply Hri. exact Hp. }
  assert (Hseq1 : forall c, In c (clans (db w) ++ [row]) -> 1 <= clan_id c <= cid).
  { intros c Hc. apply in_app_or in Hc. destruct Hc as [Hc | [<- | []]].
    - pose proof (next_rowid_above (db w) c Hc). specialize (Hseq c Hc).
      unfold cid. lia.
    - simpl. pose proof (next_rowid_positive (db w)). unfold cid. lia. }
  destruct (has_member cid leader _) eqn:Hm;
    cbn [db set_db log_event clans clan_members clans_seq fst snd].
  - exact (conj Hid1 (conj Hname1 (conj Hmem (conj Hri1 Hseq1)))).
  - split; [exact Hid1 |]. split; [exact Hname1 |]. split; [| split].
    + apply NoDup_snoc; [exact Hmem |]. intro Hin.
      apply (has_member_In cid leader) in Hin. unfold has_member in *.
      simpl in Hm. congruence.
    + intros p Hp. cbn [clan_members clans] in *.
      apply in_app_or in Hp. destruct Hp as [Hp | [<- | []]].
      * apply Hri1. exact Hp.
      * simpl. rewrite map_app. apply in_or_app. right. left. reflexivity.
    + exact Hseq1.
Qed.

Lemma add_member_row_sound cid mid d :
  In cid (map clan_id (clans d)) ->
  has_member cid mid d = false ->
  store_sound d ->
  store_sound {| clans := clans d;
                 clan_members := clan_members d ++ [(cid, mid)];
                 clans_seq := clans_seq d |}.
Proof.
  intros Hcid Hm [Hid [Hname [Hmem [Hri Hseq]]]].
  split; [exact Hid |]. split; [exact Hname |]. split; [| split; [| exact Hseq]].
  - apply NoDup_snoc; [exact Hmem |]. intro Hin.
    apply has_member_In in Hin. congruence.
  - intros p Hp. cbn [clan_members clans] in *.
    apply in_app_or in Hp. destruct Hp as [Hp | [<- | []]].
    + apply Hri. exact Hp.
    + exact Hcid.
Qed.

Lemma delete_member_rows_sound cid mid d :
  store_sound d -> store_sound (delete_member_rows cid mid d).
Proof.
  intros [Hid [Hname [Hmem [Hri Hseq]]]].
  split; [exact Hid |]. split; [exact Hname |]. split; [| split; [| exact Hseq]].
  - apply NoDup_filter. exact Hmem.
  - intros p Hp. apply filter_In in Hp. apply Hri. tauto.
Qed.

Lemma delete_clan_rows_sound cid d :
  store_sound d -> store_sound (delete_clan_rows cid d).
Proof.
  intros [Hid [Hname [Hmem [Hri Hseq]]]].
  split; [| split; [| split; [| split]]]; simpl.
  - apply NoDup_map_filter. exact Hid.
  - apply NoDup_map_filter. exact Hname.
  - apply NoDup_filter. exact Hmem.
  - intros p Hp. apply filter_In in Hp. destruct Hp as [Hp Hne].
    specialize (Hri p Hp). apply in_map_iff in Hri. destruct Hri as [c [Hc Hin]].
    apply in_map_iff. exists c. split; [exact Hc |].
    apply filter_In. split; [exact Hin |]. rewrite Hc. exact Hne.
  - intros c Hc. apply Hseq. apply filter_In in Hc. tauto.
Qed.

Section Sound.
Variable oracle : nat -> ExtCall -> Outcome.

Lemma dispatch_sound i w :
  store_sound (db w) -> store_sound (db (snd (dispatch oracle i w))).
Proof.
  pose proof sound_to_sound_refl as Hr. pose proof sound_to_sound_trans as Ht.
  intro Hok. destruct i as [user name | user member name | user member name
                            | user name | name | member | before after]; simpl.
  - revert Hok. revert w.
    change (keeps db sound_to_sound (create_clan oracle user name)).
    unfold create_clan, create_clan_channels, create_clan_record.
    keeps_db; apply add_clan_to_db_sound.
  - unfold invite_clan. rewrite bind_gets.
    destruct (get_clan_by_name name (db w)) as [clan |] eqn:Hfind; [| exact Hok].
    destruct (negb (user =? leader_id clan)); [exact Hok |].
    set (P := fun d => store_sound d /\ In (clan_id clan) (map clan_id (clans d))).
    set (R := fun d d' : DB => P d -> P d').
    assert (Hr' : forall d, R d d) by (intros d H; exact H).
    assert (Ht' : forall a b c, R a b -> R b c -> R a c) by (unfold R; auto).
    clear Hr Ht.
    match goal with |- store_sound (db (snd (?k w))) => assert (Hk : keeps db R k) end.
    { keeps_db. intros w0 [Hs Hin]. unfold insert_or_ignore_member.
      rewrite bind_gets. destruct (has_member _ _ (db w0)) eqn:Hm.
      - split; assumption.
      - split; [apply add_member_row_sound; assumption | exact Hin]. }
    apply Hk. split; [exact Hok |].
    apply in_map. eapply find_some_In. exact Hfind.
  - revert Hok. revert w.
    change (keeps db sound_to_sound (kick_clan oracle user member name)).
    unfold kick_clan, delete_member. keeps_db.
    intros d Hd. apply delete_member_rows_sound. exact Hd.
  - revert Hok. revert w.
    change (keeps db sound_to_sound (disband_clan oracle user name)).
    unfold disband_clan, disband_role, disband_channels, disband_category,
      remove_clan_from_db.
    keeps_db. intros d Hd. apply delete_clan_rows_sound. exact Hd.
  - revert Hok. revert w.
    change (keeps db sound_to_sound (clan_info oracle name)).
    unfold clan_info. keeps_db.
  - revert Hok. revert w.
    change (keeps db sound_to_sound (on_member_remove member)).
    unfold on_member_remove, delete_member. keeps_db.
    intros d Hd. apply delete_member_rows_sound. exact Hd.
  - revert Hok. revert w.
    change (keeps db sound_to_sound (on_member_update before after)).
    unfold on_member_update. keeps_db.
Qed.

(** X4: through every sequence of commands and events, whatever the
    platform answers, clan ids and names stay unique, so do the membership
    rows, every membership row is about a clan of the store, and no clan
    id is beyond the AUTOINCREMENT counter. *)
Theorem store_stays_sound inputs : forall w,
  store_sound (db w) -> store_sound (db (serve_all oracle inputs w)).
Proof.
  induction inputs as [| i rest IH]; intros w Hok; simpl.
  - exact Hok.
  - apply IH. unfold serve.
    assert (Hrun : forall w', db (snd (run_tasks oracle w')) = db w').
    { intro w'. symmetry.
      apply (db_run_tasks oracle eq); [reflexivity | intros; congruence]. }
    rewrite Hrun. apply dispatch_sound. exact Hok.
Qed.

End Sound.

Lemma same_resources_refl g : same_resources g g.
Proof. repeat split. Qed.

Lemma same_resources_trans a b c :
  same_resources a b -> same_resources b c -> same_resources a c.
Proof.
  intros [H1 [H2 [H3 H4]]] [H1' [H2' [H3' H4']]]. repeat split; congruence.
Qed.

Section Membership.
Variable oracle : nat -> ExtCall -> Outcome.

Lemma keeps_request {S} (proj : World -> S) (R : S -> S -> Prop) c :
  (forall w e, R (proj w) (proj (tick (log_event e w)))) ->
  keeps proj R (request oracle c).
Proof. intros H w. apply H. Qed.

Lemma resources_update_clan_permissions cid :
  keeps guild same_resources (update_clan_permissions oracle cid).
Proof.
  intro w. destruct (update_clan_permissions_frame oracle cid w)
    as [_ [_ [H1 [H2 [_ [H4 H5]]]]]].
  repeat split; assumption.
Qed.

Lemma members_update_clan_permissions cid w :
  members (guild (snd (update_clan_permissions oracle cid w))) = members (guild w).
Proof. apply update_clan_permissions_frame. Qed.

Lemma add_roles_accepted m role w :
  oracle (clock w) (AddRoles m (role_id role)) = Success ->
  add_roles oracle m (Some role) w
  = (Ok tt, set_guild (on_member m (take_role (role_id role)) (guild w))
              (tick (log_event (ECall (AddRoles m (role_id role)) Success) w))).
Proof. intro H. unfold add_roles, bind, request, modify. rewrite H. reflexivity. Qed.

Lemma insert_or_ignore_member_run cid mid w :
  exists w', insert_or_ignore_member cid mid w = (Ok tt, w') /\
             db w' = with_member cid mid (db w) /\ guild w' = guild w.
Proof.
  unfold insert_or_ignore_member, with_member. rewrite bind_gets.
  destruct (has_member cid mid (db w)).
  - exists w. repeat split.
  - eexists. split; [reflexivity |]. split; reflexivity.
Qed.

Lemma has_member_with_member cid mid d : has_member cid mid (with_member cid mid d) = true.
Proof.
  unfold with_member. destruct (has_member cid mid d) eqn:E; [exact E |].
  apply has_member_In. simpl. apply in_or_app. right. left. reflexivity.
Qed.

Lemma get_member_on_member mid f g m :
  (forall x, member_id (f x) = member_id x) ->
  get_member mid g = Some m ->
  get_member mid (on_member mid f g) = Some (f m).
Proof.
  intros Hf. unfold get_member. simpl.
  induction (members g) as [| x rest IH]; simpl; [discriminate |].
  destruct (member_id x =? mid) eqn:E.
  - intro H. injection H as <-. rewrite Hf, E. reflexivity.
  - rewrite E. exact IH.
Qed.

Lemma has_role_take_role rid m : has_role rid (take_role rid m) = true.
Proof.
  unfold take_role. destruct (has_role rid m) eqn:E; simpl; [exact E |].
  unfold has_role. simpl. rewrite existsb_app. simpl. rewrite Z.eqb_refl.
  apply orb_true_r.
Qed.

Lemma has_role_drop_role rid m : has_role rid (drop_role rid m) = false.
Proof.
  unfold has_role, drop_role. simpl.
  induction (member_roles m) as [| r rest IH]; simpl; [reflexivity |].
  destruct (r =? rid) eqn:E; simpl; [exact IH |].
  rewrite (Z.eqb_sym rid r), E. exact IH.
Qed.

(** What is left to do once the store is written: reconcile and reply. *)
Lemma reconcile_then_reply cid msg w2 :
  exists w3,
    snd (bind (update_clan_permissions oracle cid)
           (fun _ => send_message oracle msg) w2)
    = tick (log_event (ECall (SendMessage msg) (oracle (clock w3) (SendMessage msg))) w3) /\
    db w3 = db w2 /\
    same_resources (guild w2) (guild w3) /\
    members (guild w3) = members (guild w2).
Proof.
  pose proof (update_clan_permissions_returns oracle cid w2) as Hrec.
  cbv zeta in Hrec. destruct Hrec as [Hok [_ [Hd3 _]]].
  pose proof (resources_update_clan_permissions cid w2) as Hres3.
  pose proof (members_update_clan_permissions cid w2) as Hm3.
  unfold bind.
  destruct (update_clan_permissions oracle cid w2) as [res w3].
  cbn [fst snd] in *. subst res. exists w3.
  exact (conj eq_refl (conj Hd3 (conj Hres3 Hm3))).
Qed.

(** An accepted invitation. *)
Lemma invite_clan_accepted user member name w clan role :
  get_clan_by_name name (db w) = Some clan ->
  user = leader_id clan ->
  get_role name (guild w) = Some role ->
  oracle (clock w) (AddRoles member (role_id role)) = Success ->
  let w' := snd (invite_clan oracle user member name w) in
  db w' = with_member (clan_id clan) member (db w) /\
  has_member (clan_id clan) member (db w') = true /\
  same_resources (guild w) (guild w') /\
  forall m, get_member member (guild w) = Some m ->
            exists m', get_member member (guild w') = Some m' /\
                       has_role (role_id role) m' = true.
Proof.
  intros Hclan Huser Hrole Hadd w'.
  assert (Hrun : exists w3,
            db w3 = with_member (clan_id clan) member (db w) /\
            same_resources (guild w) (guild w3) /\
            members (guild w3)
            = members (on_member member (take_role (role_id role)) (guild w)) /\
            exists e, w' = tick (log_event e w3)).
  { unfold w', invite_clan.
    rewrite bind_gets, Hclan, Huser, Z.eqb_refl. cbn [negb].
    rewrite bind_gets, Hrole.
    rewrite (bind_ok _ _ _ _ _ (add_roles_accepted _ _ _ Hadd)).
    match goal with |- context [bind (insert_or_ignore_member ?c ?m) _ ?w1] =>
      destruct (insert_or_ignore_member_run c m w1) as [w2 [E2 [Hd2 Hg2]]] end.
    rewrite (bind_ok _ _ _ _ _ E2).
    match goal with |- context [bind (update_clan_permissions oracle ?c) (fun _ => send_message oracle ?msg) w2] =>
      destruct (reconcile_then_reply c msg w2) as [w3 [E3 [Hd3 [Hr3 Hm3]]]] end.
    rewrite E3. exists w3.
    cbn [db guild set_guild tick log_event] in Hd2, Hg2.
    split; [congruence |]. split.
    - eapply same_resources_trans; [| exact Hr3]. rewrite Hg2. repeat split.
    - split; [congruence | eauto]. }
  destruct Hrun as [w3 [Hd [Hres [Hm [e ->]]]]].
  cbn [db guild tick log_event].
  split; [exact Hd |]. split; [rewrite Hd; apply has_member_with_member |].
  split; [exact Hres |].
  intros m Hg. exists (take_role (role_id role) m). split.
  - unfold get_member in *. rewrite Hm.
    apply (get_member_on_member member (take_role (role_id role)) (guild w) m);
      [reflexivity | exact Hg].
  - apply has_role_take_role.
Qed.

(** X5: an invitation by the leader whose role assignment is carried out
    records the member (once), keeps the roles and channels of the guild,
    and leaves the member with the role. *)
Theorem invite_records_member user member name w clan role :
  get_clan_by_name name (db w) = Some clan ->
  user = leader_id clan ->
  get_role name (guild w) = Some role ->
  oracle (clock w) (AddRoles member (role_id role)) = Success ->
  let w' := snd (invite_clan oracle user member name w) in
  db w' = with_member (clan_id clan) member (db w) /\
  has_member (clan_id clan) member (db w') = true /\
  same_resources (guild w) (guild w') /\
  forall m, get_member member (guild w) = Some m ->
            exists m', get_member member (guild w') = Some m' /\
                       has_role (role_id role) m' = true.
Proof. exact (invite_clan_accepted user member name w clan role). Qed.

(** An accepted kick. *)
Lemma kick_clan_accepted user member name w clan role :
  get_clan_by_name name (db w) = Some clan ->
  user = leader_id clan ->
  get_role name (guild w) = Some role ->
  oracle (clock w) (RemoveRoles member (role_id role)) = Success ->
  let w' := snd (kick_clan oracle user member name w) in
  db w' = delete_member_rows (clan_id clan) member (db w) /\
  has_member (clan_id clan) member (db w') = false /\
  same_resources (guild w) (guild w') /\
  forall m, get_member member (guild w) = Some m ->
            exists m', get_member member (guild w') = Some m' /\
                       has_role (role_id role) m' = false.
Proof.
  intros Hclan Huser Hrole Hrem w'.
  assert (Hrun : exists w3,
            db w3 = delete_member_rows (clan_id clan) member (db w) /\
            same_resources (guild w) (guild w3) /\
            members (guild w3)
            = members (on_member member (drop_role (role_id role)) (guild w)) /\
            exists e, w' = tick (log_event e w3)).
  { unfold w', kick_clan.
    rewrite bind_gets, Hclan, Huser, Z.eqb_refl. cbn [negb].
    rewrite bind_gets, Hrole. unfold bind at 1. rewrite remove_roles_run. cbv zeta.
    rewrite Hrem. unfold delete_member. unfold bind at 1. unfold store at 1.
    unfold modify at 1.
    match goal with |- context [bind (update_clan_permissions oracle ?c) (fun _ => send_message oracle ?msg) ?w2] =>
      destruct (reconcile_then_reply c msg w2) as [w3 [E3 [Hd3 [Hr3 Hm3]]]] end.
    rewrite E3. exists w3.
    cbn [db guild set_db set_guild tick log_event] in Hd3, Hr3, Hm3.
    split; [exact Hd3 |]. split.
    - eapply same_resources_trans; [| exact Hr3]. repeat split.
    - split; [exact Hm3 | eauto]. }
  destruct Hrun as [w3 [Hd [Hres [Hm [e ->]]]]].
  cbn [db guild tick log_event].
  split; [exact Hd |]. split.
  - rewrite Hd. apply not_true_iff_false. intro H. apply has_member_In in H.
    simpl in H. apply filter_In in H. destruct H as [_ H].
    assert (Hp : pair_eqb (clan_id clan, member) (clan_id clan, member) = true)
      by (apply pair_eqb_eq; reflexivity).
    rewrite Hp in H. discriminate.
  - split; [exact Hres |].
    intros m Hg. exists (drop_role (role_id role) m). split.
    + unfold get_member in *. rewrite Hm.
      apply (get_member_on_member member (drop_role (role_id role)) (guild w) m);
        [reflexivity | exact Hg].
    + apply has_role_drop_role.
Qed.

(** X6: a kick by the leader whose role removal is carried out deletes
    the member's row, keeps the roles and channels of the guild, and
    leaves the member without the role. *)
Theorem kick_removes_member user member name w clan role :
  get_clan_by_name name (db w) = Some clan ->
  user = leader_id clan ->
  get_role name (guild w) = Some role ->
  oracle (clock w) (RemoveRoles member (role_id role)) = Success ->
  let w' := snd (kick_clan oracle user member name w) in
  db w' = delete_member_rows (clan_id clan) member (db w) /\
  has_member (clan_id clan) member (db w') = false /\
  same_resources (guild w) (guild w') /\
  forall m, get_member member (guild w) = Some m ->
            exists m', get_member member (guild w') = Some m' /\
                       has_role (role_id role) m' = false.
Proof. exact (kick_clan_accepted user member name w clan role). Qed.

End Membership.

Lemma db_eta d :
  {| clans := clans d; clan_members := clan_members d; clans_seq := clans_seq d |} = d.
Proof. destruct d. reflexivity. Qed.

Lemma filter_all {A} (p : A -> bool) l :
  (forall x, In x l -> p x = true) -> filter p l = l.
Proof.
  induction l as [| x rest IH]; simpl; intro H; [reflexivity |].
  rewrite (H x (or_introl eq_refl)), IH; [reflexivity |].
  intros y Hy. apply H. right. exact Hy.
Qed.

(** Deleting the row of somebody who has none changes nothing. *)
Lemma delete_absent_member cid mid d :
  has_member cid mid d = false -> delete_member_rows cid mid d = d.
Proof.
  intro H. unfold delete_member_rows. rewrite filter_all; [apply db_eta |].
  intros p Hp. apply negb_true_iff. apply not_true_iff_false. intro He.
  apply pair_eqb_eq in He. subst p. apply has_member_In in Hp. congruence.
Qed.

Lemma delete_with_member cid mid d :
  has_member cid mid d = false ->
  delete_member_rows cid mid (with_member cid mid d) = d.
Proof.
  intro H. unfold with_member. rewrite H. unfold delete_member_rows. simpl.
  rewrite filter_app. simpl.
  assert (Hp : pair_eqb (cid, mid) (cid, mid) = true) by (apply pair_eqb_eq; reflexivity).
  rewrite Hp. simpl. rewrite app_nil_r.
  pose proof (delete_absent_member cid mid d H) as Hd.
  unfold delete_member_rows in Hd. exact Hd.
Qed.

Lemma with_member_idem cid mid d :
  with_member cid mid (with_member cid mid d) = with_member cid mid d.
Proof.
  unfold with_member at 1. rewrite has_member_with_member. reflexivity.
Qed.

Lemma get_clan_by_name_with_member name cid mid d :
  get_clan_by_name name (with_member cid mid d) = get_clan_by_name name d.
Proof. unfold with_member. destruct (has_member cid mid d); reflexivity. Qed.

Section RoundTrip.
Variable oracle : nat -> ExtCall -> Outcome.

(** X7: inviting somebody who was not a member and kicking him again
    leaves the store as it was. *)
Theorem invite_then_kick_restores_store user member name w clan role :
  get_clan_by_name name (db w) = Some clan ->
  user = leader_id clan ->
  get_role name (guild w) = Some role ->
  (forall t, oracle t (AddRoles member (role_id role)) = Success) ->
  (forall t, oracle t (RemoveRoles member (role_id role)) = Success) ->
  has_member (clan_id clan) member (db w) = false ->
  let invited := snd (invite_clan oracle user member name w) in
  let kicked := snd (kick_clan oracle user member name invited) in
  has_member (clan_id clan) member (db invited) = true /\
  db kicked = db w.
Proof.
  intros Hclan Huser Hrole Hadd Hrem Habsent invited kicked.
  destruct (invite_clan_accepted oracle user member name w clan role
              Hclan Huser Hrole (Hadd _)) as [Hd [Hin [Hres _]]].
  fold invited in Hd, Hin, Hres.
  split; [exact Hin |].
  assert (Hclan' : get_clan_by_name name (db invited) = Some clan)
    by (rewrite Hd, get_clan_by_name_with_member; exact Hclan).
  assert (Hrole' : get_role name (guild invited) = Some role).
  { destruct Hres as [_ [Hr _]]. unfold get_role. rewrite Hr. exact Hrole. }
  destruct (kick_clan_accepted oracle user member name invited clan role
              Hclan' Huser Hrole' (Hrem _)) as [Hd' _].
  fold kicked in Hd'. rewrite Hd', Hd. apply delete_with_member. exact Habsent.
Qed.

(** X8: INSERT OR IGNORE: a second invitation leaves the store as the
    first made it. *)
Theorem invite_twice_is_invite_once user member name w clan role :
  get_clan_by_name name (db w) = Some clan ->
  user = leader_id clan ->
  get_role name (guild w) = Some role ->
  (forall t, oracle t (AddRoles member (role_id role)) = Success) ->
  let once := snd (invite_clan oracle user member name w) in
  let twice := snd (invite_clan oracle user member name once) in
  db twice = db once.
Proof.
  intros Hclan Huser Hrole Hadd once twice.
  destruct (invite_clan_accepted oracle user member name w clan role
              Hclan Huser Hrole (Hadd _)) as [Hd [_ [Hres _]]].
  fold once in Hd, Hres.
  assert (Hclan' : get_clan_by_name name (db once) = Some clan)
    by (rewrite Hd, get_clan_by_name_with_member; exact Hclan).
  assert (Hrole' : get_role name (guild once) = Some role).
  { destruct Hres as [_ [Hr _]]. unfold get_role. rewrite Hr. exact Hrole. }
  destruct (invite_clan_accepted oracle user member name once clan role
              Hclan' Huser Hrole' (Hadd _)) as [Hd' _].
  fold twice in Hd'. rewrite Hd', Hd. apply with_member_idem.
Qed.

(** X9: kicking somebody who has no row in the clan leaves the store as it
    is. *)
Theorem kick_of_absent_member_keeps_store user member name w :
  (forall clan, get_clan_by_name name (db w) = Some clan ->
                has_member (clan_id clan) member (db w) = false) ->
  db (snd (kick_clan oracle user member name w)) = db w.
Proof.
  intro Habsent. unfold kick_clan. rewrite bind_gets.
  destruct (get_clan_by_name name (db w)) as [clan |] eqn:Hclan; [| reflexivity].
  destruct (negb (user =? leader_id clan)); [reflexivity |].
  specialize (Habsent clan eq_refl).
  set (R := fun d d' : DB => d = db w -> d' = db w).
  assert (Hr : forall d, R d d) by (intros d H; exact H).
  assert (Ht : forall a b c, R a b -> R b c -> R a c) by (unfold R; auto).
  match goal with |- db (snd (?k w)) = db w => assert (Hk : keeps db R k) end.
  { unfold delete_member. keeps_db.
    intros d ->. apply delete_absent_member. exact Habsent. }
  apply Hk. reflexivity.
Qed.

End RoundTrip.

(** The loop of lines 163-168 over the clan ids [l]. *)
Lemma departure_loop member l : forall w,
  for_each l (fun cid => bind (delete_member cid member)
                           (fun _ => create_task cid)) w
  = (Ok tt,
     {| db := {| clans := clans (db w);
                 clan_members :=
                   filter (fun p => negb (existsb (fun c => pair_eqb (c, member) p) l))
                     (clan_members (db w));
                 clans_seq := clans_seq (db w) |};
        guild := guild w;
        clock := clock w;
        trace := rev (map (fun cid => EStore (DeleteMember cid member)) l) ++ trace w;
        tasks := tasks w ++ l |}).
Proof.
  induction l as [| cid rest IH]; intro w.
  - simpl. rewrite filter_all by reflexivity. rewrite db_eta, app_nil_r.
    destruct w; reflexivity.
  - cbn [for_each].
    rewrite (bind_ok _ _ w tt
               (set_tasks (tasks w ++ [cid])
                  (log_event (EStore (DeleteMember cid member))
                     (set_db (delete_member_rows cid member (db w)) w))))
      by reflexivity.
    rewrite IH. f_equal.
    cbn [db guild clock trace tasks set_db set_tasks log_event delete_member_rows
         clans clan_members clans_seq map rev].
    f_equal.
    + f_equal. induction (clan_members (db w)) as [| p ps IHp]; simpl; [reflexivity |].
      destruct (pair_eqb (cid, member) p) eqn:E; simpl.
      * exact IHp.
      * destruct (existsb _ rest); simpl; [exact IHp | rewrite IHp; reflexivity].
    + rewrite <- app_assoc. reflexivity.
    + rewrite <- app_assoc. reflexivity.
Qed.

Lemma leaves_every_clan member d p :
  In p (clan_members d) ->
  existsb (fun c => pair_eqb (c, member) p) (clans_of_member member d)
  = (snd p =? member).
Proof.
  intro Hp. destruct (snd p =? member) eqn:E.
  - apply existsb_exists. exists (fst p). split.
    + unfold clans_of_member. apply in_map. apply filter_In. tauto.
    + apply pair_eqb_eq. apply Z.eqb_eq in E. destruct p; simpl in *. congruence.
  - apply not_true_iff_false. intro H. apply existsb_exists in H.
    destruct H as [c [_ Hc]]. apply pair_eqb_eq in Hc. subst p. simpl in E.
    rewrite Z.eqb_refl in E. discriminate.
Qed.

(** X10: a member leaves the server: all the rows of the member go,
    nothing else changes, and one reconciliation is scheduled for each
    clan the member was in. *)
Theorem departure_prunes_member member w :
  let r := on_member_remove member w in
  fst r = Ok tt /\
  db (snd r) = without_member member (db w) /\
  clans_of_member member (db (snd r)) = [] /\
  guild (snd r) = guild w /\
  tasks (snd r) = tasks w ++ clans_of_member member (db w).
Proof.
  unfold on_member_remove. rewrite bind_gets, departure_loop.
  cbn [fst snd db guild tasks].
  assert (Hd : {| clans := clans (db w);
                  clan_members :=
                    filter (fun p => negb (existsb (fun c => pair_eqb (c, member) p)
                                             (clans_of_member member (db w))))
                      (clan_members (db w));
                  clans_seq := clans_seq (db w) |} = without_member member (db w)).
  { unfold without_member. f_equal. apply filter_ext_in.
    intros p Hp. rewrite leaves_every_clan by exact Hp. reflexivity. }
  rewrite Hd. clear Hd. repeat split.
  unfold clans_of_member, without_member. simpl.
  induction (clan_members (db w)) as [| p ps IH]; simpl; [reflexivity |].
  destruct (snd p =? member) eqn:E; simpl; [exact IH |]. rewrite E. exact IH.
Qed.

(** A change of roles: nothing but scheduling. *)
Lemma on_member_update_run before after w :
  on_member_update before after w
  = (Ok tt, set_tasks (tasks w ++ clans_of_changed_roles before after (db w)) w).
Proof.
  unfold on_member_update, clans_of_changed_roles.
  generalize (filter (fun r => negb (role_in r before)) after
                ++ filter (fun r => negb (role_in r after)) before).
  intro l. revert w. induction l as [| role rest IH]; intro w.
  - simpl. rewrite app_nil_r. destruct w; reflexivity.
  - cbn [for_each flat_map]. unfold bind at 1. rewrite bind_gets.
    destruct (get_clan_by_name (role_name role) (db w)) as [clan |].
    + unfold create_task, modify. rewrite IH.
      cbn [db tasks set_tasks]. unfold set_tasks. cbn. rewrite <- app_assoc.
      reflexivity.
    + unfold ret. rewrite IH. reflexivity.
Qed.

(** X11: a change of roles returns normally and does nothing but schedule
    one reconciliation for each gained or lost role that names a clan. *)
Theorem role_change_schedules_reconciliations before after w :
  on_member_update before after w
  = (Ok tt, set_tasks (tasks w ++ clans_of_changed_roles before after (db w)) w).
Proof. exact (on_member_update_run before after w). Qed.

Lemma filter_none {A} (p : A -> bool) l :
  (forall x, In x l -> p x = false) -> filter p l = [].
Proof.
  induction l as [| x rest IH]; simpl; intro H; [reflexivity |].
  rewrite (H x (or_introl eq_refl)). apply IH.
  intros y Hy. apply H. right. exact Hy.
Qed.

(** X12: roles that the member had and still has schedule nothing. *)
Theorem unchanged_roles_schedule_nothing l w :
  on_member_update l l w = (Ok tt, w).
Proof.
  rewrite on_member_update_run.
  unfold clans_of_changed_roles.
  assert (H : filter (fun r => negb (role_in r l)) l = []).
  { apply filter_none. intros r Hr. apply negb_false_iff. apply existsb_exists.
    exists r. split; [exact Hr | apply Z.eqb_refl]. }
  rewrite H. simpl. rewrite app_nil_r. destruct w; reflexivity.
Qed.

Lemma find_snoc {A} (f : A -> bool) l x :
  find f l = None -> f x = true -> find f (l ++ [x]) = Some x.
Proof.
  intros Hn Hx. induction l as [| y rest IH]; simpl in *.
  - rewrite Hx. reflexivity.
  - destruct (f y); [discriminate | apply IH; exact Hn].
Qed.

Section Create.
Variable oracle : nat -> ExtCall -> Outcome.

Lemma create_clan_refused user name w :
  create_refused user name w = true ->
  only_replied oracle w (snd (create_clan oracle user name w)).
Proof.
  unfold create_refused, create_clan. rewrite bind_gets.
  destruct (truthy_int _); [intros _; eexists; reflexivity |].
  destruct (is_some (get_clan_by_name name (db w)));
    [intros _; eexists; reflexivity |].
  rewrite bind_gets.
  destruct (is_some (get_role name (guild w))); [intros _; eexists; reflexivity |].
  discriminate.
Qed.

(** X13: create by somebody who has a membership, or for a name taken in
    the store or by a role, sends the reply and changes nothing else. *)
Theorem create_refused_changes_nothing user name w :
  create_refused user name w = true ->
  only_replied oracle w (snd (create_clan oracle user name w)).
Proof. exact (create_clan_refused user name w). Qed.

(** X14: when the platform refuses to create the role, create asks
    nothing else of it but the reply; store and guild are as before. *)
Theorem create_without_role_privilege user name w :
  create_refused user name w = false ->
  oracle (clock w) (CreateRole name) = Denied ->
  let r := create_clan oracle user name w in
  db (snd r) = db w /\ guild (snd r) = guild w /\
  trace (snd r)
  = [ ECall (SendMessage (RText "Bot cannot create role. Check permissions."))
        (oracle (S (clock w))
           (SendMessage (RText "Bot cannot create role. Check permissions.")));
      ECall (CreateRole name) Denied ] ++ trace w.
Proof.
  unfold create_refused, create_clan. rewrite bind_gets.
  destruct (truthy_int _); [discriminate |].
  destruct (is_some (get_clan_by_name name (db w))); [discriminate |].
  rewrite bind_gets.
  destruct (is_some (get_role name (guild w))); [discriminate |].
  intros _ Ho. rewrite bind_attempt.
  unfold create_role, bind, request. rewrite !Ho. cbn.
  repeat split.
Qed.

(** [get_or_create_category_for_clan] *)
Lemma get_or_create_category_cases name w :
  let r := get_or_create_category_for_clan oracle name w in
  (forall c, get_category (category_name_of name) (guild w) = Some c ->
             r = (Ok (Some c), w)) /\
  (get_category (category_name_of name) (guild w) = None ->
   oracle (clock w) (CreateCategory (category_name_of name)) = Success ->
   exists c, fst r = Ok (Some c) /\
             channel_name c = category_name_of name /\
             channel_kind c = CategoryChannel /\
             get_category (category_name_of name) (guild (snd r)) = Some c /\
             get_or_create_category_for_clan oracle name (snd r)
             = (Ok (Some c), snd r)) /\
  (get_category (category_name_of name) (guild w) = None ->
   oracle (clock w) (CreateCategory (category_name_of name)) = Denied ->
   fst r = Ok None /\ guild (snd r) = guild w /\ db (snd r) = db w).
Proof.
  intro r.
  assert (Hfound : forall c w0,
            get_category (category_name_of name) (guild w0) = Some c ->
            get_or_create_category_for_clan oracle name w0 = (Ok (Some c), w0)).
  { intros c w0 Hc. unfold get_or_create_category_for_clan. cbv zeta.
    rewrite bind_gets, Hc. reflexivity. }
  split; [| split].
  - intros c Hc. apply Hfound. exact Hc.
  - intros Hn Ho.
    set (c := {| channel_id := next_snowflake (guild w);
                 channel_name := category_name_of name;
                 channel_kind := CategoryChannel; category_id := None;
                 channel_overwrites := [] |}).
    set (w1 := set_guild
                 {| guild_id := guild_id (guild w); roles := roles (guild w);
                    members := members (guild w);
                    channels := channels (guild w) ++ [c];
                    next_snowflake := next_snowflake (guild w) + 1 |}
                 (tick (log_event
                          (ECall (CreateCategory (category_name_of name)) Success) w))).
    assert (Hr : r = (Ok (Some c), w1)).
    { unfold r, get_or_create_category_for_clan. cbv zeta.
      rewrite bind_gets, Hn, bind_attempt.
      unfold create_category, bind, request, update_guild. rewrite Ho.
      reflexivity. }
    assert (Hget : get_category (category_name_of name) (guild w1) = Some c).
    { unfold get_category in *. cbn [guild w1 set_guild channels].
      apply find_snoc; [exact Hn |]. simpl. apply String.eqb_refl. }
    rewrite Hr. exists c. cbn [fst snd].
    split; [reflexivity |]. split; [reflexivity |]. split; [reflexivity |].
    split; [exact Hget | apply Hfound; exact Hget].
  - intros Hn Ho. unfold r, get_or_create_category_for_clan. cbv zeta.
    rewrite bind_gets, Hn, bind_attempt.
    unfold create_category, bind, request, update_guild. rewrite !Ho.
    repeat split.
Qed.

(** X15: [get_or_create_category_for_clan]: a category of that name is
    returned without any request; else one is created, and is found by the
    next call; a refusal gives [None] and leaves the guild as it is. *)
Theorem category_is_found_or_created name w :
  let r := get_or_create_category_for_clan oracle name w in
  (forall c, get_category (category_name_of name) (guild w) = Some c ->
             r = (Ok (Some c), w)) /\
  (get_category (category_name_of name) (guild w) = None ->
   oracle (clock w) (CreateCategory (category_name_of name)) = Success ->
   exists c, fst r = Ok (Some c) /\
             channel_name c = category_name_of name /\
             channel_kind c = CategoryChannel /\
             get_category (category_name_of name) (guild (snd r)) = Some c /\
             get_or_create_category_for_clan oracle name (snd r)
             = (Ok (Some c), snd r)) /\
  (get_category (category_name_of name) (guild w) = None ->
   oracle (clock w) (CreateCategory (category_name_of name)) = Denied ->
   fst r = Ok None /\ guild (snd r) = guild w /\ db (snd r) = db w).
Proof. exact (get_or_create_category_cases name w). Qed.

(** [clan_info] asks one thing of the platform, the reply, whatever
    resolves. *)
Theorem clan_info_only_replies name w :
  exists reply,
    clan_info oracle name w = send_message oracle reply w /\
    reply = match get_clan_by_name name (db w) with
            | None => RText "Clan not found!"
            | Some clan => REmbed (clan_info_embed clan (db w) (guild w))
            end.
Proof.
  unfold clan_info. rewrite bind_gets.
  destruct (get_clan_by_name name (db w)) as [clan |].
  - rewrite bind_gets. eexists. split; reflexivity.
  - eexists. split; reflexivity.
Qed.

End Create.

Lemma no_membership_no_row user d cid :
  get_user_clan user d = None -> has_member cid user d = false.
Proof.
  unfold get_user_clan, clans_of_member. intro H.
  apply not_true_iff_false. intro Hm. apply has_member_In in Hm.
  assert (Hin : In (cid, user) (filter (fun p => snd p =? user) (clan_members d)))
    by (apply filter_In; split; [exact Hm | apply Z.eqb_refl]).
  destruct (filter _ (clan_members d)); [destruct Hin | discriminate].
Qed.

Lemma find_none_existsb {A} (f : A -> bool) l : find f l = None -> existsb f l = false.
Proof.
  induction l as [| x rest IH]; simpl; [reflexivity |].
  destruct (f x); [discriminate | exact IH].
Qed.

(** The two INSERTs of [add_clan_to_db] when nothing is in their way. *)
Lemma add_clan_to_db_fresh name leader text voice w :
  get_clan_by_name name (db w) = None ->
  has_member (next_rowid (db w)) leader (db w) = false ->
  add_clan_to_db name leader text voice w
  = (Ok (next_rowid (db w)),
     log_event (EStore (InsertMember (next_rowid (db w)) leader))
       (log_event (EStore (InsertClan (next_rowid (db w))))
          (set_db {| clans := clans (db w) ++
                       [ {| clan_id := next_rowid (db w); clan_name := name;
                            leader_id := leader;
                            text_channel_id := text; voice_channel_id := voice |} ];
                     clan_members := clan_members (db w)
                                       ++ [(next_rowid (db w), leader)];
                     clans_seq := next_rowid (db w) |} w))).
Proof.
  intros Hname Hrow. apply find_none_existsb in Hname.
  unfold add_clan_to_db, insert_clan, insert_member, store, bind, gets, modify,
    ret, raise.
  rewrite Hname.
  cbn [db set_db log_event clans clan_members clans_seq fst snd].
  unfold has_member in *. cbn [clan_members]. rewrite Hrow.
  reflexivity.
Qed.

Lemma find_app_some {A} (f : A -> bool) l l' x :
  find f l = Some x -> find f (l ++ l') = Some x.
Proof.
  induction l as [| y rest IH]; simpl; [discriminate |].
  destruct (f y); [intro H; exact H | exact IH].
Qed.

Section Created.
Variable oracle : nat -> ExtCall -> Outcome.
Hypothesis accepts : forall t c, oracle t c = Success.

Lemma category_ready name w :
  exists category w2,
    get_or_create_category_for_clan oracle name w = (Ok (Some category), w2) /\
    get_category (category_name_of name) (guild w2) = Some category /\
    db w2 = db w /\ roles (guild w2) = roles (guild w) /\
    members (guild w2) = members (guild w) /\
    guild_id (guild w2) = guild_id (guild w) /\
    tasks w2 = tasks w.
Proof.
  pose proof (get_or_create_category_cases oracle name w) as H. cbv zeta in H.
  destruct H as [Hfound [Hnew _]].
  destruct (get_category (category_name_of name) (guild w)) as [c |] eqn:Hc.
  - exists c, w. rewrite (Hfound c eq_refl). repeat split. exact Hc.
  - destruct (Hnew eq_refl (accepts _ _)) as [c [Hr [_ [_ [Hget _]]]]].
    exists c, (snd (get_or_create_category_for_clan oracle name w)).
    split; [rewrite (surjective_pairing (get_or_create_category_for_clan oracle name w)), Hr; reflexivity |].
    split; [exact Hget |].
    unfold get_or_create_category_for_clan. cbv zeta.
    rewrite bind_gets, Hc, bind_attempt.
    unfold create_category, bind, request, update_guild. rewrite !accepts.
    repeat split.
Qed.

Lemma create_clan_accepted user name w :
  get_user_clan user (db w) = None ->
  get_clan_by_name name (db w) = None ->
  get_role name (guild w) = None ->
  let r := create_clan oracle user name w in
  let cid := next_rowid (db w) in
  let role := {| role_id := next_snowflake (guild w); role_name := name |} in
  exists category text voice,
    fst r = Ok tt /\
    db (snd r)
    = {| clans := clans (db w) ++
           [ {| clan_id := cid; clan_name := name; leader_id := user;
                text_channel_id := channel_id text;
                voice_channel_id := channel_id voice |} ];
         clan_members := clan_members (db w) ++ [(cid, user)];
         clans_seq := cid |} /\
    get_role name (guild (snd r)) = Some role /\
    get_category (category_name_of name) (guild (snd r)) = Some category /\
    In text (channels (guild (snd r))) /\
    In voice (channels (guild (snd r))) /\
    text = {| channel_id := channel_id text;
              channel_name := (lower name ++ "-text")%string;
              channel_kind := TextChannel;
              category_id := Some (channel_id category);
              channel_overwrites := base_overwrites (guild w) role user |} /\
    voice = {| channel_id := channel_id voice;
               channel_name := (lower name ++ "-voice")%string;
               channel_kind := VoiceChannel;
               category_id := Some (channel_id category);
               channel_overwrites := base_overwrites (guild w) role user |} /\
    forall m, get_member user (guild w) = Some m ->
              exists m', get_member user (guild (snd r)) = Some m' /\
                         has_role (role_id role) m' = true.
Proof.
  intros Huser Hname Hrole r cid role.
  remember r as r0 eqn:Er. unfold r, create_clan in Er. clear r.
  rewrite bind_gets, Huser, Hname in Er. cbn [truthy_int is_some] in Er.
  rewrite bind_gets, Hrole in Er. cbn [is_some] in Er.
  rewrite bind_attempt, create_role_run in Er. cbv zeta in Er.
  rewrite accepts in Er. cbn [fst snd guild_add_role] in Er. fold role in Er.
  unfold create_clan_channels in Er.
  match type of Er with context [bind (get_or_create_category_for_clan oracle name) _ ?w1] =>
    destruct (category_ready name w1)
      as [category [w2 [E2 [Hcat [Hd2 [Hr2 [Hm2 [Hg2 Ht2]]]]]]]] end.
  rewrite (bind_ok _ _ _ _ _ E2), bind_gets in Er.
  rewrite bind_attempt, create_text_channel_run in Er. cbv zeta in Er.
  rewrite accepts in Er. cbn [fst snd guild_add_channel] in Er.
  rewrite bind_attempt, create_voice_channel_run in Er. cbv zeta in Er.
  rewrite accepts in Er.
  cbn [fst snd guild_add_channel guild set_guild tick log_event] in Er.
  unfold create_clan_record in Er.
  rewrite (bind_ok _ _ _ _ _ (add_roles_accepted oracle _ _ _ (accepts _ _))) in Er.
  rewrite bind_attempt, add_clan_to_db_fresh in Er.
  2: { cbn [db set_guild tick log_event]. rewrite Hd2. exact Hname. }
  2: { cbn [db set_guild tick log_event]. rewrite Hd2.
       apply no_membership_no_row. exact Huser. }
  cbn [fst snd] in Er. unfold send_message, request in Er. rewrite accepts in Er.
  cbn [db guild set_db set_guild tick log_event channel_id] in Er.
  cbn [db guild set_guild tick log_event roles members guild_id] in Hd2, Hr2, Hm2, Hg2.
  subst r0. cbn [fst snd db guild tick log_event set_db set_guild].
  exists category,
    {| channel_id := next_snowflake (guild w2);
       channel_name := (lower name ++ "-text")%string;
       channel_kind := TextChannel;
       category_id := Some (channel_id category);
       channel_overwrites := base_overwrites (guild w2) role user |},
    {| channel_id := next_snowflake (guild w2) + 1;
       channel_name := (lower name ++ "-voice")%string;
       channel_kind := VoiceChannel;
       category_id := Some (channel_id category);
       channel_overwrites := base_overwrites (guild w2) role user |}.
  cbn [channel_id].
  split; [reflexivity |].
  split; [rewrite Hd2; reflexivity |].
  split.
  { unfold get_role. cbn [roles on_member]. rewrite Hr2.
    apply find_snoc; [exact Hrole | apply String.eqb_refl]. }
  split.
  { unfold get_category in *. cbn [channels on_member].
    rewrite <- app_assoc.
    destruct (find _ (channels (guild w2))) as [c |] eqn:Hf; [| discriminate].
    injection Hcat as ->. erewrite find_app_some; [reflexivity | exact Hf]. }
  split.
  { cbn [channels on_member]. apply in_or_app. left. apply in_or_app. right.
    left. reflexivity. }
  split.
  { cbn [channels on_member]. apply in_or_app. right. left. reflexivity. }
  split.
  { unfold base_overwrites, default_role. rewrite Hg2. reflexivity. }
  split.
  { unfold base_overwrites, default_role. rewrite Hg2. reflexivity. }
  intros m Hm. exists (take_role (role_id role) m). split.
  - unfold get_member in *. cbn [members on_member]. rewrite Hm2.
    apply (get_member_on_member user (take_role (role_id role))
             {| guild_id := 0; roles := []; members := members (guild w);
                channels := []; next_snowflake := 0 |} m);
      [reflexivity | exact Hm].
  - apply has_role_take_role.
Qed.

(** X17: when every request is carried out, create by somebody without
    membership, for a free name, returns normally: the store has the clan
    with a fresh id and its leader's row, the guild has the role, the
    category and in it a text and a voice channel with the initial
    overwrites, and the requester has the role.  For a name of ASCII
    characters the channels are called [name.lower()] followed by -text
    and -voice. *)
Theorem create_records_clan user name w :
  get_user_clan user (db w) = None ->
  get_clan_by_name name (db w) = None ->
  get_role name (guild w) = None ->
  let r := create_clan oracle user name w in
  let cid := next_rowid (db w) in
  let role := {| role_id := next_snowflake (guild w); role_name := name |} in
  exists category text voice,
    fst r = Ok tt /\
    db (snd r)
    = {| clans := clans (db w) ++
           [ {| clan_id := cid; clan_name := name; leader_id := user;
                text_channel_id := channel_id text;
                voice_channel_id := channel_id voice |} ];
         clan_members := clan_members (db w) ++ [(cid, user)];
         clans_seq := cid |} /\
    get_role name (guild (snd r)) = Some role /\
    get_category (category_name_of name) (guild (snd r)) = Some category /\
    In text (channels (guild (snd r))) /\
    In voice (channels (guild (snd r))) /\
    channel_kind text = TextChannel /\
    channel_kind voice = VoiceChannel /\
    category_id text = Some (channel_id category) /\
    category_id voice = Some (channel_id category) /\
    channel_overwrites text = base_overwrites (guild w) role user /\
    channel_overwrites voice = base_overwrites (guild w) role user /\
    (ascii_name name = true ->
     channel_name text = (lower name ++ "-text")%string /\
     channel_name voice = (lower name ++ "-voice")%string) /\
    forall m, get_member user (guild w) = Some m ->
              exists m', get_member user (guild (snd r)) = Some m' /\
                         has_role (role_id role) m' = true.
Proof.
  intros Huser Hname Hrole.
  destruct (create_clan_accepted user name w Huser Hname Hrole)
    as [category [text [voice [H1 [H2 [H3 [H4 [H5 [H6 [Ht [Hv H9]]]]]]]]]]].
  exists category, text, voice.
  split; [exact H1 |]. split; [exact H2 |]. split; [exact H3 |].
  split; [exact H4 |]. split; [exact H5 |]. split; [exact H6 |].
  split; [exact (f_equal channel_kind Ht) |].
  split; [exact (f_equal channel_kind Hv) |].
  split; [exact (f_equal category_id Ht) |].
  split; [exact (f_equal category_id Hv) |].
  split; [exact (f_equal channel_overwrites Ht) |].
  split; [exact (f_equal channel_overwrites Hv) |].
  split; [| exact H9].
  intros _. split;
    [exact (f_equal channel_name Ht) | exact (f_equal channel_name Hv)].
Qed.

End Created.

Lemma get_clan_by_name_snoc name d row seq members :
  get_clan_by_name name d = None ->
  clan_name row = name ->
  get_clan_by_name name {| clans := clans d ++ [row]; clan_members := members;
                           clans_seq := seq |} = Some row.
Proof.
  intros Hn Hrow. unfold get_clan_by_name in *. simpl.
  apply find_snoc; [exact Hn |]. rewrite Hrow. apply String.eqb_refl.
Qed.

Lemma get_user_clan_snoc user d cid clans' seq :
  get_user_clan user d = None ->
  get_user_clan user {| clans := clans'; clan_members := clan_members d ++ [(cid, user)];
                        clans_seq := seq |} = Some cid.
Proof.
  unfold get_user_clan, clans_of_member. simpl. intro H.
  rewrite filter_app, map_app. simpl. rewrite Z.eqb_refl. simpl.
  destruct (map fst (filter (fun p => snd p =? user) (clan_members d)));
    [reflexivity | discriminate].
Qed.

Section AfterCreate.
Variable oracle : nat -> ExtCall -> Outcome.
Hypothesis accepts : forall t c, oracle t c = Success.

(** X18: what was created is found again by name and by member, and its
    leader cannot create a second clan. *)
Theorem created_clan_is_found user name w :
  get_user_clan user (db w) = None ->
  get_clan_by_name name (db w) = None ->
  get_role name (guild w) = None ->
  let w' := snd (create_clan oracle user name w) in
  (exists row, get_clan_by_name name (db w') = Some row /\
               clan_id row = next_rowid (db w) /\ leader_id row = user /\
               has_member (clan_id row) user (db w') = true) /\
  get_user_clan user (db w') = Some (next_rowid (db w)) /\
  forall name', only_replied oracle w' (snd (create_clan oracle user name' w')).
Proof.
  intros Huser Hname Hrole w'.
  destruct (create_clan_accepted oracle accepts user name w Huser Hname Hrole)
    as [category [text [voice [_ [Hd _]]]]].
  fold w' in Hd.
  assert (Hu : get_user_clan user (db w') = Some (next_rowid (db w)))
    by (rewrite Hd; apply get_user_clan_snoc; exact Huser).
  split; [| split].
  - eexists. rewrite Hd. split; [apply get_clan_by_name_snoc; [exact Hname | reflexivity] |].
    split; [reflexivity |]. split; [reflexivity |].
    apply has_member_In. simpl. apply in_or_app. right. left. reflexivity.
  - exact Hu.
  - intro name'. apply create_clan_refused.
    unfold create_refused. rewrite Hu. simpl.
    pose proof (next_rowid_positive (db w)) as Hpos.
    destruct (next_rowid (db w) =? 0) eqn:E; [apply Z.eqb_eq in E; lia |].
    reflexivity.
Qed.

End AfterCreate.

(** X19: [add_clan_to_db] then [remove_clan_from_db]: the rows are as
    before, the counter has moved on. *)
Theorem add_then_remove_restores_rows name leader text voice w :
  get_clan_by_name name (db w) = None ->
  (forall p, In p (clan_members (db w)) -> fst p <> next_rowid (db w)) ->
  let added := add_clan_to_db name leader text voice w in
  let removed := snd (remove_clan_from_db (next_rowid (db w)) (snd added)) in
  fst added = Ok (next_rowid (db w)) /\
  clans (db removed) = clans (db w) /\
  clan_members (db removed) = clan_members (db w) /\
  clans_seq (db removed) = next_rowid (db w).
Proof.
  intros Hname Hfresh added removed.
  assert (Hrow : has_member (next_rowid (db w)) leader (db w) = false).
  { apply not_true_iff_false. intro H. apply has_member_In in H.
    apply (Hfresh _ H). reflexivity. }
  unfold removed, added. rewrite (add_clan_to_db_fresh _ _ _ _ _ Hname Hrow).
  cbn [fst snd]. unfold remove_clan_from_db, store, modify.
  cbn [fst snd db set_db log_event delete_clan_rows clans clan_members clans_seq].
  split; [reflexivity |]. split; [| split; [| reflexivity]].
  - rewrite filter_app. simpl. rewrite Z.eqb_refl. simpl. rewrite app_nil_r.
    apply filter_all. intros c Hc. apply negb_true_iff. apply Z.eqb_neq.
    pose proof (next_rowid_above (db w) c Hc). lia.
  - rewrite filter_app. simpl. rewrite Z.eqb_refl. simpl. rewrite app_nil_r.
    apply filter_all. intros p Hp. apply negb_true_iff. apply Z.eqb_neq.
    apply Hfresh. exact Hp.
Qed.

Lemma find_filter_keep {A} (f p : A -> bool) l x :
  find f l = Some x -> p x = true -> find f (filter p l) = Some x.
Proof.
  intros Hf Hp. induction l as [| y rest IH]; simpl in *; [discriminate |].
  destruct (f y) eqn:Hy.
  - injection Hf as ->. rewrite Hp. simpl. rewrite Hy. reflexivity.
  - destruct (p y); simpl; [rewrite Hy |]; apply IH; exact Hf.
Qed.

Lemma get_category_delete name id g cat :
  get_category name g = Some cat -> channel_id cat <> id ->
  get_category name (guild_delete_channel id g) = Some (orphan id cat).
Proof.
  intros Hc Hne. unfold get_category in *. simpl. rewrite find_map.
  change (fun x => (is_category (orphan id x)
                    && String.eqb (channel_name (orphan id x)) name)%bool)
    with (fun x => (is_category x && String.eqb (channel_name x) name)%bool).
  erewrite find_filter_keep; [reflexivity | exact Hc |].
  apply negb_true_iff. apply Z.eqb_neq. exact Hne.
Qed.

Lemma holds_only_delete cat tid vid id g :
  cat <> id -> holds_only cat tid vid g ->
  holds_only cat tid vid (guild_delete_channel id g).
Proof.
  intros Hne H c Hc Hin. simpl in Hc. apply in_map_iff in Hc.
  destruct Hc as [y [<- Hy]]. apply filter_In in Hy. destruct Hy as [Hy _].
  rewrite orphan_id. apply H; [exact Hy |].
  unfold in_category in *. unfold orphan in Hin. cbn [category_id] in Hin.
  unfold in_category in Hin.
  destruct (category_id y) as [k |]; [| discriminate Hin].
  destruct (k =? id) eqn:E; [discriminate Hin | exact Hin].
Qed.

Lemma In_get_channel c g : In c (channels g) -> get_channel (channel_id c) g <> None.
Proof.
  intros Hc Hn. unfold get_channel in Hn.
  pose proof (find_none _ _ Hn c Hc) as H. simpl in H.
  rewrite Z.eqb_refl in H. discriminate.
Qed.

Section Disbanded.
Variable oracle : nat -> ExtCall -> Outcome.
Hypothesis accepts : forall t c, oracle t c = Success.

Lemma channel_delete_accepted c line w :
  warn_if_forbidden (channel_delete oracle c) line w
  = (Ok tt, set_guild (guild_delete_channel (channel_id c) (guild w))
              (tick (log_event (ECall (DeleteChannel (channel_id c)) Success) w))).
Proof.
  unfold warn_if_forbidden. rewrite bind_attempt.
  unfold channel_delete, bind, request, modify. rewrite accepts. reflexivity.
Qed.

(** One round of the loop of lines 325-331. *)
Lemma delete_if_present id w :
  exists w',
    bind (gets guild)
      (fun g => match get_channel id g with
                | Some channel =>
                    warn_if_forbidden (channel_delete oracle channel)
                      ("[WARN] Missing permission to delete channel "
                         ++ channel_name channel)%string
                | None => ret tt
                end) w = (Ok tt, w') /\
    db w' = db w /\ roles (guild w') = roles (guild w) /\
    members (guild w') = members (guild w) /\
    get_channel id (guild w') = None /\
    (guild w' = guild w \/ guild w' = guild_delete_channel id (guild w)).
Proof.
  rewrite bind_gets. destruct (get_channel id (guild w)) as [c |] eqn:Hc.
  - rewrite channel_delete_accepted, (get_channel_id _ _ _ Hc).
    eexists. split; [reflexivity |]. cbn [db guild set_guild tick log_event].
    repeat split; [apply get_channel_deleted | right; reflexivity].
  - exists w. repeat split; [exact Hc | left; reflexivity].
Qed.

Lemma category_kept_step name cat tid vid id g g' :
  cat <> id ->
  g' = g \/ g' = guild_delete_channel id g ->
  category_kept name cat tid vid g -> category_kept name cat tid vid g'.
Proof.
  intros Hne [-> | ->] [[cat' [Hc Hid]] Hh]; [split; eauto |].
  split.
  - exists (orphan id cat'). split; [| exact Hid].
    apply get_category_delete; [exact Hc | congruence].
  - apply holds_only_delete; assumption.
Qed.

Lemma none_step id0 id g g' :
  g' = g \/ g' = guild_delete_channel id g ->
  get_channel id0 g = None -> get_channel id0 g' = None.
Proof.
  intros [-> | ->] H; [exact H | apply get_channel_delete_none; exact H].
Qed.

Lemma disband_role_accepted name w :
  exists w1,
    disband_role oracle name w = (Ok tt, w1) /\
    db w1 = db w /\ channels (guild w1) = channels (guild w) /\
    forall role, get_role name (guild w) = Some role ->
      ~ In (role_id role) (map role_id (roles (guild w1))) /\
      forall m, In m (members (guild w1)) -> has_role (role_id role) m = false.
Proof.
  unfold disband_role. rewrite bind_gets.
  destruct (get_role name (guild w)) as [role |].
  2: { exists w. repeat split; discriminate. }
  destruct (strip_role_loop_accepted oracle 0 (fun t c _ => accepts t c) role
              (role_members role (guild w)) w) as [w1 [E1 [Hd1 [Hr1 [Hc1 _]]]]].
  rewrite (bind_ok _ _ _ _ _ E1).
  rewrite (role_delete_accepted oracle 0 (fun t c _ => accepts t c)).
  eexists. split; [reflexivity |]. cbn [db guild set_guild tick log_event].
  split; [exact Hd1 |]. split; [exact Hc1 |].
  intros role' Hrole'. injection Hrole' as <-. split.
  - apply role_deleted.
  - intros m Hm. simpl in Hm. apply in_map_iff in Hm. destruct Hm as [x [<- _]].
    apply has_role_drop_role.
Qed.

Lemma disband_category_accepted name w :
  exists w1,
    disband_category oracle name w = (Ok tt, w1) /\
    db w1 = db w /\ roles (guild w1) = roles (guild w) /\
    members (guild w1) = members (guild w) /\
    (forall id, get_channel id (guild w) = None -> get_channel id (guild w1) = None) /\
    forall cat tid vid,
      category_kept name cat tid vid (guild w) ->
      get_channel tid (guild w) = None -> get_channel vid (guild w) = None ->
      get_channel cat (guild w1) = None.
Proof.
  unfold disband_category. cbv zeta. rewrite bind_gets.
  destruct (get_category (category_name_of name) (guild w)) as [category |] eqn:Hc.
  2: { exists w. repeat split; try tauto.
       intros cat tid vid [[cat' [Hc' _]] _]. congruence. }
  destruct (List.length (category_channels category (guild w)) =? 0)%nat eqn:Hlen.
  - rewrite channel_delete_accepted. eexists. split; [reflexivity |].
    cbn [db guild set_guild tick log_event]. repeat split.
    + intros id H. apply get_channel_delete_none. exact H.
    + intros cat tid vid [[cat' [Hc' Hid]] _] _ _.
      assert (cat' = category) by congruence. subst cat'.
      rewrite <- Hid. apply get_channel_deleted.
  - exists w. repeat split; try tauto.
    intros cat tid vid [[cat' [Hc' Hid]] Hh] Ht Hv. exfalso.
    assert (cat' = category) by congruence. subst cat'.
    apply Nat.eqb_neq in Hlen.
    destruct (category_channels category (guild w)) as [| c rest] eqn:Hcc;
      [apply Hlen; reflexivity |].
    assert (Hin : In c (category_channels category (guild w)))
      by (rewrite Hcc; left; reflexivity).
    unfold category_channels in Hin. apply filter_In in Hin.
    destruct Hin as [Hin Hcatg]. rewrite Hid in Hcatg.
    destruct (Hh c Hin Hcatg) as [E | E];
      apply (In_get_channel c (guild w) Hin); rewrite E; assumption.
Qed.

(** X20: when every request is carried out, disband by the leader returns
    normally: the rows of the clan are deleted, the role is gone and no
    member holds it, both channels are gone, and so is the category if it
    held nothing but them. *)
Theorem disband_removes_everything user name w clan :
  get_clan_by_name name (db w) = Some clan ->
  user = leader_id clan ->
  let r := disband_clan oracle user name w in
  fst r = Ok tt /\
  db (snd r) = delete_clan_rows (clan_id clan) (db w) /\
  (forall role, get_role name (guild w) = Some role ->
     ~ In (role_id role) (map role_id (roles (guild (snd r)))) /\
     forall m, In m (members (guild (snd r))) -> has_role (role_id role) m = false) /\
  get_channel (text_channel_id clan) (guild (snd r)) = None /\
  get_channel (voice_channel_id clan) (guild (snd r)) = None /\
  forall cat,
    get_category (category_name_of name) (guild w) = Some cat ->
    channel_id cat <> text_channel_id clan ->
    channel_id cat <> voice_channel_id clan ->
    holds_only (channel_id cat) (text_channel_id clan) (voice_channel_id clan)
      (guild w) ->
    get_channel (channel_id cat) (guild (snd r)) = None.
Proof.
  intros Hclan Huser r. remember r as r0 eqn:Er. unfold r, disband_clan in Er.
  clear r. rewrite bind_gets, Hclan, Huser, Z.eqb_refl in Er. cbn [negb] in Er.
  destruct (disband_role_accepted name w) as [w1 [E1 [Hd1 [Hc1 Hrole1]]]].
  rewrite (bind_ok _ _ _ _ _ E1) in Er.
  unfold disband_channels in Er. cbn [for_each] in Er.
  destruct (delete_if_present (text_channel_id clan) w1)
    as [w2 [E2 [Hd2 [Hr2 [Hm2 [Ht2 Hg2]]]]]].
  destruct (delete_if_present (voice_channel_id clan) w2)
    as [w3 [E3 [Hd3 [Hr3 [Hm3 [Hv3 Hg3]]]]]].
  unfold bind at 1 in Er. unfold bind at 1 in Er. rewrite E2 in Er.
  unfold bind at 1 in Er. rewrite E3 in Er. unfold ret at 1 in Er.
  destruct (disband_category_accepted name w3)
    as [w4 [E4 [Hd4 [Hr4 [Hm4 [Hn4 Hcat4]]]]]].
  rewrite (bind_ok _ _ _ _ _ E4) in Er.
  unfold bind, remove_clan_from_db, store, modify, send_message, request in Er.
  rewrite accepts in Er. cbn [answer] in Er. subst r0.
  cbn [fst snd db guild set_db tick log_event].
  assert (Ht3 : get_channel (text_channel_id clan) (guild w3) = None)
    by (eapply none_step; [exact Hg3 | exact Ht2]).
  split; [reflexivity |].
  split; [congruence |].
  split.
  { intros role Hrole. destruct (Hrole1 role Hrole) as [Hgone Hheld].
    rewrite Hr4, Hr3, Hr2, Hm4, Hm3, Hm2. split; assumption. }
  split; [apply Hn4; exact Ht3 |].
  split; [apply Hn4; exact Hv3 |].
  intros cat Hcat Hne1 Hne2 Hholds.
  apply (Hcat4 (channel_id cat) (text_channel_id clan) (voice_channel_id clan));
    [| exact Ht3 | exact Hv3].
  eapply category_kept_step; [exact Hne2 | exact Hg3 |].
  eapply category_kept_step; [exact Hne1 | exact Hg2 |].
  split.
  - exists cat. split; [| reflexivity]. unfold get_category in *.
    rewrite Hc1. exact Hcat.
  - intros c Hc. rewrite Hc1 in Hc. apply Hholds. exact Hc.
Qed.

End Disbanded.

Lemma rows_kept_refl d : rows_kept d d.
Proof. split; apply incl_refl. Qed.

Lemma rows_kept_trans a b c : rows_kept a b -> rows_kept b c -> rows_kept a c.
Proof. intros [H1 H2] [H3 H4]. split; eapply incl_tran; eassumption. Qed.

Lemma mentions_of_present ids g :
  flat_map (fun m : option Member =>
              match m with
              | Some m => [member_mention (member_id m)]
              | None => []
              end)
    (map (fun mid => get_member mid g) ids)
  = map member_mention (present_members ids g).
Proof.
  unfold present_members.
  induction ids as [| mid rest IH]; simpl; [reflexivity |].
  destruct (get_member mid g) as [m |] eqn:Hm; simpl; [| exact IH].
  rewrite (get_member_id _ _ _ Hm), IH. reflexivity.
Qed.

(** *** The order of the primary-key index *)

Lemma insert_id_In x l y : In y (insert_id x l) <-> y = x \/ In y l.
Proof.
  induction l as [| z rest IH]; simpl.
  - intuition.
  - destruct (x <=? z); simpl; [intuition | rewrite IH; intuition].
Qed.

Lemma by_id_In l y : In y (by_id l) <-> In y l.
Proof.
  induction l as [| x rest IH]; simpl; [tauto |].
  rewrite insert_id_In, IH. intuition.
Qed.

Lemma insert_id_sorted x l :
  StronglySorted Z.le l -> StronglySorted Z.le (insert_id x l).
Proof.
  induction 1 as [| z rest Hs IH Hz]; simpl.
  - constructor; constructor.
  - destruct (x <=? z) eqn:Hx.
    + apply Z.leb_le in Hx. constructor; [constructor; assumption |].
      constructor; [exact Hx |].
      eapply Forall_impl; [| exact Hz]. intros a Ha. simpl in Ha. lia.
    + apply Z.leb_gt in Hx. constructor; [exact IH |].
      apply Forall_forall. intros a Ha. apply insert_id_In in Ha.
      destruct Ha as [-> | Ha]; [lia |].
      rewrite Forall_forall in Hz. apply Hz, Ha.
Qed.

Lemma by_id_sorted l : StronglySorted Z.le (by_id l).
Proof.
  induction l as [| x rest IH]; simpl; [constructor | apply insert_id_sorted, IH].
Qed.

Lemma insert_id_NoDup x l : NoDup l -> ~ In x l -> NoDup (insert_id x l).
Proof.
  induction 1 as [| z rest Hz Hn IH]; simpl; intro Hx.
  - constructor; [intros [] | constructor].
  - destruct (x <=? z).
    + constructor; [exact Hx | constructor; assumption].
    + constructor.
      * rewrite insert_id_In.
        intros [-> | H]; [apply Hx; left; reflexivity | contradiction].
      * apply IH. intro H. apply Hx. right. exact H.
Qed.

Lemma by_id_NoDup l : NoDup l -> NoDup (by_id l).
Proof.
  induction 1 as [| x rest Hx Hn IH]; simpl; [constructor |].
  apply insert_id_NoDup; [exact IH | rewrite by_id_In; exact Hx].
Qed.

Lemma filter_sorted (p : Z -> bool) l :
  StronglySorted Z.le l -> StronglySorted Z.le (filter p l).
Proof.
  induction 1 as [| z rest Hs IH Hz]; simpl; [constructor |].
  destruct (p z); [| exact IH].
  constructor; [exact IH |].
  apply Forall_forall. intros a Ha. apply filter_In in Ha.
  rewrite Forall_forall in Hz. apply Hz, Ha.
Qed.

(** [get_members] gives the members the table records for the clan. *)
Lemma get_members_In cid d m :
  In m (get_members cid d) <-> has_member cid m d = true.
Proof.
  unfold get_members. rewrite by_id_In, in_map_iff, has_member_In. split.
  - intros [[c m'] [Hm Hin]]. simpl in Hm. subst m'.
    apply filter_In in Hin. destruct Hin as [Hin Hc]. simpl in Hc.
    apply Z.eqb_eq in Hc. subst c. exact Hin.
  - intro Hin. exists (cid, m). split; [reflexivity |].
    apply filter_In. split; [exact Hin | apply Z.eqb_refl].
Qed.

Lemma get_members_NoDup cid d : NoDup (clan_members d) -> NoDup (get_members cid d).
Proof.
  intro Hn. unfold get_members. apply by_id_NoDup.
  induction Hn as [| [c m] rest Hx Hn IH]; simpl; [constructor |].
  destruct (c =? cid) eqn:Hc; simpl; [| exact IH].
  constructor; [| exact IH].
  apply Z.eqb_eq in Hc. subst c.
  intro Hin. apply in_map_iff in Hin. destruct Hin as [[c' m'] [Hm Hin]].
  simpl in Hm. subst m'. apply filter_In in Hin. destruct Hin as [Hin Hc'].
  simpl in Hc'. apply Z.eqb_eq in Hc'. subst c'. contradiction.
Qed.

(** [member_mentions or "None"]: a mention is never the empty string. *)
Lemma join_mentions l :
  or_else (join ", " (map member_mention l)) "None"
  = match l with
    | [] => "None"%string
    | _ :: _ => join ", " (map member_mention l)
    end.
Proof. destruct l as [| x [| y rest]]; reflexivity. Qed.

Section Tables.
Variable oracle : nat -> ExtCall -> Outcome.

(** X16: [clan_info] makes one request, the reply, and changes neither
    store nor guild nor the scheduled tasks.  Without a clan of that name
    the reply is the text "Clan not found!".  Otherwise it is a card of
    four fields.  Members lists the mentions of exactly the members that
    the store records for the clan and that the guild still has, by
    increasing id, each once when the rows are distinct, and reads None
    when there is none; the leader shows as Unknown and a channel as
    Deleted when the guild does not have them. *)
Theorem clan_info_shows_what_resolves name w :
  let r := clan_info oracle name w in
  db (snd r) = db w /\ guild (snd r) = guild w /\ tasks (snd r) = tasks w /\
  exists reply,
    r = send_message oracle reply w /\
    match get_clan_by_name name (db w) with
    | None => reply = RText "Clan not found!"
    | Some clan =>
        exists leader members text voice shown,
          reply = REmbed (MkEmbed ("Clan Info: " ++ clan_name clan)%string
                            [ ("Leader"%string, leader, false);
                              ("Members"%string, members, false);
                              ("Text Channel"%string, text, true);
                              ("Voice Channel"%string, voice, true) ]) /\
          leader = (if is_some (get_member (leader_id clan) (guild w))
                    then member_mention (leader_id clan) else "Unknown"%string) /\
          (forall m, In m shown <->
                     has_member (clan_id clan) m (db w) = true /\
                     is_some (get_member m (guild w)) = true) /\
          StronglySorted Z.le shown /\
          (NoDup (clan_members (db w)) -> NoDup shown) /\
          members = match shown with
                    | [] => "None"%string
                    | _ :: _ => join ", " (map member_mention shown)
                    end /\
          text = (if is_some (get_channel (text_channel_id clan) (guild w))
                  then channel_mention (text_channel_id clan) else "Deleted"%string) /\
          voice = (if is_some (get_channel (voice_channel_id clan) (guild w))
                   then channel_mention (voice_channel_id clan) else "Deleted"%string)
    end.
Proof.
  cbv zeta. unfold clan_info. rewrite bind_gets.
  destruct (get_clan_by_name name (db w)) as [clan |].
  2: { repeat split. eexists. split; reflexivity. }
  rewrite bind_gets. repeat split.
  eexists. split; [reflexivity |].
  unfold clan_info_embed. cbv zeta. rewrite mentions_of_present, join_mentions.
  exists (match get_member (leader_id clan) (guild w) with
          | Some l => member_mention (member_id l)
          | None => "Unknown"%string
          end),
         (match present_members (get_members (clan_id clan) (db w)) (guild w) with
          | [] => "None"%string
          | _ :: _ => join ", " (map member_mention
                        (present_members (get_members (clan_id clan) (db w)) (guild w)))
          end),
         (match get_channel (text_channel_id clan) (guild w) with
          | Some c => channel_mention (channel_id c)
          | None => "Deleted"%string
          end),
         (match get_channel (voice_channel_id clan) (guild w) with
          | Some c => channel_mention (channel_id c)
          | None => "Deleted"%string
          end),
         (present_members (get_members (clan_id clan) (db w)) (guild w)).
  split; [reflexivity |].
  split.
  { destruct (get_member (leader_id clan) (guild w)) as [m |] eqn:Hm; [| reflexivity].
    simpl. rewrite (get_member_id _ _ _ Hm). reflexivity. }
  split.
  { intro m. unfold present_members. rewrite filter_In, get_members_In. tauto. }
  split; [apply filter_sorted, by_id_sorted |].
  split; [intro Hn; apply NoDup_filter, get_members_NoDup, Hn |].
  split; [reflexivity |].
  split.
  - destruct (get_channel (text_channel_id clan) (guild w)) as [c |] eqn:Hc;
      [| reflexivity].
    simpl. rewrite (get_channel_id _ _ _ Hc). reflexivity.
  - destruct (get_channel (voice_channel_id clan) (guild w)) as [c |] eqn:Hc;
      [| reflexivity].
    simpl. rewrite (get_channel_id _ _ _ Hc). reflexivity.
Qed.

(** X21: rows are added by create and invite only, and deleted by kick,
    disband and a departure only; invite and kick never touch the table
    of clans. *)
Theorem handlers_respect_rows w :
  (forall user name,
     rows_kept (db w) (db (snd (create_clan oracle user name w)))) /\
  (forall user member name,
     rows_kept (db w) (db (snd (invite_clan oracle user member name w))) /\
     clans (db (snd (invite_clan oracle user member name w))) = clans (db w)) /\
  (forall user member name,
     rows_kept (db (snd (kick_clan oracle user member name w))) (db w) /\
     clans (db (snd (kick_clan oracle user member name w))) = clans (db w)) /\
  (forall user name,
     rows_kept (db (snd (disband_clan oracle user name w))) (db w)) /\
  (forall member,
     rows_kept (db (snd (on_member_remove member w))) (db w)) /\
  (forall before after,
     db (snd (on_member_update before after w)) = db w).
Proof.
  assert (Hgrow : forall d cid mid,
            rows_kept d {| clans := clans d;
                           clan_members := clan_members d ++ [(cid, mid)];
                           clans_seq := clans_seq d |}).
  { intros d cid mid. split; [apply incl_refl | apply incl_appl, incl_refl]. }
  set (Rs := fun d d' : DB => rows_kept d' d /\ clans d' = clans d).
  assert (Hsr : forall d, Rs d d) by (intro d; split; [apply rows_kept_refl | reflexivity]).
  assert (Hst : forall a b c, Rs a b -> Rs b c -> Rs a c).
  { intros a b c [H1 H2] [H3 H4]. split; [eapply rows_kept_trans; eassumption | congruence]. }
  set (Rg := fun d d' : DB => rows_kept d d' /\ clans d' = clans d).
  assert (Hgr : forall d, Rg d d) by (intro d; split; [apply rows_kept_refl | reflexivity]).
  assert (Hgt : forall a b c, Rg a b -> Rg b c -> Rg a c).
  { intros a b c [H1 H2] [H3 H4]. split; [eapply rows_kept_trans; eassumption | congruence]. }
  set (Rd := fun d d' : DB => rows_kept d' d).
  assert (Hdr : forall d, Rd d d) by (intro d; apply rows_kept_refl).
  assert (Hdt : forall a b c, Rd a b -> Rd b c -> Rd a c)
    by (intros a b c H1 H2; eapply rows_kept_trans; eassumption).
  split; [| split; [| split; [| split; [| split]]]].
  - intros user name.
    pose proof rows_kept_refl as Hr. pose proof rows_kept_trans as Ht.
    clear Hsr Hst Hgr Hgt Hdr Hdt.
    revert w. change (keeps db rows_kept (create_clan oracle user name)).
    unfold create_clan, create_clan_channels, create_clan_record.
    keeps_db. intro w.
    unfold add_clan_to_db, insert_clan, insert_member, store, bind, gets, modify,
      ret, raise.
    destruct (existsb _ (clans (db w))); [apply rows_kept_refl |].
    cbn [db set_db log_event clans clan_members clans_seq fst snd].
    destruct (has_member _ _ _); cbn [db set_db log_event snd];
      split; simpl; try apply incl_refl; apply incl_appl, incl_refl.
  - intros user member name. clear Hsr Hst Hdr Hdt.
    revert w. change (keeps db Rg (invite_clan oracle user member name)).
    unfold invite_clan. keeps_db. intro w. unfold insert_or_ignore_member.
    rewrite bind_gets. destruct (has_member _ _ (db w)); [apply Hgr |].
    split; [apply Hgrow | reflexivity].
  - intros user member name. clear Hgr Hgt Hdr Hdt.
    revert w. change (keeps db Rs (kick_clan oracle user member name)).
    unfold kick_clan, delete_member. keeps_db. intro d.
    split; [| reflexivity]. split; [apply incl_refl | apply incl_filter].
  - intros user name. clear Hgr Hgt Hsr Hst.
    revert w. change (keeps db Rd (disband_clan oracle user name)).
    unfold disband_clan, disband_role, disband_channels, disband_category,
      remove_clan_from_db.
    keeps_db. intro d. split; apply incl_filter.
  - intros member. clear Hgr Hgt Hsr Hst.
    revert w. change (keeps db Rd (on_member_remove member)).
    unfold on_member_remove, delete_member. keeps_db. intro d.
    split; [apply incl_refl | apply incl_filter].
  - intros before after. rewrite on_member_update_run. reflexivity.
Qed.

End Tables.

Lemma accept_all : forall t c, accept t c = Success.
Proof. intros t c. reflexivity. Qed.

Lemma reconcile_applies_to_both_channels_witness :
  let w' := snd (update_clan_permissions accept 1 alpha_created) in
  let ow := desired_overwrites (guild alpha_created) alpha_role (leader_id alpha_row)
              (get_members 1 (db alpha_created)) in
  option_map channel_overwrites (get_channel (text_channel_id alpha_row) (guild w'))
  = Some ow /\
  option_map channel_overwrites (get_channel (voice_channel_id alpha_row) (guild w'))
  = Some ow.
Proof.
  assert (Hres : exists t v l,
            resolve 1 alpha_created = Some (alpha_row, alpha_role, t, v, l))
    by (vm_compute; do 3 eexists; reflexivity).
  destruct Hres as [t [v [l Hres]]].
  destruct (reconcile_applies_to_both_channels accept 1 alpha_created
              alpha_row alpha_role t v l Hres eq_refl eq_refl) as [H1 [H2 _]].
  split; [exact H1 | exact H2].
Defined.

Lemma store_stays_sound_witness :
  store_sound (db start) /\
  store_sound (db (serve_all accept
                     [CreateClan 101 "Alpha"; InviteClan 101 102 "Alpha";
                      MemberRemove 102; DisbandClan 101 "Alpha"] start)).
Proof.
  assert (H0 : store_sound (db start)).
  { split; [constructor |]. split; [constructor |]. split; [constructor |].
    split; [intros p [] | intros c []]. }
  split; [exact H0 |].
  exact (store_stays_sound accept _ start H0).
Defined.

Lemma invite_records_member_witness :
  get_clan_by_name "Alpha" (db alpha_created) = Some alpha_row /\
  get_role "Alpha" (guild alpha_created) = Some alpha_role /\
  has_member (clan_id alpha_row) 102
    (db (snd (invite_clan accept 101 102 "Alpha" alpha_created))) = true.
Proof.
  assert (Hclan : get_clan_by_name "Alpha" (db alpha_created) = Some alpha_row)
    by (vm_compute; reflexivity).
  assert (Hrole : get_role "Alpha" (guild alpha_created) = Some alpha_role)
    by (vm_compute; reflexivity).
  destruct (invite_records_member accept 101 102 "Alpha" alpha_created alpha_row
              alpha_role Hclan eq_refl Hrole eq_refl) as [_ [H _]].
  split; [exact Hclan |]. split; [exact Hrole | exact H].
Defined.

Lemma kick_removes_member_witness :
  get_clan_by_name "Alpha" (db alpha_of_two) = Some alpha_row /\
  get_role "Alpha" (guild alpha_of_two) = Some alpha_role /\
  has_member (clan_id alpha_row) 102
    (db (snd (kick_clan accept 101 102 "Alpha" alpha_of_two))) = false.
Proof.
  assert (Hclan : get_clan_by_name "Alpha" (db alpha_of_two) = Some alpha_row)
    by (vm_compute; reflexivity).
  assert (Hrole : get_role "Alpha" (guild alpha_of_two) = Some alpha_role)
    by (vm_compute; reflexivity).
  destruct (kick_removes_member accept 101 102 "Alpha" alpha_of_two alpha_row
              alpha_role Hclan eq_refl Hrole eq_refl) as [_ [H _]].
  split; [exact Hclan |]. split; [exact Hrole | exact H].
Defined.

Lemma invite_then_kick_restores_store_witness :
  has_member (clan_id alpha_row) 102 (db alpha_created) = false /\
  db (snd (kick_clan accept 101 102 "Alpha"
             (snd (invite_clan accept 101 102 "Alpha" alpha_created))))
  = db alpha_created.
Proof.
  assert (Hclan : get_clan_by_name "Alpha" (db alpha_created) = Some alpha_row)
    by (vm_compute; reflexivity).
  assert (Hrole : get_role "Alpha" (guild alpha_created) = Some alpha_role)
    by (vm_compute; reflexivity).
  assert (Habs : has_member (clan_id alpha_row) 102 (db alpha_created) = false)
    by (vm_compute; reflexivity).
  destruct (invite_then_kick_restores_store accept 101 102 "Alpha" alpha_created
              alpha_row alpha_role Hclan eq_refl Hrole
              (fun _ => eq_refl) (fun _ => eq_refl) Habs) as [_ H].
  split; [exact Habs | exact H].
Defined.

Lemma invite_twice_is_invite_once_witness :
  db (snd (invite_clan accept 101 102 "Alpha"
             (snd (invite_clan accept 101 102 "Alpha" alpha_created))))
  = db (snd (invite_clan accept 101 102 "Alpha" alpha_created)).
Proof.
  assert (Hclan : get_clan_by_name "Alpha" (db alpha_created) = Some alpha_row)
    by (vm_compute; reflexivity).
  assert (Hrole : get_role "Alpha" (guild alpha_created) = Some alpha_role)
    by (vm_compute; reflexivity).
  exact (invite_twice_is_invite_once accept 101 102 "Alpha" alpha_created
           alpha_row alpha_role Hclan eq_refl Hrole (fun _ => eq_refl)).
Defined.

Lemma kick_of_absent_member_keeps_store_witness :
  db (snd (kick_clan accept 101 103 "Alpha" alpha_of_two)) = db alpha_of_two.
Proof.
  apply (kick_of_absent_member_keeps_store accept 101 103 "Alpha" alpha_of_two).
  intros clan Hclan.
  assert (Hrow : get_clan_by_name "Alpha" (db alpha_of_two) = Some alpha_row)
    by (vm_compute; reflexivity).
  assert (clan = alpha_row) by congruence. subst clan.
  vm_compute. reflexivity.
Defined.

Lemma create_refused_changes_nothing_witness :
  create_refused 101 "Beta" alpha_created = true /\
  only_replied accept alpha_created (snd (create_clan accept 101 "Beta" alpha_created)).
Proof.
  assert (H : create_refused 101 "Beta" alpha_created = true)
    by (vm_compute; reflexivity).
  split; [exact H |].
  exact (create_refused_changes_nothing accept 101 "Beta" alpha_created H).
Defined.

Lemma create_without_role_privilege_witness :
  create_refused 101 "Alpha" start = false /\
  db (snd (create_clan deny_role 101 "Alpha" start)) = db start /\
  guild (snd (create_clan deny_role 101 "Alpha" start)) = guild start.
Proof.
  assert (H : create_refused 101 "Alpha" start = false) by (vm_compute; reflexivity).
  destruct (create_without_role_privilege deny_role 101 "Alpha" start H eq_refl)
    as [Hd [Hg _]].
  split; [exact H |]. split; [exact Hd | exact Hg].
Defined.

Lemma category_is_found_or_created_witness :
  get_category (category_name_of "Alpha") (guild start) = None /\
  exists c,
    fst (get_or_create_category_for_clan accept "Alpha" start) = Ok (Some c) /\
    get_or_create_category_for_clan accept "Alpha"
      (snd (get_or_create_category_for_clan accept "Alpha" start))
    = (Ok (Some c), snd (get_or_create_category_for_clan accept "Alpha" start)).
Proof.
  assert (Hn : get_category (category_name_of "Alpha") (guild start) = None)
    by (vm_compute; reflexivity).
  split; [exact Hn |].
  destruct (category_is_found_or_created accept "Alpha" start) as [_ [Hnew _]].
  destruct (Hnew Hn eq_refl) as [c [H1 [_ [_ [_ H2]]]]].
  exists c. split; [exact H1 | exact H2].
Defined.

Lemma create_records_clan_witness :
  get_user_clan 101 (db start) = None /\
  ascii_name "Alpha" = true /\
  exists text voice,
    fst (create_clan accept 101 "Alpha" start) = Ok tt /\
    get_role "Alpha" (guild (snd (create_clan accept 101 "Alpha" start)))
    = Some {| role_id := next_snowflake (guild start); role_name := "Alpha" |} /\
    In text (channels (guild (snd (create_clan accept 101 "Alpha" start)))) /\
    In voice (channels (guild (snd (create_clan accept 101 "Alpha" start)))) /\
    channel_name text = "alpha-text"%string /\
    channel_name voice = "alpha-voice"%string.
Proof.
  assert (Hu : get_user_clan 101 (db start) = None) by (vm_compute; reflexivity).
  assert (Hn : get_clan_by_name "Alpha" (db start) = None) by (vm_compute; reflexivity).
  assert (Hr : get_role "Alpha" (guild start) = None) by (vm_compute; reflexivity).
  assert (Ha : ascii_name "Alpha" = true) by (vm_compute; reflexivity).
  destruct (create_records_clan accept accept_all 101 "Alpha" start Hu Hn Hr)
    as [category [text [voice [H1 [_ [H3 [_ [H5 [H6 [_ [_ [_ [_ [_ [_ [Hnames _]]]]]]]]]]]]]]]].
  destruct (Hnames Ha) as [Ht Hv].
  split; [exact Hu |]. split; [exact Ha |].
  exists text, voice.
  split; [exact H1 |]. split; [exact H3 |]. split; [exact H5 |].
  split; [exact H6 |]. split; [exact Ht | exact Hv].
Defined.

Lemma create_records_or_rolls_back_witness :
  (forall t c text, deny_voice_channel t c <> Failed text) /\
  get_clan_by_name "Alpha" (db (snd (create_clan deny_voice_channel 101 "Alpha" start)))
  = None /\
  rolled_back start (snd (create_clan deny_voice_channel 101 "Alpha" start)).
Proof.
  assert (H : forall t c text, deny_voice_channel t c <> Failed text)
    by (intros t c text; destruct c; discriminate).
  assert (Hn : get_clan_by_name "Alpha"
                 (db (snd (create_clan deny_voice_channel 101 "Alpha" start))) = None)
    by (vm_compute; reflexivity).
  split; [exact H |]. split; [exact Hn |].
  destruct (create_records_or_rolls_back deny_voice_channel H
              (fun _ _ => eq_refl) (fun _ _ => eq_refl) (fun _ _ => eq_refl)
              (fun _ _ _ => eq_refl) 101 "Alpha" start) as [Hrec | Hr].
  - exfalso. apply Hrec. exact Hn.
  - exact Hr.
Defined.

Lemma created_clan_is_found_witness :
  get_user_clan 101 (db (snd (create_clan accept 101 "Alpha" start)))
  = Some (next_rowid (db start)).
Proof.
  assert (Hu : get_user_clan 101 (db start) = None) by (vm_compute; reflexivity).
  assert (Hn : get_clan_by_name "Alpha" (db start) = None) by (vm_compute; reflexivity).
  assert (Hr : get_role "Alpha" (guild start) = None) by (vm_compute; reflexivity).
  destruct (created_clan_is_found accept accept_all 101 "Alpha" start Hu Hn Hr)
    as [_ [H _]].
  exact H.
Defined.

Lemma add_then_remove_restores_rows_witness :
  clan_members
    (db (snd (remove_clan_from_db (next_rowid (db alpha_of_two))
                (snd (add_clan_to_db "Beta" 103 7 8 alpha_of_two)))))
  = clan_members (db alpha_of_two).
Proof.
  assert (Hn : get_clan_by_name "Beta" (db alpha_of_two) = None)
    by (vm_compute; reflexivity).
  assert (Hf : forall p, In p (clan_members (db alpha_of_two)) ->
                         fst p <> next_rowid (db alpha_of_two)).
  { assert (Hm : clan_members (db alpha_of_two) = [(1, 101); (1, 102)])
      by (vm_compute; reflexivity).
    assert (Hx : next_rowid (db alpha_of_two) = 2) by (vm_compute; reflexivity).
    rewrite Hm, Hx. intros p [<- | [<- | []]]; discriminate. }
  destruct (add_then_remove_restores_rows "Beta" 103 7 8 alpha_of_two Hn Hf)
    as [_ [_ [H _]]].
  exact H.
Defined.

Lemma disband_removes_everything_witness :
  get_clan_by_name "Alpha" (db alpha_of_two) = Some alpha_row /\
  fst (disband_clan accept 101 "Alpha" alpha_of_two) = Ok tt /\
  db (snd (disband_clan accept 101 "Alpha" alpha_of_two))
  = delete_clan_rows (clan_id alpha_row) (db alpha_of_two) /\
  get_channel (text_channel_id alpha_row)
    (guild (snd (disband_clan accept 101 "Alpha" alpha_of_two))) = None.
Proof.
  assert (Hclan : get_clan_by_name "Alpha" (db alpha_of_two) = Some alpha_row)
    by (vm_compute; reflexivity).
  destruct (disband_removes_everything accept accept_all 101 "Alpha" alpha_of_two
              alpha_row Hclan eq_refl) as [H1 [H2 [_ [H4 _]]]].
  split; [exact Hclan |]. split; [exact H1 |]. split; [exact H2 | exact H4].
Defined.
